(** * cloudpork-agent: the analysis pipeline and its report normaliser

    A shallow embedding of the Go packages [internal/types],
    [internal/claude], [internal/analyzer] and [internal/api], of the key
    and project-ID functions of [internal/config] and of the analyze
    command of [cmd], with the properties the specification states about
    them and further properties of the code.

    Conventions.
    - Go [int] (64 bits on every target of the Makefile) is [Z]; no function
      modelled here does arithmetic on an [int], so no wrap-around arises.
    - Go [float64] is IEEE-754 binary64, modelled by the Standard Library's
      executable specification [spec_float] at precision 53 and maximal
      exponent 1024.
    - Go [string] is a sequence of bytes: [String.string].
    - A slice is a [list]; the [nil] slice and the empty slice are both [[]]
      (the code only takes [len] of them and appends to them).
    - A method that mutates the [types.CodeAnalysis] it points to is a
      function from the record to the updated record.
    - What the program prints on the console is not modelled. *)

From Stdlib Require Import ZArith List String Ascii Bool Lia SpecFloat.
From Stdlib Require Import DecimalString QArith Qminmax.
Import ListNotations.
Open Scope Z_scope.

(** ** float64 *)

Module Float64.

Definition prec : Z := 53.
Definition emax : Z := 1024.

Definition float64 : Type := spec_float.

Definition mul : float64 -> float64 -> float64 := SFmul prec emax.
Definition div : float64 -> float64 -> float64 := SFdiv prec emax.
Definition ltb : float64 -> float64 -> bool := SFltb.
Definition gtb (x y : float64) : bool := SFltb y x.
Definition eqb : float64 -> float64 -> bool := SFeqb.
Definition leb : float64 -> float64 -> bool := SFleb.

(** [float64(n)] for an [int] n: the nearest binary64, ties to even. *)
Definition of_int (n : Z) : float64 := binary_normalize prec emax n 0 false.

(** An untyped decimal constant [n / 10^k] of the source text, rounded
    once to binary64 as the compiler does: [10^k = 5^k * 2^k]. *)
Definition of_decimal (n : positive) (k : nat) : float64 :=
  let '(q, e, l) :=
    SFdiv_core_binary prec emax (Zpos n) (- Z.of_nat k)
                      (Z.pow 5 (Z.of_nat k)) 0 in
  binary_round_aux prec emax false q e l.

Definition is_nan (x : float64) : bool :=
  match x with S754_nan => true | _ => false end.

(** The integer part of a finite value (rounding toward zero). *)
Definition trunc (x : float64) : option Z :=
  match x with
  | S754_zero _ => Some 0
  | S754_finite s m e =>
      Some (cond_Zopp s (if 0 <=? e then Z.shiftl (Zpos m) e
                         else Z.shiftr (Zpos m) (- e)))
  | S754_infinity _ | S754_nan => None
  end.

Definition min_int : Z := - 2 ^ 63.
Definition max_int : Z := 2 ^ 63 - 1.

(** [int(x)]: the fraction is discarded.  When the value is not
    representable in [int] (too large, infinite, NaN) the Go specification
    leaves the result to the implementation; [oor] is that result. *)
Definition to_int (oor : float64 -> Z) (x : float64) : Z :=
  match trunc x with
  | Some z => if (min_int <=? z) && (z <=? max_int) then z else oor x
  | None => oor x
  end.

(** What amd64 does with an unrepresentable value ([CVTTSD2SQ]). *)
Definition oor_amd64 (_ : float64) : Z := min_int.

End Float64.

Import Float64.

(** ** package types *)

Record ResourceMetrics : Type := mkResourceMetrics {
  MemoryMB      : Z;
  CPUCores      : float64;
  DatabaseConns : Z;
  NetworkMbps   : Z;
  StorageGB     : Z
}.

Record Bottleneck : Type := mkBottleneck {
  bn_Type        : string;
  bn_Description : string;
  bn_Severity    : string;
  bn_Impact      : string
}.

Record SecurityIssue : Type := mkSecurityIssue {
  si_Type        : string;
  si_Description : string;
  si_Severity    : string;
  si_Line        : Z;
  si_File        : string
}.

Record PerformanceMetrics : Type := mkPerformanceMetrics {
  AvgResponseTime  : Z;
  DatabaseQueries  : Z;
  CacheHitRate     : Z;
  HasNPlusOneQuery : bool;
  HasLargePayloads : bool
}.

(** [time.Time] is opaque to the pipeline: an instant counted in
    nanoseconds. *)
Definition Time : Type := Z.

Record CodeAnalysis : Type := mkCodeAnalysis {
  ProjectID          : string;
  Timestamp          : Time;
  Directory          : string;
  Language           : string;
  Framework          : string;
  Dependencies       : list string;
  DatabaseCalls      : Z;
  ApiEndpoints       : Z;
  StatelessFuncs     : Z;
  BackgroundJobs     : list string;
  CacheUsage         : list string;
  FileUploads        : bool;
  ComplexityScore    : Z;
  ScalingBottlenecks : list Bottleneck;
  ResourceUsage      : ResourceMetrics;
  EstimatedUsers     : Z;
  SecurityIssues     : list SecurityIssue;
  Performance        : PerformanceMetrics
}.

(** The zero value of the struct. *)
Definition zeroResourceMetrics : ResourceMetrics :=
  mkResourceMetrics 0 (S754_zero false) 0 0 0.

Definition zeroPerformanceMetrics : PerformanceMetrics :=
  mkPerformanceMetrics 0 0 0 false false.

Definition zeroCodeAnalysis : CodeAnalysis :=
  mkCodeAnalysis "" 0 "" "" "" [] 0 0 0 [] [] false 0 []
                 zeroResourceMetrics 0 [] zeroPerformanceMetrics.

(** Assignments to single fields. *)

Definition set_MemoryMB (v : Z) (r : ResourceMetrics) : ResourceMetrics :=
  mkResourceMetrics v (CPUCores r) (DatabaseConns r) (NetworkMbps r)
                    (StorageGB r).

Definition set_CPUCores (v : float64) (r : ResourceMetrics)
  : ResourceMetrics :=
  mkResourceMetrics (MemoryMB r) v (DatabaseConns r) (NetworkMbps r)
                    (StorageGB r).

Definition set_DatabaseConns (v : Z) (r : ResourceMetrics)
  : ResourceMetrics :=
  mkResourceMetrics (MemoryMB r) (CPUCores r) v (NetworkMbps r)
                    (StorageGB r).

Definition set_NetworkMbps (v : Z) (r : ResourceMetrics)
  : ResourceMetrics :=
  mkResourceMetrics (MemoryMB r) (CPUCores r) (DatabaseConns r) v
                    (StorageGB r).

Definition set_StorageGB (v : Z) (r : ResourceMetrics) : ResourceMetrics :=
  mkResourceMetrics (MemoryMB r) (CPUCores r) (DatabaseConns r)
                    (NetworkMbps r) v.

Definition set_HasNPlusOneQuery (v : bool) (p : PerformanceMetrics)
  : PerformanceMetrics :=
  mkPerformanceMetrics (AvgResponseTime p) (DatabaseQueries p)
                       (CacheHitRate p) v (HasLargePayloads p).

Definition set_HasLargePayloads (v : bool) (p : PerformanceMetrics)
  : PerformanceMetrics :=
  mkPerformanceMetrics (AvgResponseTime p) (DatabaseQueries p)
                       (CacheHitRate p) (HasNPlusOneQuery p) v.

Definition set_Language (v : string) (a : CodeAnalysis) : CodeAnalysis :=
  mkCodeAnalysis (ProjectID a) (Timestamp a) (Directory a) v (Framework a)
    (Dependencies a) (DatabaseCalls a) (ApiEndpoints a) (StatelessFuncs a)
    (BackgroundJobs a) (CacheUsage a) (FileUploads a) (ComplexityScore a)
    (ScalingBottlenecks a) (ResourceUsage a) (EstimatedUsers a)
    (SecurityIssues a) (Performance a).

Definition set_Framework (v : string) (a : CodeAnalysis) : CodeAnalysis :=
  mkCodeAnalysis (ProjectID a) (Timestamp a) (Directory a) (Language a) v
    (Dependencies a) (DatabaseCalls a) (ApiEndpoints a) (StatelessFuncs a)
    (BackgroundJobs a) (CacheUsage a) (FileUploads a) (ComplexityScore a)
    (ScalingBottlenecks a) (ResourceUsage a) (EstimatedUsers a)
    (SecurityIssues a) (Performance a).

Definition set_Dependencies (v : list string) (a : CodeAnalysis)
  : CodeAnalysis :=
  mkCodeAnalysis (ProjectID a) (Timestamp a) (Directory a) (Language a)
    (Framework a) v (DatabaseCalls a) (ApiEndpoints a) (StatelessFuncs a)
    (BackgroundJobs a) (CacheUsage a) (FileUploads a) (ComplexityScore a)
    (ScalingBottlenecks a) (ResourceUsage a) (EstimatedUsers a)
    (SecurityIssues a) (Performance a).

Definition set_DatabaseCalls (v : Z) (a : CodeAnalysis) : CodeAnalysis :=
  mkCodeAnalysis (ProjectID a) (Timestamp a) (Directory a) (Language a)
    (Framework a) (Dependencies a) v (ApiEndpoints a) (StatelessFuncs a)
    (BackgroundJobs a) (CacheUsage a) (FileUploads a) (ComplexityScore a)
    (ScalingBottlenecks a) (ResourceUsage a) (EstimatedUsers a)
    (SecurityIssues a) (Performance a).

Definition set_ApiEndpoints (v : Z) (a : CodeAnalysis) : CodeAnalysis :=
  mkCodeAnalysis (ProjectID a) (Timestamp a) (Directory a) (Language a)
    (Framework a) (Dependencies a) (DatabaseCalls a) v (StatelessFuncs a)
    (BackgroundJobs a) (CacheUsage a) (FileUploads a) (ComplexityScore a)
    (ScalingBottlenecks a) (ResourceUsage a) (EstimatedUsers a)
    (SecurityIssues a) (Performance a).

Definition set_BackgroundJobs (v : list string) (a : CodeAnalysis)
  : CodeAnalysis :=
  mkCodeAnalysis (ProjectID a) (Timestamp a) (Directory a) (Language a)
    (Framework a) (Dependencies a) (DatabaseCalls a) (ApiEndpoints a)
    (StatelessFuncs a) v (CacheUsage a) (FileUploads a) (ComplexityScore a)
    (ScalingBottlenecks a) (ResourceUsage a) (EstimatedUsers a)
    (SecurityIssues a) (Performance a).

Definition set_CacheUsage (v : list string) (a : CodeAnalysis) : CodeAnalysis :=
  mkCodeAnalysis (ProjectID a) (Timestamp a) (Directory a) (Language a)
    (Framework a) (Dependencies a) (DatabaseCalls a) (ApiEndpoints a)
    (StatelessFuncs a) (BackgroundJobs a) v (FileUploads a)
    (ComplexityScore a) (ScalingBottlenecks a) (ResourceUsage a)
    (EstimatedUsers a) (SecurityIssues a) (Performance a).

Definition set_FileUploads (v : bool) (a : CodeAnalysis) : CodeAnalysis :=
  mkCodeAnalysis (ProjectID a) (Timestamp a) (Directory a) (Language a)
    (Framework a) (Dependencies a) (DatabaseCalls a) (ApiEndpoints a)
    (StatelessFuncs a) (BackgroundJobs a) (CacheUsage a) v
    (ComplexityScore a) (ScalingBottlenecks a) (ResourceUsage a)
    (EstimatedUsers a) (SecurityIssues a) (Performance a).

Definition set_ComplexityScore (v : Z) (a : CodeAnalysis) : CodeAnalysis :=
  mkCodeAnalysis (ProjectID a) (Timestamp a) (Directory a) (Language a)
    (Framework a) (Dependencies a) (DatabaseCalls a) (ApiEndpoints a)
    (StatelessFuncs a) (BackgroundJobs a) (CacheUsage a) (FileUploads a) v
    (ScalingBottlenecks a) (ResourceUsage a) (EstimatedUsers a)
    (SecurityIssues a) (Performance a).

Definition set_ScalingBottlenecks (v : list Bottleneck) (a : CodeAnalysis)
  : CodeAnalysis :=
  mkCodeAnalysis (ProjectID a) (Timestamp a) (Directory a) (Language a)
    (Framework a) (Dependencies a) (DatabaseCalls a) (ApiEndpoints a)
    (StatelessFuncs a) (BackgroundJobs a) (CacheUsage a) (FileUploads a)
    (ComplexityScore a) v (ResourceUsage a) (EstimatedUsers a)
    (SecurityIssues a) (Performance a).

Definition set_ResourceUsage (v : ResourceMetrics) (a : CodeAnalysis)
  : CodeAnalysis :=
  mkCodeAnalysis (ProjectID a) (Timestamp a) (Directory a) (Language a)
    (Framework a) (Dependencies a) (DatabaseCalls a) (ApiEndpoints a)
    (StatelessFuncs a) (BackgroundJobs a) (CacheUsage a) (FileUploads a)
    (ComplexityScore a) (ScalingBottlenecks a) v (EstimatedUsers a)
    (SecurityIssues a) (Performance a).

Definition set_EstimatedUsers (v : Z) (a : CodeAnalysis) : CodeAnalysis :=
  mkCodeAnalysis (ProjectID a) (Timestamp a) (Directory a) (Language a)
    (Framework a) (Dependencies a) (DatabaseCalls a) (ApiEndpoints a)
    (StatelessFuncs a) (BackgroundJobs a) (CacheUsage a) (FileUploads a)
    (ComplexityScore a) (ScalingBottlenecks a) (ResourceUsage a) v
    (SecurityIssues a) (Performance a).

Definition set_Performance (v : PerformanceMetrics) (a : CodeAnalysis)
  : CodeAnalysis :=
  mkCodeAnalysis (ProjectID a) (Timestamp a) (Directory a) (Language a)
    (Framework a) (Dependencies a) (DatabaseCalls a) (ApiEndpoints a)
    (StatelessFuncs a) (BackgroundJobs a) (CacheUsage a) (FileUploads a)
    (ComplexityScore a) (ScalingBottlenecks a) (ResourceUsage a)
    (EstimatedUsers a) (SecurityIssues a) v.

(** [len(s)] of a slice. *)
Definition len {A : Type} (l : list A) : Z := Z.of_nat (List.length l).

(** [s == ""]. *)
Definition is_empty (s : string) : bool :=
  match s with EmptyString => true | String _ _ => false end.

(** ** Go library functions on byte strings

    The parts of [strings], [strconv] and [fmt] the pipeline calls, on the
    bytes they see.  What depends on Unicode tables is a parameter of the
    function that needs it. *)

Module Strings.

Definition byte (a : ascii) : Z := Z.of_N (N_of_ascii a).

Definition nl : string := String "010" "".
Definition dquote : string := String "034" "".

Definition is_upper (a : ascii) : bool := (65 <=? byte a) && (byte a <=? 90).
Definition is_digit (a : ascii) : bool := (48 <=? byte a) && (byte a <=? 57).

Definition lower_byte (a : ascii) : ascii :=
  if is_upper a then ascii_of_N (N_of_ascii a + 32) else a.

Fixpoint isASCII (s : string) : bool :=
  match s with
  | EmptyString => true
  | String a s' => (byte a <? 128) && isASCII s'
  end.

Fixpoint map_bytes (f : ascii -> ascii) (s : string) : string :=
  match s with
  | EmptyString => EmptyString
  | String a s' => String (f a) (map_bytes f s')
  end.

(** [strings.ToLower]: bytes are lowered one by one when the text is ASCII;
    otherwise every rune goes through [unicode.ToLower], here
    [unicode_lower]. *)
Definition ToLower (unicode_lower : string -> string) (s : string) : string :=
  if isASCII s then map_bytes lower_byte s else unicode_lower s.

(** [strings.Contains] *)
Fixpoint Contains (s substr : string) : bool :=
  if String.prefix substr s then true
  else match s with
       | EmptyString => false
       | String _ s' => Contains s' substr
       end.

(** [strings.Split(s, sep)] for a separator of one byte. *)
Fixpoint Split (s : string) (sep : ascii) : list string :=
  match s with
  | EmptyString => [EmptyString]
  | String a s' =>
      if Ascii.eqb a sep then EmptyString :: Split s' sep
      else match Split s' sep with
           | h :: t => String a h :: t
           | [] => [String a EmptyString]
           end
  end.

Fixpoint digits_value (acc : Z) (s : string) : option Z :=
  match s with
  | EmptyString => Some acc
  | String a s' =>
      if is_digit a then digits_value (acc * 10 + (byte a - 48)) s' else None
  end.

(** [strconv.Atoi]: an optional sign, then one decimal digit or more; a
    value outside [int] is an error.  [None] is [err != nil]. *)
Definition Atoi (s : string) : option Z :=
  let '(neg, body) :=
    match s with
    | String "-" s' => (true, s')
    | String "+" s' => (false, s')
    | _ => (false, s)
    end in
  match body with
  | EmptyString => None
  | _ =>
      match digits_value 0 body with
      | Some n =>
          let v := if neg : bool then - n else n in
          if (min_int <=? v) && (v <=? max_int) then Some v else None
      | None => None
      end
  end.

Fixpoint span_digits (s : string) : string * string :=
  match s with
  | String a s' =>
      if is_digit a then
        let '(d, rest) := span_digits s' in (String a d, rest)
      else (EmptyString, s)
  | EmptyString => (EmptyString, EmptyString)
  end.

(** The nearest [float64] to [n / 10^k], or [None] when that is out of
    range. *)
Definition decimal_value (n : Z) (k : nat) : option float64 :=
  match n with
  | Zpos p =>
      match of_decimal p k with
      | S754_infinity _ => None
      | x => Some x
      end
  | _ => Some (S754_zero false)
  end.

(** [strconv.ParseFloat(s, 64)] on the numerals the patterns of the source
    capture: decimal digits, then possibly a point and more digits.  Any
    other text is [None] here. *)
Definition ParseDecimal (s : string) : option float64 :=
  let '(int_part, rest) := span_digits s in
  match int_part, rest with
  | String _ _, EmptyString =>
      match digits_value 0 int_part with
      | Some n => decimal_value n 0
      | None => None
      end
  | String _ _, String "." fraction =>
      let '(frac_part, rest') := span_digits fraction in
      match frac_part, rest' with
      | String _ _, EmptyString =>
          match digits_value 0 (int_part ++ frac_part) with
          | Some n => decimal_value n (String.length frac_part)
          | None => None
          end
      | _, _ => None
      end
  | _, _ => None
  end.

(** The verb [%d] of [fmt]. *)
Definition itoa (n : Z) : string :=
  DecimalString.NilZero.string_of_int (Z.to_int n).

(** [hex.EncodeToString]: two lower-case hexadecimal digits for a byte. *)
Definition hex_digit (n : N) : ascii :=
  if (n <? 10)%N then ascii_of_N (48 + n) else ascii_of_N (87 + n).

Fixpoint EncodeToString (src : string) : string :=
  match src with
  | EmptyString => EmptyString
  | String b rest =>
      String (hex_digit (N_of_ascii b / 16))
             (String (hex_digit (N_of_ascii b mod 16)) (EncodeToString rest))
  end.

End Strings.

(** ** package regexp, for the patterns of the source

    A compiled pattern is its syntax tree; every pattern of the source is
    compiled under the flag [(?i)].  Repetition is only ever applied to a
    class of single bytes ([\d+], [.*], [.*?]), which makes the matcher
    structurally recursive.  The matcher is the backtracking one whose first
    success is the leftmost-first match [FindStringSubmatch] reports. *)

Module Regexp.
Import Strings.

Inductive class : Type :=
| Digit      (* \d : 0-9 *)
| AnyChar.   (* .  : anything but a line feed *)

Inductive regex : Type :=
| Lit (s : string)               (* literal text, letters folded *)
| Plus (c : class)               (* c+  *)
| Star (c : class)               (* c*  *)
| LazyStar (c : class)           (* c*? *)
| Seq (r1 r2 : regex)
| Alt (r1 r2 : regex)
| Opt (r : regex)                (* (?:r)? *)
| Group (n : nat) (r : regex).   (* the n-th capturing group *)

Definition in_class (c : class) (a : ascii) : bool :=
  match c with
  | Digit => is_digit a
  | AnyChar => negb (Ascii.eqb a "010")
  end.

(** One literal byte against the head of the input, case folded.  Simple
    folding also relates s to U+017F and k to U+212A, in UTF-8 the bytes
    C5 BF and E2 84 AA. *)
Definition fold_byte (c : ascii) (s : string) : option string :=
  match s with
  | EmptyString => None
  | String a s' =>
      if Ascii.eqb (lower_byte a) (lower_byte c) then Some s'
      else if Ascii.eqb (lower_byte c) "s" then
        match a, s' with
        | "197"%char, String "191" s2 => Some s2
        | _, _ => None
        end
      else if Ascii.eqb (lower_byte c) "k" then
        match a, s' with
        | "226"%char, String "132" (String "170" s3) => Some s3
        | _, _ => None
        end
      else None
  end.

Fixpoint literal (l s : string) : option string :=
  match l with
  | EmptyString => Some s
  | String c l' =>
      match fold_byte c s with
      | Some s' => literal l' s'
      | None => None
      end
  end.

Definition captures : Type := list (nat * string).

Fixpoint capture (n : nat) (c : captures) : string :=
  match c with
  | [] => EmptyString
  | (m, s) :: c' => if Nat.eqb m n then s else capture n c'
  end.

(** The text consumed between an input and one of its suffixes. *)
Definition consumed (s rest : string) : string :=
  String.substring 0 (String.length s - String.length rest) s.

Section Matcher.
Variable R : Type.

Fixpoint greedy (p : ascii -> bool) (s : string) (k : string -> option R)
  : option R :=
  match s with
  | String a s' =>
      if p a then
        match greedy p s' k with
        | Some r => Some r
        | None => k s
        end
      else k s
  | EmptyString => k s
  end.

Fixpoint lazy (p : ascii -> bool) (s : string) (k : string -> option R)
  : option R :=
  match k s with
  | Some r => Some r
  | None =>
      match s with
      | String a s' => if p a then lazy p s' k else None
      | EmptyString => None
      end
  end.

Fixpoint run (r : regex) (s : string) (c : captures)
         (k : string -> captures -> option R) : option R :=
  match r with
  | Lit l =>
      match literal l s with
      | Some s' => k s' c
      | None => None
      end
  | Plus p =>
      match s with
      | String a s' =>
          if in_class p a then greedy (in_class p) s' (fun s2 => k s2 c)
          else None
      | EmptyString => None
      end
  | Star p => greedy (in_class p) s (fun s2 => k s2 c)
  | LazyStar p => lazy (in_class p) s (fun s2 => k s2 c)
  | Seq r1 r2 => run r1 s c (fun s1 c1 => run r2 s1 c1 k)
  | Alt r1 r2 =>
      match run r1 s c k with
      | Some x => Some x
      | None => run r2 s c k
      end
  | Opt r1 =>
      match run r1 s c k with
      | Some x => Some x
      | None => k s c
      end
  | Group n r1 => run r1 s c (fun s1 c1 => k s1 ((n, consumed s s1) :: c1))
  end.

End Matcher.

(** The leftmost match: the earliest start at which the matcher succeeds.
    The result is the matched text and the captures. *)
Fixpoint find (r : regex) (s : string) : option (string * captures) :=
  match run _ r s [] (fun rest c => Some (consumed s rest, c)) with
  | Some m => Some m
  | None =>
      match s with
      | String _ s' => find r s'
      | EmptyString => None
      end
  end.

Fixpoint NumSubexp (r : regex) : nat :=
  match r with
  | Lit _ | Plus _ | Star _ | LazyStar _ => 0
  | Seq r1 r2 | Alt r1 r2 => NumSubexp r1 + NumSubexp r2
  | Opt r1 => NumSubexp r1
  | Group _ r1 => S (NumSubexp r1)
  end.

(** [re.FindStringSubmatch(text)]: [nil] without a match, else the match
    followed by the text of each group (empty for a group that took no
    part). *)
Definition FindStringSubmatch (re : regex) (text : string) : list string :=
  match find re text with
  | None => []
  | Some (whole, c) =>
      whole :: List.map (fun n => capture n c) (List.seq 1 (NumSubexp re))
  end.

End Regexp.

(** ** The host: what the program reads from outside itself *)

(** A Go [error] is its message. *)
Definition error : Type := string.

(** [fmt.Errorf(prefix + ": %v", err)] *)
Definition wrap (prefix : string) (err : error) : error :=
  (prefix ++ ": " ++ err)%string.

(** The structure the first pass decodes with [json.Unmarshal]. *)
Record BasicStructure : Type := mkBasicStructure {
  js_Language       : string;
  js_Framework      : string;
  js_Dependencies   : list string;
  js_ApiEndpoints   : Z;
  js_BackgroundJobs : list string;
  js_FileUploads    : bool
}.

Record Host : Type := mkHost {
  (* Go library code over Unicode tables or outside the repository *)
  unicode_lower  : string -> string;           (* runes through unicode.ToLower *)
  TrimSpace      : string -> string;           (* strings.TrimSpace *)
  Title          : string -> string;           (* strings.Title *)
  ParseFloat     : string -> option float64;   (* strconv.ParseFloat(s, 64);
                                                  None when it errs *)
  json_Unmarshal : string -> option BasicStructure;  (* None when it errs *)
  int_oor        : float64 -> Z;               (* int(x), x not representable *)
  (* the machine *)
  LookPath       : string -> bool;             (* exec.LookPath finds the file *)
  Now            : Time;                       (* time.Now() *)
  NotExist       : string -> bool;             (* os.Stat reports IsNotExist *)
  (* the external tool: its n-th run, on a prompt and a directory, gives
     the combined output and the error of [cmd.CombinedOutput] *)
  claude_code    : nat -> string -> string -> string * option error
}.

(** One run of the external tool, as it happened. *)
Record Invocation : Type := mkInvocation {
  inv_prompt    : string;
  inv_directory : string;
  inv_output    : string;
  inv_err       : option error
}.

(** The runs made so far, the latest first. *)
Definition World : Type := list Invocation.

(** Computations that run the tool. *)
Definition IO (A : Type) : Type := World -> A * World.

Definition ret {A : Type} (a : A) : IO A := fun w => (a, w).

Definition bind {A B : Type} (m : IO A) (f : A -> IO B) : IO B :=
  fun w => let '(a, w') := m w in f a w'.

Declare Scope io_scope.
Delimit Scope io_scope with io.
Notation "x <- m ;; k" := (bind m (fun x => k))
  (at level 61, m at next level, right associativity) : io_scope.

(** [exec.Command("claude", "code", "--prompt", prompt, "--directory", dir)
    .CombinedOutput()] *)
Definition CombinedOutput (h : Host) (prompt dir : string)
  : IO (string * option error) :=
  fun w =>
    let '(out, err) := claude_code h (List.length w) prompt dir in
    ((out, err), mkInvocation prompt dir out err :: w).

(** ** package claude: the passes and their extractors *)

Module Claude.
Import Strings Regexp.
Open Scope string_scope.
Open Scope Z_scope.

(** [IsInstalled] *)
Definition IsInstalled (h : Host) : bool := LookPath h "claude".

(** *** The patterns, each compiled with [(?i)] in front *)

(** [(\d+).*(?:database|query)] *)
Definition re_database : regex :=
  Seq (Group 1 (Plus Digit))
      (Seq (Star AnyChar) (Alt (Lit "database") (Lit "query"))).

(** [(\d+).*MB|(\d+).*memory] *)
Definition re_memory : regex :=
  Alt (Seq (Group 1 (Plus Digit)) (Seq (Star AnyChar) (Lit "MB")))
      (Seq (Group 2 (Plus Digit)) (Seq (Star AnyChar) (Lit "memory"))).

(** [(\d+(?:\.\d+)?).*(?:core|cpu)] *)
Definition re_cpu : regex :=
  Seq (Group 1 (Seq (Plus Digit) (Opt (Seq (Lit ".") (Plus Digit)))))
      (Seq (Star AnyChar) (Alt (Lit "core") (Lit "cpu"))).

(** [(\d+).*(?:connection|conn)] *)
Definition re_connections : regex :=
  Seq (Group 1 (Plus Digit))
      (Seq (Star AnyChar) (Alt (Lit "connection") (Lit "conn"))).

(** [(\d+).*(?:Mbps|bandwidth)] *)
Definition re_network : regex :=
  Seq (Group 1 (Plus Digit))
      (Seq (Star AnyChar) (Alt (Lit "Mbps") (Lit "bandwidth"))).

(** [(\d+).*(?:GB|storage)] *)
Definition re_storage : regex :=
  Seq (Group 1 (Plus Digit))
      (Seq (Star AnyChar) (Alt (Lit "GB") (Lit "storage"))).

(** [(\d+).*(?:endpoint|route|api)] *)
Definition re_endpoints : regex :=
  Seq (Group 1 (Plus Digit))
      (Seq (Star AnyChar)
           (Alt (Lit "endpoint") (Alt (Lit "route") (Lit "api")))).

(** [(?:complexity|score).*?(\d+)] *)
Definition re_complexity_then_number : regex :=
  Seq (Alt (Lit "complexity") (Lit "score"))
      (Seq (LazyStar AnyChar) (Group 1 (Plus Digit))).

(** [(\d+).*(?:complexity|score)] *)
Definition re_number_then_complexity : regex :=
  Seq (Group 1 (Plus Digit))
      (Seq (Star AnyChar) (Alt (Lit "complexity") (Lit "score"))).

(** *** Extractors *)

(** [extractNumber] *)
Definition extractNumber (text : string) (pattern : regex) : Z :=
  let matches := FindStringSubmatch pattern text in
  if 1 <? len matches then
    match Atoi (nth 1 matches "") with
    | Some num => num
    | None => 0
    end
  else 0.

(** [extractFloat] *)
Definition extractFloat (h : Host) (text : string) (pattern : regex)
  : float64 :=
  let matches := FindStringSubmatch pattern text in
  if 1 <? len matches then
    match ParseFloat h (nth 1 matches "") with
    | Some num => num
    | None => S754_zero false
    end
  else S754_zero false.

(** [extractComplexity] *)
Definition extractComplexity (text : string) : Z :=
  let complexity := extractNumber text re_complexity_then_number in
  let complexity :=
    if complexity =? 0 then extractNumber text re_number_then_complexity
    else complexity in
  if (complexity =? 0) || (100 <? complexity) then 50 else complexity.

Definition cacheTypes : list string :=
  ["redis"; "memcached"; "memory cache"; "cdn"; "browser cache"].

(** [extractCacheUsage]: the loop appends, in the order of [cacheTypes],
    each name the lowered text contains. *)
Definition extractCacheUsage (h : Host) (text : string) : list string :=
  let lower := ToLower (unicode_lower h) text in
  fold_left
    (fun caches cache =>
       if Contains lower cache then (caches ++ [cache])%list else caches)
    cacheTypes [].

(** [extractSeverity] *)
Definition extractSeverity (h : Host) (text : string) : string :=
  let lower := ToLower (unicode_lower h) text in
  if Contains lower "critical" then "critical"
  else if Contains lower "high" then "high"
  else if Contains lower "medium" then "medium"
  else "low".

(** [extractBottlenecks] *)
Definition extractBottlenecks (h : Host) (text : string) : list Bottleneck :=
  let lines := Split text "010" in
  fold_left
    (fun bottlenecks line =>
       let lower := ToLower (unicode_lower h) (TrimSpace h line) in
       if is_empty lower then bottlenecks
       else
         let bottlenecks :=
           if Contains lower "database"
              && (Contains lower "slow" || Contains lower "bottleneck"
                  || Contains lower "limit")
           then (bottlenecks
                   ++ [mkBottleneck "database" line (extractSeverity h line)
                         "May cause slow response times under load"])%list
           else bottlenecks in
         if Contains lower "memory" && Contains lower "leak"
         then (bottlenecks
                 ++ [mkBottleneck "memory" line "high"
                       "Could cause application crashes"])%list
         else bottlenecks)
    lines [].

(** [estimateMemoryFromComplexity] *)
Definition estimateMemoryFromComplexity (complexity : Z) : Z :=
  if 80 <=? complexity then 2048
  else if 60 <=? complexity then 1024
  else if 40 <=? complexity then 512
  else 256.

(** [estimateCPUFromEndpoints] *)
Definition estimateCPUFromEndpoints (endpoints : Z) : float64 :=
  if 50 <=? endpoints then of_int 4
  else if 20 <=? endpoints then of_int 2
  else if 10 <=? endpoints then of_int 1
  else of_decimal 5 1.

(** *** The passes *)

Definition prompt_basic : string :=
  "Analyze this codebase and identify:
1. Primary programming language
2. Web framework being used
3. Key dependencies and libraries
4. Number of API endpoints/routes
5. Background job processing (if any)
6. File upload capabilities

Respond in this JSON format:
{
  " ++ dquote ++ "language" ++ dquote ++ ": " ++ dquote ++ "string" ++ dquote
  ++ ",
  " ++ dquote ++ "framework" ++ dquote ++ ": " ++ dquote ++ "string" ++ dquote
  ++ ", 
  " ++ dquote ++ "dependencies" ++ dquote ++ ": [" ++ dquote ++ "dep1"
  ++ dquote ++ ", " ++ dquote ++ "dep2" ++ dquote ++ "],
  " ++ dquote ++ "api_endpoints" ++ dquote ++ ": number,
  " ++ dquote ++ "background_jobs" ++ dquote ++ ": [" ++ dquote ++ "job1"
  ++ dquote ++ ", " ++ dquote ++ "job2" ++ dquote ++ "],
  " ++ dquote ++ "file_uploads" ++ dquote ++ ": boolean
}".

Definition prompt_database : string :=
  "Analyze database and API patterns in this codebase:
1. Count database queries/calls
2. Identify database connection patterns
3. Look for N+1 query problems
4. Find caching usage (Redis, Memcached, etc.)
5. Estimate complexity on a scale of 1-100

Focus on scalability concerns and potential bottlenecks.".

Definition prompt_performance : string :=
  "Identify scaling bottlenecks and performance issues:
1. Database connection limits
2. Memory-intensive operations  
3. CPU-heavy computations
4. Network bottlenecks
5. Synchronous operations that should be async
6. Large payload responses

For each issue, specify type (database/cpu/memory/network) and severity (low/medium/high/critical).".

Definition prompt_resources (analysis : CodeAnalysis) : string :=
  "Based on this " ++ Language analysis ++ "/" ++ Framework analysis
  ++ " application with " ++ itoa (ApiEndpoints analysis)
  ++ " API endpoints and " ++ itoa (len (BackgroundJobs analysis))
  ++ " background jobs:

Estimate resource requirements for 1000 concurrent users:
1. Memory usage in MB
2. CPU cores needed  
3. Database connections required
4. Network bandwidth in Mbps
5. Storage requirements in GB

Consider the complexity score of " ++ itoa (ComplexityScore analysis)
  ++ " and provide realistic estimates.".

(** [runClaudeCommand] *)
Definition runClaudeCommand (h : Host) (projectDir prompt : string)
  : IO (string * option error) :=
  (r <- CombinedOutput h prompt projectDir ;;
   match snd r with
   | Some err =>
       ret ("", Some ("claude command failed: " ++ err ++ nl ++ "Output: "
                      ++ fst r))
   | None => ret (fst r, None)
   end)%io.

(** [parseBasicStructureHeuristic] *)
Definition parseBasicStructureHeuristic (h : Host) (output : string)
           (analysis : CodeAnalysis) : CodeAnalysis :=
  let lower := ToLower (unicode_lower h) output in
  let languages :=
    ["javascript"; "python"; "go"; "java"; "php"; "ruby"; "typescript"] in
  let analysis :=
    match List.find (fun lang => Contains lower lang) languages with
    | Some lang => set_Language (Title h lang) analysis
    | None => analysis
    end in
  let frameworks :=
    ["react"; "vue"; "angular"; "express"; "fastapi"; "django"; "gin";
     "echo"] in
  let analysis :=
    match List.find (fun fw => Contains lower fw) frameworks with
    | Some framework => set_Framework (Title h framework) analysis
    | None => analysis
    end in
  let analysis :=
    set_ApiEndpoints (extractNumber output re_endpoints) analysis in
  if ApiEndpoints analysis =? 0 then set_ApiEndpoints 5 analysis
  else analysis.

(** What [analyzeBasicStructure] does with the output of a run. *)
Definition readBasicStructure (h : Host) (output : string)
           (analysis : CodeAnalysis) : CodeAnalysis :=
  match json_Unmarshal h output with
  | Some result =>
      set_FileUploads (js_FileUploads result)
        (set_BackgroundJobs (js_BackgroundJobs result)
           (set_ApiEndpoints (js_ApiEndpoints result)
              (set_Dependencies (js_Dependencies result)
                 (set_Framework (js_Framework result)
                    (set_Language (js_Language result) analysis)))))
  | None => parseBasicStructureHeuristic h output analysis
  end.

(** What [analyzeDatabaseAndAPI] does with the output of a run. *)
Definition readDatabaseAndAPI (h : Host) (output : string)
           (analysis : CodeAnalysis) : CodeAnalysis :=
  let analysis :=
    set_DatabaseCalls (extractNumber output re_database) analysis in
  let analysis :=
    set_ComplexityScore (extractComplexity output) analysis in
  let analysis := set_CacheUsage (extractCacheUsage h output) analysis in
  set_Performance
    (set_HasNPlusOneQuery
       (Contains (ToLower (unicode_lower h) output) "n+1"
        || Contains (ToLower (unicode_lower h) output) "n plus one")
       (Performance analysis))
    analysis.

(** What [analyzePerformanceAndScaling] does with the output of a run. *)
Definition readPerformanceAndScaling (h : Host) (output : string)
           (analysis : CodeAnalysis) : CodeAnalysis :=
  let analysis :=
    set_ScalingBottlenecks (extractBottlenecks h output) analysis in
  set_Performance
    (set_HasLargePayloads
       (Contains (ToLower (unicode_lower h) output) "large payload")
       (Performance analysis))
    analysis.

(** What [estimateResources] does with the output of a run. *)
Definition readResources (h : Host) (output : string)
           (analysis : CodeAnalysis) : CodeAnalysis :=
  let ru := ResourceUsage analysis in
  let ru := set_MemoryMB (extractNumber output re_memory) ru in
  let ru := set_CPUCores (extractFloat h output re_cpu) ru in
  let ru := set_DatabaseConns (extractNumber output re_connections) ru in
  let ru := set_NetworkMbps (extractNumber output re_network) ru in
  let ru := set_StorageGB (extractNumber output re_storage) ru in
  let ru :=
    if MemoryMB ru =? 0
    then set_MemoryMB
           (estimateMemoryFromComplexity (ComplexityScore analysis)) ru
    else ru in
  let ru :=
    if eqb (CPUCores ru) (of_int 0)
    then set_CPUCores (estimateCPUFromEndpoints (ApiEndpoints analysis)) ru
    else ru in
  set_ResourceUsage ru analysis.

(** A pass: run the tool on the prompt; on an error return it and leave the
    report alone, else read the output into the report. *)
Definition pass (h : Host) (projectDir prompt : string)
           (read : string -> CodeAnalysis -> CodeAnalysis)
           (analysis : CodeAnalysis) : IO (CodeAnalysis * option error) :=
  (r <- runClaudeCommand h projectDir prompt ;;
   match snd r with
   | Some err => ret (analysis, Some err)
   | None => ret (read (fst r) analysis, None)
   end)%io.

(** [analyzeBasicStructure] *)
Definition analyzeBasicStructure (h : Host) (projectDir : string)
  : CodeAnalysis -> IO (CodeAnalysis * option error) :=
  pass h projectDir prompt_basic (readBasicStructure h).

(** [analyzeDatabaseAndAPI] *)
Definition analyzeDatabaseAndAPI (h : Host) (projectDir : string)
  : CodeAnalysis -> IO (CodeAnalysis * option error) :=
  pass h projectDir prompt_database (readDatabaseAndAPI h).

(** [analyzePerformanceAndScaling] *)
Definition analyzePerformanceAndScaling (h : Host) (projectDir : string)
  : CodeAnalysis -> IO (CodeAnalysis * option error) :=
  pass h projectDir prompt_performance (readPerformanceAndScaling h).

(** [estimateResources] *)
Definition estimateResources (h : Host) (projectDir : string)
           (analysis : CodeAnalysis) : IO (CodeAnalysis * option error) :=
  pass h projectDir (prompt_resources analysis) (readResources h) analysis.

(** The report [Client.Analyze] starts from: the struct literal with
    [ProjectID], [Timestamp] and [Directory], all else zero. *)
Definition newAnalysis (h : Host) (projectDir projectID : string)
  : CodeAnalysis :=
  mkCodeAnalysis projectID (Now h) projectDir "" "" [] 0 0 0 [] []
                 false 0 [] zeroResourceMetrics 0 []
                 zeroPerformanceMetrics.

(** [Client.Analyze]: the pair is the Go result, a pointer to the report
    and an error, [None] standing for [nil]. *)
Definition Analyze (h : Host) (projectDir projectID : string)
  : IO (option CodeAnalysis * option error) :=
  if negb (IsInstalled h) then
    ret (None, Some "Claude Code CLI not installed")
  else
    let analysis := newAnalysis h projectDir projectID in
    (r1 <- analyzeBasicStructure h projectDir analysis ;;
     match snd r1 with
     | Some err => ret (None, Some (wrap "basic analysis failed" err))
     | None =>
     r2 <- analyzeDatabaseAndAPI h projectDir (fst r1) ;;
     match snd r2 with
     | Some err => ret (None, Some (wrap "database/API analysis failed" err))
     | None =>
     r3 <- analyzePerformanceAndScaling h projectDir (fst r2) ;;
     match snd r3 with
     | Some err => ret (None, Some (wrap "performance analysis failed" err))
     | None =>
     r4 <- estimateResources h projectDir (fst r3) ;;
     match snd r4 with
     | Some err => ret (None, Some (wrap "resource estimation failed" err))
     | None => ret (Some (fst r4), None)
     end end end end)%io.

End Claude.

(** ** package analyzer: the normaliser *)

Module Analyzer.
Section PostProcess.

(** The implementation's result for [int(x)] on an unrepresentable [x]. *)
Variable oor : float64 -> Z.

Definition f50 : float64 := of_int 50.     (* 50.0 *)
Definition f10 : float64 := of_int 10.     (* 10.0 *)
Definition f0_5 : float64 := of_decimal 5 1.   (* 0.5 *)
Definition f1_0 : float64 := of_int 1.     (* 1.0 *)
Definition f1_5 : float64 := of_decimal 15 1.  (* 1.5 *)
Definition f0_1 : float64 := of_decimal 1 1.   (* 0.1 *)
Definition f32 : float64 := of_int 32.     (* 32.0 *)

(** [estimateCurrentUsers] *)
Definition estimateCurrentUsers (analysis : CodeAnalysis) : Z :=
  let baseUsers := 1000 in
  let complexityMultiplier :=
    div (of_int (ComplexityScore analysis)) f50 in
  let endpointMultiplier := div (of_int (ApiEndpoints analysis)) f10 in
  let endpointMultiplier :=
    if ltb endpointMultiplier f0_5 then f0_5 else endpointMultiplier in
  let jobMultiplier := f1_0 in
  let jobMultiplier :=
    if 0 <? len (BackgroundJobs analysis) then f1_5 else jobMultiplier in
  let estimated :=
    to_int oor
      (mul (mul (mul (of_int baseUsers) complexityMultiplier)
                endpointMultiplier) jobMultiplier) in
  let estimated := if estimated <? 100 then 100 else estimated in
  let estimated := if 1000000 <? estimated then 1000000 else estimated in
  estimated.

(** [validateResourceEstimates], on the [ResourceUsage] field it
    points into. *)
Definition validateResources (resources : ResourceMetrics)
  : ResourceMetrics :=
  let resources :=
    if MemoryMB resources <? 128 then set_MemoryMB 128 resources
    else resources in
  let resources :=
    if 16384 <? MemoryMB resources then set_MemoryMB 16384 resources
    else resources in
  let resources :=
    if ltb (CPUCores resources) f0_1 then set_CPUCores f0_1 resources
    else resources in
  let resources :=
    if gtb (CPUCores resources) f32 then set_CPUCores f32 resources
    else resources in
  let resources :=
    if DatabaseConns resources <? 1 then set_DatabaseConns 1 resources
    else resources in
  let resources :=
    if 1000 <? DatabaseConns resources then set_DatabaseConns 1000 resources
    else resources in
  let resources :=
    if NetworkMbps resources <? 1 then set_NetworkMbps 1 resources
    else resources in
  let resources :=
    if 10000 <? NetworkMbps resources then set_NetworkMbps 10000 resources
    else resources in
  let resources :=
    if StorageGB resources <? 1 then set_StorageGB 1 resources
    else resources in
  let resources :=
    if 10000 <? StorageGB resources then set_StorageGB 10000 resources
    else resources in
  resources.

Definition validateResourceEstimates (analysis : CodeAnalysis)
  : CodeAnalysis :=
  set_ResourceUsage (validateResources (ResourceUsage analysis)) analysis.

(** [postProcess] *)
Definition postProcess (analysis : CodeAnalysis) : CodeAnalysis :=
  let analysis :=
    set_EstimatedUsers (estimateCurrentUsers analysis) analysis in
  let analysis :=
    if is_empty (Language analysis) then set_Language "Unknown" analysis
    else analysis in
  let analysis :=
    if is_empty (Framework analysis) then set_Framework "Unknown" analysis
    else analysis in
  let analysis :=
    if ComplexityScore analysis =? 0 then set_ComplexityScore 50 analysis
    else analysis in
  validateResourceEstimates analysis.

End PostProcess.

(** [preflightChecks]; the warning it prints when [isCodeProject] fails
    does not change its result. *)
Definition preflightChecks (h : Host) (projectDir : string) : option error :=
  if NotExist h projectDir then
    Some ("directory does not exist: " ++ projectDir)%string
  else if negb (Claude.IsInstalled h) then
    Some "Claude Code CLI not installed"%string
  else None.

(** [Analyzer.Analyze], the entry point of an analysis. *)
Definition Analyze (h : Host) (projectDir projectID : string)
  : IO (option CodeAnalysis * option error) :=
  match preflightChecks h projectDir with
  | Some err => ret (None, Some err)
  | None =>
      (r <- Claude.Analyze h projectDir projectID ;;
       match snd r with
       | Some err => ret (None, Some (wrap "claude analysis failed" err))
       | None =>
           ret (option_map (postProcess (int_oor h)) (fst r), None)
       end)%io
  end.

End Analyzer.

(** ** packages config and api: the report sink *)

Module Api.
Import Strings.
Open Scope string_scope.
Open Scope Z_scope.

Record Request : Type := mkRequest {
  req_Method : string;
  req_URL    : string;
  req_Body   : string;
  req_Header : list (string * string)
}.

Record Response : Type := mkResponse {
  StatusCode : Z;
  Body       : string      (* what [io.ReadAll(resp.Body)] reads *)
}.

(** The anonymous struct [SendAnalysis] marshals. *)
Record Payload : Type := mkPayload {
  pl_CodeAnalysis : CodeAnalysis;
  pl_AgentVersion : string;
  pl_Platform     : string
}.

(** The process environment, the configuration file and the network. *)
Record Net : Type := mkNet {
  Getenv       : string -> string;                 (* os.Getenv *)
  viper_String : string -> string;                 (* viper.GetString *)
  json_Marshal : Payload -> string + error;        (* json.Marshal *)
  url_error    : string -> option error;           (* http.NewRequest fails *)
  Do           : Request -> Response + error       (* httpClient.Do *)
}.

Definition defaultBaseURL : string := "https://api.cloudpork.com".
Definition userAgent : string := "CloudPork-Agent/1.0".
Definition StatusOK : Z := 200.
Definition StatusCreated : Z := 201.

(** [config.GetAPIKey] *)
Definition GetAPIKey (n : Net) : string + error :=
  if negb (is_empty (Getenv n "CLOUDPORK_API_KEY")) then
    inl (Getenv n "CLOUDPORK_API_KEY")
  else if negb (is_empty (viper_String n "api_key")) then
    inl (viper_String n "api_key")
  else
    inr "no API key found. Run 'cloudpork auth login' to authenticate".

(** The request [SendAnalysis] builds for a key and a marshalled body. *)
Definition analysisRequest (baseURL apiKey jsonData : string) : Request :=
  mkRequest "POST" (baseURL ++ "/v1/analysis") jsonData
    [("Content-Type", "application/json");
     ("Authorization", "Bearer " ++ apiKey);
     ("User-Agent", userAgent)].

(** [Client.SendAnalysis]; [None] is the [nil] error. *)
Definition SendAnalysis (n : Net) (baseURL : string)
           (analysis : CodeAnalysis) : option error :=
  match GetAPIKey n with
  | inr err => Some (wrap "no API key found" err)
  | inl apiKey =>
      let payload := mkPayload analysis "1.0.0" "cli" in
      match json_Marshal n payload with
      | inr err => Some (wrap "failed to marshal analysis" err)
      | inl jsonData =>
          let url := baseURL ++ "/v1/analysis" in
          match url_error n url with
          | Some err => Some (wrap "failed to create request" err)
          | None =>
              match Do n (analysisRequest baseURL apiKey jsonData) with
              | inr err => Some (wrap "request failed" err)
              | inl resp =>
                  if negb (StatusCode resp =? StatusOK)
                     && negb (StatusCode resp =? StatusCreated)
                  then
                    Some ("API request failed with status "
                          ++ itoa (StatusCode resp) ++ ": " ++ Body resp)
                  else None
              end
          end
      end
  end.

(** The response [SendAnalysis] gets, when every step before it works. *)
Definition response (n : Net) (baseURL : string) (analysis : CodeAnalysis)
  : option Response :=
  match GetAPIKey n, json_Marshal n (mkPayload analysis "1.0.0" "cli") with
  | inl apiKey, inl jsonData =>
      match url_error n (baseURL ++ "/v1/analysis"),
            Do n (analysisRequest baseURL apiKey jsonData) with
      | None, inl resp => Some resp
      | _, _ => None
      end
  | _, _ => None
  end.

Definition StatusUnauthorized : Z := 401.
Definition StatusNotFound : Z := 404.

(** [Client.ValidateAPIKey] *)
Definition ValidateAPIKey (n : Net) (baseURL apiKey : string)
  : option error :=
  let url := baseURL ++ "/v1/auth/validate" in
  match url_error n url with
  | Some err => Some (wrap "failed to create request" err)
  | None =>
      match Do n (mkRequest "GET" url ""
                    [("Authorization", "Bearer " ++ apiKey);
                     ("User-Agent", userAgent)]) with
      | inr err => Some (wrap "request failed" err)
      | inl resp =>
          if StatusCode resp =? StatusUnauthorized then
            Some "invalid API key"
          else if negb (StatusCode resp =? StatusOK) then
            Some ("validation failed with status "
                  ++ itoa (StatusCode resp))
          else None
      end
  end.

(** [ProjectInfo] *)
Record ProjectInfo : Type := mkProjectInfo {
  pi_ID            : string;
  pi_Name          : string;
  pi_Description   : string;
  pi_CreatedAt     : Time;
  pi_UpdatedAt     : Time;
  pi_AnalysisCount : Z;
  pi_LastAnalysis  : option Time
}.

(** [Client.GetProjectInfo]; [decode] is
    [json.NewDecoder(resp.Body).Decode]. *)
Definition GetProjectInfo (n : Net) (decode : string -> ProjectInfo + error)
           (baseURL projectID : string) : option ProjectInfo * option error :=
  match GetAPIKey n with
  | inr err => (None, Some (wrap "no API key found" err))
  | inl apiKey =>
      let url := baseURL ++ "/v1/projects/" ++ projectID in
      match url_error n url with
      | Some err => (None, Some (wrap "failed to create request" err))
      | None =>
          match Do n (mkRequest "GET" url ""
                        [("Authorization", "Bearer " ++ apiKey);
                         ("User-Agent", userAgent)]) with
          | inr err => (None, Some (wrap "request failed" err))
          | inl resp =>
              if StatusCode resp =? StatusNotFound then
                (None, Some "project not found")
              else if negb (StatusCode resp =? StatusOK) then
                (None, Some ("request failed with status "
                             ++ itoa (StatusCode resp)))
              else
                match decode (Body resp) with
                | inr err => (None, Some (wrap "failed to decode response" err))
                | inl projectInfo => (Some projectInfo, None)
                end
          end
      end
  end.

(** [config.GetProjectID] *)
Definition GetProjectID (n : Net) : string + error :=
  if negb (is_empty (Getenv n "CLOUDPORK_PROJECT_ID")) then
    inl (Getenv n "CLOUDPORK_PROJECT_ID")
  else if negb (is_empty (viper_String n "project_id")) then
    inl (viper_String n "project_id")
  else inr "no project ID found".

(** [config.IsAuthenticated] *)
Definition IsAuthenticated (n : Net) : bool :=
  match GetAPIKey n with
  | inl apiKey => negb (is_empty apiKey)
  | inr _ => false
  end.

(** The buffer [make([]byte, 8)] after [rand.Read]: the bytes read, at
    most eight, the rest of the buffer staying zero. *)
Fixpoint buffer (size : nat) (read : string) : string :=
  match size with
  | O => EmptyString
  | S size' =>
      match read with
      | String b rest => String b (buffer size' rest)
      | EmptyString => String "000" (buffer size' EmptyString)
      end
  end.

(** [config.GenerateProjectID], on what [rand.Read] yields. *)
Definition GenerateProjectID (random : string) : string :=
  "proj_" ++ EncodeToString (buffer 8 random).

End Api.

(** ** package cmd: the analyze command *)

Module Cmd.
Import Strings Api.
Open Scope string_scope.
Open Scope Z_scope.

(** What the command reads besides the host and the network. *)
Record Shell : Type := mkShell {
  Abs           : string -> string + error;       (* filepath.Abs *)
  random        : string;                         (* what rand.Read yields *)
  MarshalIndent : CodeAnalysis -> string + error  (* json.MarshalIndent *)
}.

(** [CodeAnalysis.PrintJSON] (package types) *)
Definition PrintJSON (sh : Shell) (ca : CodeAnalysis) : option error :=
  match MarshalIndent sh ca with
  | inr err => Some (wrap "failed to marshal JSON" err)
  | inl _ => None
  end.

(** The attributes of [color.New] that [getSeverityColor] uses. *)
Inductive Attribute : Type := FgRed | FgYellow | FgGreen | FgWhite | Bold.

(** [getSeverityColor] (package types) *)
Definition getSeverityColor (severity : string) : list Attribute :=
  if String.eqb severity "critical" then [FgRed; Bold]
  else if String.eqb severity "high" then [FgRed]
  else if String.eqb severity "medium" then [FgYellow]
  else if String.eqb severity "low" then [FgGreen]
  else [FgWhite].

(** [maskAPIKey] of cmd/auth.go; [apiKey[:3]] and [apiKey[len(apiKey)-4:]]
    are taken of a key of more than eight bytes. *)
Definition maskAPIKey (apiKey : string) : string :=
  if (String.length apiKey <=? 8)%nat then "cp_***"
  else String.substring 0 3 apiKey ++ "***"
       ++ String.substring (String.length apiKey - 4) 4 apiKey.

(** The project ID [runAnalyze] settles on: the flag, else the
    configuration, else a fresh one. *)
Definition projectIDFor (n : Net) (sh : Shell) (projectID : string)
  : string :=
  let projID := projectID in
  let projID :=
    if is_empty projID then viper_String n "project-id" else projID in
  if is_empty projID then GenerateProjectID (random sh) else projID.

(** [runAnalyze] of cmd/analyze.go, for the flags [--project-id] and
    [--output] and the arguments of the command line.  A [nil] report
    beside a [nil] error would make the method call on it panic. *)
Definition runAnalyze (h : Host) (n : Net) (sh : Shell)
           (projectID output : string) (args : list string)
  : IO (option error) :=
  let targetDir := match args with
                   | arg :: _ => arg
                   | [] => "."
                   end in
  match Abs sh targetDir with
  | inr err => ret (Some (wrap "failed to resolve directory path" err))
  | inl absPath =>
      if NotExist h absPath then
        ret (Some ("directory does not exist: " ++ absPath))
      else
        let projID := projectIDFor n sh projectID in
        (r <- Analyzer.Analyze h absPath projID ;;
         match snd r with
         | Some err => ret (Some (wrap "analysis failed" err))
         | None =>
             match fst r with
             | None =>
                 ret (Some "invalid memory address or nil pointer dereference")
             | Some result =>
                 if String.eqb output "json" then ret (PrintJSON sh result)
                 else
                   match SendAnalysis n defaultBaseURL result with
                   | Some err => ret (Some err)
                   | None => ret None
                   end
             end
         end)%io
  end.

End Cmd.

(** * What the specification says, as definitions *)

Module Spec.
Import Strings Regexp Api Analyzer.
Open Scope string_scope.
Open Scope Z_scope.

(** [clamp(x, lo, hi)] *)
Definition clamp (x lo hi : Z) : Z := Z.max lo (Z.min hi x).

(** The same on [float64], by comparisons. *)
Definition fclamp (x lo hi : float64) : float64 :=
  if ltb x lo then lo else if gtb x hi then hi else x.

(** [lo <= x <= hi] on [float64]; no comparison holds of a NaN. *)
Definition fbetween (lo x hi : float64) : Prop :=
  leb lo x = true /\ leb x hi = true.

(** [max(x, y)] on [float64]. *)
Definition fmax (x y : float64) : float64 := if ltb y x then x else y.

(** The invariants of a report that leaves the normaliser, but for the
    range of the complexity score. *)
Definition bounded (r : CodeAnalysis) : Prop :=
  128 <= MemoryMB (ResourceUsage r) <= 16384
  /\ fbetween f0_1 (CPUCores (ResourceUsage r)) f32
  /\ 1 <= DatabaseConns (ResourceUsage r) <= 1000
  /\ 1 <= NetworkMbps (ResourceUsage r) <= 10000
  /\ 1 <= StorageGB (ResourceUsage r) <= 10000
  /\ Language r <> EmptyString
  /\ Framework r <> EmptyString
  /\ 100 <= EstimatedUsers r <= 1000000.

(** Every resource estimate of [r'] is that of [r] moved to the nearest
    bound of its interval. *)
Definition clamped (r r' : CodeAnalysis) : Prop :=
  MemoryMB (ResourceUsage r') = clamp (MemoryMB (ResourceUsage r)) 128 16384
  /\ CPUCores (ResourceUsage r')
     = fclamp (CPUCores (ResourceUsage r)) f0_1 f32
  /\ DatabaseConns (ResourceUsage r')
     = clamp (DatabaseConns (ResourceUsage r)) 1 1000
  /\ NetworkMbps (ResourceUsage r')
     = clamp (NetworkMbps (ResourceUsage r)) 1 10000
  /\ StorageGB (ResourceUsage r')
     = clamp (StorageGB (ResourceUsage r)) 1 10000.

(** The formula of the user estimate, in [float64] arithmetic from left to
    right, the product cut to its integer part:
    [clamp(1000 * (complexity/50) * max(0.5, endpoints/10) * jobs, 100,
    1_000_000)] with [jobs] 1.5 when there are background jobs, else 1.0. *)
Definition estimated_users (oor : float64 -> Z) (complexity endpoints : Z)
           (background_jobs : list string) : Z :=
  clamp
    (to_int oor
       (mul (mul (mul (of_int 1000) (div (of_int complexity) (of_int 50)))
                 (fmax (of_decimal 5 1) (div (of_int endpoints) (of_int 10))))
            (match background_jobs with
             | [] => of_int 1
             | _ :: _ => of_decimal 15 1
             end)))
    100 1000000.

(** The same formula over the rationals. *)
Definition estimated_users_exact (complexity endpoints : Z)
           (background_jobs : list string) : Q :=
  Qmax 100
    (Qmin 1000000
       (1000 * (complexity # 50) * Qmax (1 # 2) (endpoints # 10)
        * (match background_jobs with
           | [] => 1
           | _ :: _ => 3 # 2
           end)))%Q.

(** A lookup table: bands by falling threshold, with a default. *)
Fixpoint lookup {V : Type} (bands : list (Z * V)) (default : V) (x : Z) : V :=
  match bands with
  | [] => default
  | (threshold, v) :: rest =>
      if threshold <=? x then v else lookup rest default x
  end.

Definition memory_bands : list (Z * Z) := [(80, 2048); (60, 1024); (40, 512)].
Definition memory_default : Z := 256.

Definition cpu_bands : list (Z * float64) :=
  [(50, of_int 4); (20, of_int 2); (10, of_int 1)].
Definition cpu_default : float64 := of_decimal 5 1.

(** The vocabulary of cache technologies as the specification prints it. *)
Definition cache_vocabulary : list string :=
  ["redis"; "memcached"; "in-process cache"; "CDN"; "browser cache"]%string.

(** [validateResourceEstimates], one field at a time. *)
Definition boundMemory (r : ResourceMetrics) : ResourceMetrics :=
  let r := if MemoryMB r <? 128 then set_MemoryMB 128 r else r in
  if 16384 <? MemoryMB r then set_MemoryMB 16384 r else r.

Definition boundCPU (r : ResourceMetrics) : ResourceMetrics :=
  let r := if ltb (CPUCores r) f0_1 then set_CPUCores f0_1 r else r in
  if gtb (CPUCores r) f32 then set_CPUCores f32 r else r.

Definition boundConns (r : ResourceMetrics) : ResourceMetrics :=
  let r := if DatabaseConns r <? 1 then set_DatabaseConns 1 r else r in
  if 1000 <? DatabaseConns r then set_DatabaseConns 1000 r else r.

Definition boundNetwork (r : ResourceMetrics) : ResourceMetrics :=
  let r := if NetworkMbps r <? 1 then set_NetworkMbps 1 r else r in
  if 10000 <? NetworkMbps r then set_NetworkMbps 10000 r else r.

Definition boundStorage (r : ResourceMetrics) : ResourceMetrics :=
  let r := if StorageGB r <? 1 then set_StorageGB 1 r else r in
  if 10000 <? StorageGB r then set_StorageGB 10000 r else r.

(** *** Values and predicates the statements below use *)

Definition default_string (s : string) : string :=
  if is_empty s then "Unknown"%string else s.

Definition default_complexity (c : Z) : Z := if c =? 0 then 50 else c.

(** The zero report but for a CPU estimate that is not a number. *)
Definition nan_report : CodeAnalysis :=
  set_ResourceUsage (set_CPUCores S754_nan zeroResourceMetrics)
                    zeroCodeAnalysis.

(** A host on which nothing special happens: the tool prints nothing and
    succeeds. *)
Definition quiet_host : Host :=
  mkHost (fun s => s) (fun s => s) (fun s => s) (fun _ => None)
         (fun _ => None) oor_amd64 (fun _ => true) 0 (fun _ => false)
         (fun _ _ _ => ("", None)).

(** A host whose tool prints the given text at every run and succeeds. *)
Definition printing (output : string) : Host :=
  mkHost (fun s => s) (fun s => s) (fun s => s) (fun _ => None)
         (fun _ => None) oor_amd64 (fun _ => true) 0 (fun _ => false)
         (fun _ _ _ => (output, None)).

(** A network on which the key is set and every step works, the server
    answering with the given status and body. *)
Definition answering (status : Z) (body : string) : Net :=
  mkNet (fun _ => "key") (fun _ => "") (fun _ => inl "{}") (fun _ => None)
        (fun _ => inl (mkResponse status body)).

(** The message [runClaudeCommand] makes of a failed run. *)
Definition command_failure (i : Invocation) (e : error) : error :=
  "claude command failed: " ++ e ++ nl ++ "Output: " ++ inv_output i.

(** The names under which [Client.Analyze] reports its four passes. *)
Definition pass_labels : list string :=
  ["basic analysis failed"; "database/API analysis failed";
   "performance analysis failed"; "resource estimation failed"].


(** A host whose tool answers the four prompts in turn, each number of
    the last answer on a line of its own; the first answer is JSON, which
    [json.Unmarshal] decodes. *)
Definition sample_outputs : list string :=
  ["{...}";
   "Found 37 database calls and complexity score: 72. Uses Redis for caching.";
   "The database connection pool is a bottleneck under load (high).";
   "Memory: 512 MB
CPU: 2.5 cores
Database: 20 connections
Network: 100 Mbps
Storage: 10 GB"].

Definition sample_host : Host :=
  mkHost (fun s => s) (fun s => s) (fun s => s) ParseDecimal
         (fun s =>
            if String.eqb s "{...}" then
              Some (mkBasicStructure "Go" "Gin" ["gin"; "viper"] 12
                                     ["emailer"] true)
            else None)
         oor_amd64 (fun _ => true) 0 (fun _ => false)
         (fun n _ _ => (nth n sample_outputs "", None)).

(** A text that is empty or begins with a decimal digit. *)
Definition numeral_text (s : string) : Prop :=
  match s with
  | String a _ => is_digit a = true
  | EmptyString => True
  end.

Definition numeral_captures (c : captures) : Prop :=
  Forall (fun p => numeral_text (snd p)) c.

(** Patterns that begin with [\d+]. *)
Fixpoint leading_digits (r : regex) : Prop :=
  match r with
  | Plus Digit => True
  | Seq r1 _ => leading_digits r1
  | _ => False
  end.

(** Patterns whose groups all begin with [\d+]. *)
Fixpoint digit_groups (r : regex) : Prop :=
  match r with
  | Lit _ | Plus _ | Star _ | LazyStar _ => True
  | Seq r1 r2 | Alt r1 r2 => digit_groups r1 /\ digit_groups r2
  | Opt r1 => digit_groups r1
  | Group _ r1 => leading_digits r1 /\ digit_groups r1
  end.

(** What [strconv.ParseFloat] guarantees of a text that begins with a
    digit: it is read as a number (NaN is only ever the reading of the
    word itself). *)
Definition parses_numbers (h : Host) : Prop :=
  forall (s : string) (x : float64),
    numeral_text s -> ParseFloat h s = Some x -> is_nan x = false.

End Spec.

(** * Definitions for the properties beyond the specification *)

Module Props.
Import Strings Regexp Claude Api Cmd Spec.
Open Scope string_scope.
Open Scope Z_scope.

(** A text with a decimal digit in it. *)
Fixpoint has_digit (s : string) : bool :=
  match s with
  | EmptyString => false
  | String a s' => is_digit a || has_digit s'
  end.

(** Patterns every match of which takes a digit. *)
Fixpoint needs_digit (r : regex) : Prop :=
  match r with
  | Plus Digit => True
  | Seq r1 r2 => needs_digit r1 \/ needs_digit r2
  | Alt r1 r2 => needs_digit r1 /\ needs_digit r2
  | Group _ r1 => needs_digit r1
  | _ => False
  end.

(** The patterns [extractNumber] is called with. *)
Definition number_patterns : list regex :=
  [re_database; re_memory; re_connections; re_network; re_storage;
   re_endpoints; re_complexity_then_number; re_number_then_complexity].

(** [s'] is what is left of [s] after some prefix. *)
Definition suffix (s' s : string) : Prop := exists p, s = p ++ s'.

Definition severities : list string := ["critical"; "high"; "medium"; "low"].

(** A bottleneck as [extractBottlenecks] makes them from a line. *)
Definition bottleneck_of (h : Host) (lines : list string) (b : Bottleneck)
  : Prop :=
  In (bn_Description b) lines
  /\ ((bn_Type b = "database"
       /\ bn_Severity b = extractSeverity h (bn_Description b)
       /\ bn_Impact b = "May cause slow response times under load")
      \/ (bn_Type b = "memory"
          /\ bn_Severity b = "high"
          /\ bn_Impact b = "Could cause application crashes")).

(** The product [estimateCurrentUsers] converts to an integer. *)
Definition users_product (complexity endpoints : Z) (jobs : bool)
  : float64 :=
  mul (mul (mul (of_int 1000) (div (of_int complexity) (of_int 50)))
           (fmax (of_decimal 5 1) (div (of_int endpoints) (of_int 10))))
      (if jobs then of_decimal 15 1 else of_int 1).

(** The product fits an [int], and cut and clamped it is the value of the
    formula over the rationals, or one less. *)
Definition users_close (complexity endpoints : Z) (jobs : bool) : bool :=
  match trunc (users_product complexity endpoints jobs) with
  | Some z =>
      (min_int <=? z) && (z <=? max_int)
      && (let exact :=
            estimated_users_exact complexity endpoints
              (if jobs then [EmptyString] else []) in
          Qeq_bool (inject_Z (clamp z 100 1000000)) exact
          || Qeq_bool (inject_Z (clamp z 100 1000000) + 1) exact)
  | None => false
  end.

(** The integers from [lo], [n] of them. *)
Definition Zrange (lo : Z) (n : nat) : list Z :=
  List.map (fun k => lo + Z.of_nat k) (List.seq 0 n).

(** A run that succeeded, a run that failed. *)
Definition ok_run (prompt dir output : string) : Invocation :=
  mkInvocation prompt dir output None.

Definition failed_run (prompt dir output : string) (e : error)
  : Invocation :=
  mkInvocation prompt dir output (Some e).

(** The report after the first pass, the second, the third and the fourth
    have read their outputs. *)
Definition after1 (h : Host) (dir pid o1 : string) : CodeAnalysis :=
  readBasicStructure h o1 (newAnalysis h dir pid).

Definition after2 (h : Host) (dir pid o1 o2 : string) : CodeAnalysis :=
  readDatabaseAndAPI h o2 (after1 h dir pid o1).

Definition after3 (h : Host) (dir pid o1 o2 o3 : string) : CodeAnalysis :=
  readPerformanceAndScaling h o3 (after2 h dir pid o1 o2).

Definition after4 (h : Host) (dir pid o1 o2 o3 o4 : string)
  : CodeAnalysis :=
  readResources h o4 (after3 h dir pid o1 o2 o3).

(** The outcomes of [Client.Analyze] started on an empty log: what it
    returns and the log it leaves, by the answers of the tool. *)
Inductive ClaudeOutcome (h : Host) (dir pid : string)
  : (option CodeAnalysis * option error) * World -> Prop :=
| NotInstalled :
    IsInstalled h = false ->
    ClaudeOutcome h dir pid
      ((None, Some "Claude Code CLI not installed"), [])
| FailedBasic (o e : string) :
    IsInstalled h = true ->
    claude_code h 0 prompt_basic dir = (o, Some e) ->
    ClaudeOutcome h dir pid
      ((None,
        Some (wrap "basic analysis failed"
                (command_failure (failed_run prompt_basic dir o e) e))),
       [failed_run prompt_basic dir o e])
| FailedDatabase (o1 o e : string) :
    IsInstalled h = true ->
    claude_code h 0 prompt_basic dir = (o1, None) ->
    claude_code h 1 prompt_database dir = (o, Some e) ->
    ClaudeOutcome h dir pid
      ((None,
        Some (wrap "database/API analysis failed"
                (command_failure (failed_run prompt_database dir o e) e))),
       [failed_run prompt_database dir o e; ok_run prompt_basic dir o1])
| FailedPerformance (o1 o2 o e : string) :
    IsInstalled h = true ->
    claude_code h 0 prompt_basic dir = (o1, None) ->
    claude_code h 1 prompt_database dir = (o2, None) ->
    claude_code h 2 prompt_performance dir = (o, Some e) ->
    ClaudeOutcome h dir pid
      ((None,
        Some (wrap "performance analysis failed"
                (command_failure (failed_run prompt_performance dir o e)
                                 e))),
       [failed_run prompt_performance dir o e;
        ok_run prompt_database dir o2; ok_run prompt_basic dir o1])
| FailedResources (o1 o2 o3 o e : string) :
    IsInstalled h = true ->
    claude_code h 0 prompt_basic dir = (o1, None) ->
    claude_code h 1 prompt_database dir = (o2, None) ->
    claude_code h 2 prompt_performance dir = (o3, None) ->
    claude_code h 3 (prompt_resources (after3 h dir pid o1 o2 o3)) dir
    = (o, Some e) ->
    ClaudeOutcome h dir pid
      ((None,
        Some (wrap "resource estimation failed"
                (command_failure
                   (failed_run
                      (prompt_resources (after3 h dir pid o1 o2 o3)) dir o e)
                   e))),
       [failed_run (prompt_resources (after3 h dir pid o1 o2 o3)) dir o e;
        ok_run prompt_performance dir o3;
        ok_run prompt_database dir o2; ok_run prompt_basic dir o1])
| Analysed (o1 o2 o3 o4 : string) :
    IsInstalled h = true ->
    claude_code h 0 prompt_basic dir = (o1, None) ->
    claude_code h 1 prompt_database dir = (o2, None) ->
    claude_code h 2 prompt_performance dir = (o3, None) ->
    claude_code h 3 (prompt_resources (after3 h dir pid o1 o2 o3)) dir
    = (o4, None) ->
    ClaudeOutcome h dir pid
      ((Some (after4 h dir pid o1 o2 o3 o4), None),
       [ok_run (prompt_resources (after3 h dir pid o1 o2 o3)) dir o4;
        ok_run prompt_performance dir o3;
        ok_run prompt_database dir o2; ok_run prompt_basic dir o1]).

(** The fields no pass and no step of the normaliser writes. *)
Definition untouched (a b : CodeAnalysis) : Prop :=
  ProjectID b = ProjectID a
  /\ Timestamp b = Timestamp a
  /\ Directory b = Directory a
  /\ StatelessFuncs b = StatelessFuncs a
  /\ SecurityIssues b = SecurityIssues a
  /\ AvgResponseTime (Performance b) = AvgResponseTime (Performance a)
  /\ DatabaseQueries (Performance b) = DatabaseQueries (Performance a)
  /\ CacheHitRate (Performance b) = CacheHitRate (Performance a).

(** The report [Analyze] returns on the sample host. *)
Definition sample_report : CodeAnalysis :=
  Analyzer.postProcess oor_amd64
    (after4 sample_host "." "p" (nth 0 sample_outputs "")
            (nth 1 sample_outputs "") (nth 2 sample_outputs "")
            (nth 3 sample_outputs "")).

(** The reports the normaliser has nothing to change in: language and
    framework named, a complexity score other than 0, the user estimate
    that of the formula, every resource estimate within its interval (or,
    for the CPU estimate, not a number). *)
Definition settled (oor : float64 -> Z) (r : CodeAnalysis) : Prop :=
  Language r <> EmptyString
  /\ Framework r <> EmptyString
  /\ ComplexityScore r <> 0
  /\ EstimatedUsers r
     = estimated_users oor (ComplexityScore r) (ApiEndpoints r)
                       (BackgroundJobs r)
  /\ 128 <= MemoryMB (ResourceUsage r) <= 16384
  /\ (is_nan (CPUCores (ResourceUsage r)) = true
      \/ fbetween Analyzer.f0_1 (CPUCores (ResourceUsage r)) Analyzer.f32)
  /\ 1 <= DatabaseConns (ResourceUsage r) <= 1000
  /\ 1 <= NetworkMbps (ResourceUsage r) <= 10000
  /\ 1 <= StorageGB (ResourceUsage r) <= 10000.

(** A lower-case hexadecimal digit. *)
Definition is_hex (a : ascii) : bool :=
  is_digit a || ((97 <=? byte a) && (byte a <=? 102)).

(** Every byte of a string satisfies a test. *)
Fixpoint all_bytes (p : ascii -> bool) (s : string) : bool :=
  match s with
  | EmptyString => true
  | String a s' => p a && all_bytes p s'
  end.

(** The request [ValidateAPIKey] and [GetProjectInfo] send. *)
Definition get_request (url apiKey : string) : Request :=
  mkRequest "GET" url ""
    [("Authorization", "Bearer " ++ apiKey); ("User-Agent", userAgent)].

(** A network without a key, on which every step would work. *)
Definition keyless : Net :=
  mkNet (fun _ => "") (fun _ => "") (fun _ => inl "{}") (fun _ => None)
        (fun _ => inl (mkResponse 200 "")).

(** A shell that resolves every path to itself. *)
Definition plain_shell : Shell :=
  mkShell (fun p => inl p) "" (fun _ => inl "{}").

End Props.

(** * Properties of the normaliser *)

Section Float64Facts.

Lemma SFcompare_swap (x y : spec_float) :
  SFcompare y x = option_map CompOpp (SFcompare x y).
Proof.
  destruct x as [sx|sx| |sx mx ex], y as [sy|sy| |sy my ey];
    try destruct sx; try destruct sy; simpl; try reflexivity;
    rewrite (Z.compare_antisym ey ex); destruct (ey ?= ex); simpl;
    try reflexivity; pose proof (Pos.compare_cont_antisym mx my Eq) as H;
    simpl in H; do 2 f_equal; symmetry; exact H.
Qed.

Lemma SFcompare_defined (x y : spec_float) :
  is_nan x = false -> is_nan y = false -> SFcompare x y <> None.
Proof.
  destruct x as [sx|sx| |sx mx ex], y as [sy|sy| |sy my ey];
    simpl; intros; discriminate.
Qed.

(** On values that are not NaN, "not less" is "greater or equal". *)
Lemma not_ltb_leb (x c : float64) :
  is_nan x = false -> is_nan c = false -> ltb x c = false -> leb c x = true.
Proof.
  unfold ltb, leb, SFltb, SFleb. intros Hx Hc.
  pose proof (SFcompare_defined x c Hx Hc) as D.
  rewrite (SFcompare_swap x c).
  destruct (SFcompare x c) as [[]|]; simpl; congruence.
Qed.

Lemma not_gtb_leb (x c : float64) :
  is_nan x = false -> is_nan c = false -> gtb x c = false -> leb x c = true.
Proof. unfold gtb. intros Hx Hc H. now apply (not_ltb_leb c x). Qed.

Lemma ltb_leb (x c : float64) : ltb x c = true -> leb x c = true.
Proof.
  unfold ltb, leb, SFltb, SFleb.
  destruct (SFcompare x c) as [[]|]; congruence.
Qed.

End Float64Facts.

Section Normaliser.
Import Analyzer Spec.

Variable oor : float64 -> Z.

Lemma clamp_steps (x lo hi : Z) :
  lo <= hi ->
  (if hi <? (if x <? lo then lo else x) then hi
   else if x <? lo then lo else x) = clamp x lo hi.
Proof.
  intros H. unfold clamp.
  destruct (x <? lo) eqn:E1; [apply Z.ltb_lt in E1 | apply Z.ltb_ge in E1].
  - destruct (hi <? lo) eqn:E2;
      [apply Z.ltb_lt in E2 | apply Z.ltb_ge in E2]; lia.
  - destruct (hi <? x) eqn:E2;
      [apply Z.ltb_lt in E2 | apply Z.ltb_ge in E2]; lia.
Qed.

Lemma clamp_bounds (x lo hi : Z) : lo <= hi -> lo <= clamp x lo hi <= hi.
Proof. unfold clamp. lia. Qed.

Lemma clamp_idem (x lo hi : Z) :
  lo <= hi -> clamp (clamp x lo hi) lo hi = clamp x lo hi.
Proof. unfold clamp. lia. Qed.

Lemma fclamp_idem (x : float64) :
  fclamp (fclamp x f0_1 f32) f0_1 f32 = fclamp x f0_1 f32.
Proof.
  unfold fclamp at 2 3.
  destruct (ltb x f0_1) eqn:L; [reflexivity|].
  destruct (gtb x f32) eqn:G; [reflexivity|].
  unfold fclamp. now rewrite L, G.
Qed.

Lemma fclamp_between (x : float64) :
  is_nan x = false -> fbetween f0_1 (fclamp x f0_1 f32) f32.
Proof.
  intros N. unfold fclamp, fbetween.
  destruct (ltb x f0_1) eqn:L; [split; reflexivity|].
  destruct (gtb x f32) eqn:G; [split; reflexivity|].
  split; [now apply not_ltb_leb | now apply not_gtb_leb].
Qed.

Lemma validateResources_steps (r : ResourceMetrics) :
  validateResources r =
  boundStorage (boundNetwork (boundConns (boundCPU (boundMemory r)))).
Proof. reflexivity. Qed.

Ltac bound_Z r :=
  destruct r as [m c d n s];
  cbv beta delta [boundMemory boundConns boundNetwork boundStorage];
  simpl;
  match goal with
  | |- context [clamp ?x ?lo ?hi] =>
      rewrite <- (clamp_steps x lo hi) by lia;
      destruct (x <? lo); simpl;
      [ destruct (hi <? lo) eqn:E; [discriminate E | reflexivity]
      | destruct (hi <? x); reflexivity ]
  end.

Lemma boundMemory_eq (r : ResourceMetrics) :
  boundMemory r = set_MemoryMB (clamp (MemoryMB r) 128 16384) r.
Proof. bound_Z r. Qed.

Lemma boundConns_eq (r : ResourceMetrics) :
  boundConns r = set_DatabaseConns (clamp (DatabaseConns r) 1 1000) r.
Proof. bound_Z r. Qed.

Lemma boundNetwork_eq (r : ResourceMetrics) :
  boundNetwork r = set_NetworkMbps (clamp (NetworkMbps r) 1 10000) r.
Proof. bound_Z r. Qed.

Lemma boundStorage_eq (r : ResourceMetrics) :
  boundStorage r = set_StorageGB (clamp (StorageGB r) 1 10000) r.
Proof. bound_Z r. Qed.

Lemma boundCPU_eq (r : ResourceMetrics) :
  boundCPU r = set_CPUCores (fclamp (CPUCores r) f0_1 f32) r.
Proof.
  destruct r as [m c d n s]; unfold boundCPU, fclamp;
    cbn -[ltb gtb f0_1 f32].
  destruct (ltb c f0_1); cbn -[ltb gtb f0_1 f32].
  - replace (gtb f0_1 f32) with false by reflexivity. reflexivity.
  - destruct (gtb c f32); reflexivity.
Qed.

(** [validateResourceEstimates] clamps each field on its own. *)
Lemma validateResources_eq (r : ResourceMetrics) :
  validateResources r =
  mkResourceMetrics (clamp (MemoryMB r) 128 16384)
                    (fclamp (CPUCores r) f0_1 f32)
                    (clamp (DatabaseConns r) 1 1000)
                    (clamp (NetworkMbps r) 1 10000)
                    (clamp (StorageGB r) 1 10000).
Proof.
  rewrite validateResources_steps, boundStorage_eq, boundNetwork_eq,
    boundConns_eq, boundCPU_eq, boundMemory_eq.
  destruct r; reflexivity.
Qed.

Lemma validateResources_idem (r : ResourceMetrics) :
  validateResources (validateResources r) = validateResources r.
Proof.
  rewrite (validateResources_eq (validateResources r)).
  rewrite !validateResources_eq.
  cbn [MemoryMB CPUCores DatabaseConns NetworkMbps StorageGB].
  rewrite fclamp_idem, !clamp_idem by lia. reflexivity.
Qed.

(** [postProcess], field by field. *)
Lemma postProcess_eq (r : CodeAnalysis) :
  postProcess oor r =
  mkCodeAnalysis (ProjectID r) (Timestamp r) (Directory r)
    (default_string (Language r)) (default_string (Framework r))
    (Dependencies r) (DatabaseCalls r) (ApiEndpoints r) (StatelessFuncs r)
    (BackgroundJobs r) (CacheUsage r) (FileUploads r)
    (default_complexity (ComplexityScore r)) (ScalingBottlenecks r)
    (validateResources (ResourceUsage r)) (estimateCurrentUsers oor r)
    (SecurityIssues r) (Performance r).
Proof.
  unfold postProcess, validateResourceEstimates, default_string,
    default_complexity.
  generalize (estimateCurrentUsers oor r) as u. intros u.
  destruct r as [pid ts dir lang fw deps dbc api sf jobs cache up cx bns ru
                   eu sec perf].
  cbv beta zeta iota delta
      [set_EstimatedUsers set_Language set_Framework set_ComplexityScore
       set_ResourceUsage ProjectID Timestamp Directory Language Framework
       Dependencies DatabaseCalls ApiEndpoints StatelessFuncs BackgroundJobs
       CacheUsage FileUploads ComplexityScore ScalingBottlenecks
       ResourceUsage EstimatedUsers SecurityIssues Performance].
  destruct (is_empty lang), (is_empty fw), (cx =? 0); reflexivity.
Qed.

Lemma len_pos {A : Type} (l : list A) :
  (0 <? len l) = match l with [] => false | _ :: _ => true end.
Proof. destruct l; unfold len; simpl; [reflexivity | apply Z.ltb_lt; lia]. Qed.

(** [estimateCurrentUsers] is the formula on the three fields it reads. *)
Lemma estimateCurrentUsers_eq (r : CodeAnalysis) :
  estimateCurrentUsers oor r =
  estimated_users oor (ComplexityScore r) (ApiEndpoints r) (BackgroundJobs r).
Proof.
  unfold estimateCurrentUsers, estimated_users, fmax. cbv zeta.
  rewrite len_pos.
  change f50 with (of_int 50). change f10 with (of_int 10).
  change f0_5 with (of_decimal 5 1). change f1_0 with (of_int 1).
  change f1_5 with (of_decimal 15 1).
  replace (match BackgroundJobs r with [] => of_int 1
                                  | _ :: _ => of_decimal 15 1 end)
    with (if match BackgroundJobs r with [] => false | _ :: _ => true end
          then of_decimal 15 1 else of_int 1)
    by (destruct (BackgroundJobs r); reflexivity).
  match goal with |- context [to_int oor ?p] => generalize (to_int oor p) end.
  intros z. apply (clamp_steps z 100 1000000). lia.
Qed.

Lemma estimated_users_bounds (c e : Z) (jobs : list string) :
  100 <= estimated_users oor c e jobs <= 1000000.
Proof. unfold estimated_users. apply clamp_bounds. lia. Qed.

Lemma default_string_nonempty (s : string) : default_string s <> EmptyString.
Proof. unfold default_string. destruct s; simpl; discriminate. Qed.

Lemma default_string_idem (s : string) :
  default_string (default_string s) = default_string s.
Proof. unfold default_string. destruct s; reflexivity. Qed.

Lemma default_complexity_nonzero (c : Z) :
  c <> 0 -> default_complexity c = c.
Proof.
  unfold default_complexity. intros C.
  destruct (c =? 0) eqn:E; [apply Z.eqb_eq in E; contradiction | reflexivity].
Qed.

Lemma default_complexity_idem (c : Z) :
  default_complexity (default_complexity c) = default_complexity c.
Proof.
  unfold default_complexity. destruct (c =? 0) eqn:E; [reflexivity|].
  now rewrite E.
Qed.

(** [postProcess] applied twice, field by field: all is as after the
    first application but the user estimate, now taken from the defaulted
    score. *)
Lemma postProcess_again (r : CodeAnalysis) :
  postProcess oor (postProcess oor r) =
  mkCodeAnalysis (ProjectID r) (Timestamp r) (Directory r)
    (default_string (Language r)) (default_string (Framework r))
    (Dependencies r) (DatabaseCalls r) (ApiEndpoints r) (StatelessFuncs r)
    (BackgroundJobs r) (CacheUsage r) (FileUploads r)
    (default_complexity (ComplexityScore r)) (ScalingBottlenecks r)
    (validateResources (ResourceUsage r))
    (estimated_users oor (default_complexity (ComplexityScore r))
                     (ApiEndpoints r) (BackgroundJobs r))
    (SecurityIssues r) (Performance r).
Proof.
  rewrite (postProcess_eq (postProcess oor r)).
  rewrite (estimateCurrentUsers_eq (postProcess oor r)).
  rewrite !postProcess_eq.
  cbn [ProjectID Timestamp Directory Language Framework Dependencies
       DatabaseCalls ApiEndpoints StatelessFuncs BackgroundJobs CacheUsage
       FileUploads ComplexityScore ScalingBottlenecks ResourceUsage
       EstimatedUsers SecurityIssues Performance].
  now rewrite !default_string_idem, validateResources_idem,
    default_complexity_idem.
Qed.

(** The resource estimates [validateResourceEstimates] leaves are within
    their intervals, if the CPU estimate it is given is a number. *)
Lemma validateResources_bounds (ru : ResourceMetrics) :
  is_nan (CPUCores ru) = false ->
  128 <= MemoryMB (validateResources ru) <= 16384
  /\ fbetween f0_1 (CPUCores (validateResources ru)) f32
  /\ 1 <= DatabaseConns (validateResources ru) <= 1000
  /\ 1 <= NetworkMbps (validateResources ru) <= 10000
  /\ 1 <= StorageGB (validateResources ru) <= 10000.
Proof.
  intros N. rewrite validateResources_eq.
  cbn [MemoryMB CPUCores DatabaseConns NetworkMbps StorageGB].
  repeat split; try (apply clamp_bounds; lia); now apply fclamp_between.
Qed.

End Normaliser.

Section NormaliserClaims.
Import Analyzer Spec.

(** C1, as stated, fails: the two comparisons that clamp the CPU estimate
    are both false on a NaN, which is returned as it came and lies in no
    interval. *)
Lemma postProcess_keeps_nan :
  ~ bounded (postProcess oor_amd64 nan_report).
Proof.
  unfold bounded, fbetween. intros (_ & (H & _) & _).
  vm_compute in H. discriminate H.
Qed.

(** C1 (amended): for every input report whose CPU estimate is not NaN, the
    report [postProcess] returns has memory in [128, 16384], CPU cores in
    [0.1, 32.0], database connections in [1, 1000], bandwidth in
    [1, 10000], storage in [1, 10000], each being the input value clamped
    to the nearest bound; language and framework are not empty and
    estimated_users is in [100, 1000000]. *)
Theorem postProcess_bounded (oor : float64 -> Z) (r : CodeAnalysis) :
  is_nan (CPUCores (ResourceUsage r)) = false ->
  bounded (postProcess oor r) /\ clamped r (postProcess oor r).
Proof.
  intros N. split.
  - pose proof (validateResources_bounds (ResourceUsage r) N) as B.
    rewrite postProcess_eq. unfold bounded.
    cbn [Language Framework EstimatedUsers ResourceUsage].
    rewrite estimateCurrentUsers_eq.
    destruct B as (Bm & Bc & Bd & Bn & Bs).
    repeat split;
      try apply default_string_nonempty;
      try apply estimated_users_bounds;
      solve [apply Bm | apply Bc | apply Bd | apply Bn | apply Bs].
  - rewrite postProcess_eq. unfold clamped. cbn [ResourceUsage].
    rewrite validateResources_eq.
    cbn [MemoryMB CPUCores DatabaseConns NetworkMbps StorageGB].
    repeat split.
Qed.

Lemma postProcess_bounded_witness :
  bounded (postProcess oor_amd64 zeroCodeAnalysis)
  /\ clamped zeroCodeAnalysis (postProcess oor_amd64 zeroCodeAnalysis).
Proof.
  apply (postProcess_bounded oor_amd64 zeroCodeAnalysis). reflexivity.
Defined.

(** C2, as stated, fails: the user estimate is computed before the
    complexity default is applied, so on the zero report the first
    application estimates from complexity 0 (100 users) and the second
    from the defaulted 50 (500 users). *)
Lemma postProcess_not_idempotent :
  postProcess oor_amd64 (postProcess oor_amd64 zeroCodeAnalysis)
  <> postProcess oor_amd64 zeroCodeAnalysis.
Proof.
  intros H. apply (f_equal EstimatedUsers) in H. vm_compute in H.
  discriminate H.
Qed.

(** C2 (amended): on every report whose complexity score is not zero,
    [postProcess] is idempotent. *)
Theorem postProcess_idempotent (oor : float64 -> Z) (r : CodeAnalysis) :
  ComplexityScore r <> 0 ->
  postProcess oor (postProcess oor r) = postProcess oor r.
Proof.
  intros C.
  rewrite postProcess_again, postProcess_eq, estimateCurrentUsers_eq.
  rewrite (default_complexity_nonzero _ C).
  reflexivity.
Qed.

Lemma postProcess_idempotent_witness :
  postProcess oor_amd64
    (postProcess oor_amd64 (set_ComplexityScore 72 zeroCodeAnalysis))
  = postProcess oor_amd64 (set_ComplexityScore 72 zeroCodeAnalysis).
Proof.
  apply (postProcess_idempotent oor_amd64
           (set_ComplexityScore 72 zeroCodeAnalysis)).
  simpl. discriminate.
Defined.

(** X28 - two applications of [postProcess] reach a fixed point on every
    report: a third changes nothing, also where the second did. *)
Lemma postProcess_settles (oor : float64 -> Z) (r : CodeAnalysis) :
  postProcess oor (postProcess oor (postProcess oor r))
  = postProcess oor (postProcess oor r).
Proof.
  rewrite (postProcess_again oor (postProcess oor r)).
  rewrite postProcess_again, postProcess_eq.
  cbn [ProjectID Timestamp Directory Language Framework Dependencies
       DatabaseCalls ApiEndpoints StatelessFuncs BackgroundJobs CacheUsage
       FileUploads ComplexityScore ScalingBottlenecks ResourceUsage
       EstimatedUsers SecurityIssues Performance].
  now rewrite !default_string_idem, validateResources_idem,
    !default_complexity_idem.
Qed.

(** C3, as stated, fails: on the zero report the returned report has
    complexity 50, no endpoint and no job, for which the formula gives 500
    in the rationals and in float64 alike; the returned estimate is 100. *)
Lemma estimated_users_not_of_returned_report :
  let r' := postProcess oor_amd64 zeroCodeAnalysis in
  ~ (inject_Z (EstimatedUsers r')
     == estimated_users_exact (ComplexityScore r') (ApiEndpoints r')
                              (BackgroundJobs r'))%Q
  /\ EstimatedUsers r'
     <> estimated_users oor_amd64 (ComplexityScore r') (ApiEndpoints r')
                        (BackgroundJobs r').
Proof.
  split.
  - intros H. vm_compute in H. discriminate H.
  - intros H. vm_compute in H. discriminate H.
Qed.

(** Each float64 operation rounds and the product is cut, not rounded:
    complexity 5 with 23 endpoints gives 229, where the formula over the
    rationals gives 230. *)
Example estimateCurrentUsers_rounds_down :
  let r := set_ApiEndpoints 23 (set_ComplexityScore 5 zeroCodeAnalysis) in
  EstimatedUsers (postProcess oor_amd64 r) = 229
  /\ (estimated_users_exact 5 23 [] == 230)%Q.
Proof. split; reflexivity. Qed.

(** C3 (amended): estimated_users of the returned report is the formula
    evaluated in float64 arithmetic (every operation rounded to nearest,
    the product cut to its integer part) on the complexity score of the
    INPUT report and on the endpoint count and job list of the returned
    one; the returned score is the input score unless that is 0, when it
    is 50. *)
Theorem postProcess_estimated_users (oor : float64 -> Z) (r : CodeAnalysis) :
  let r' := postProcess oor r in
  EstimatedUsers r'
  = estimated_users oor (ComplexityScore r) (ApiEndpoints r')
                    (BackgroundJobs r')
  /\ ComplexityScore r'
     = (if ComplexityScore r =? 0 then 50 else ComplexityScore r).
Proof.
  cbv zeta. rewrite postProcess_eq.
  cbn [EstimatedUsers ComplexityScore ApiEndpoints BackgroundJobs].
  split; [apply estimateCurrentUsers_eq | reflexivity].
Qed.

(** C4, as stated, fails: only the score 0 is replaced; 150 goes
    through. *)
Lemma postProcess_keeps_large_complexity :
  ~ (1 <= ComplexityScore
            (postProcess oor_amd64 (set_ComplexityScore 150 zeroCodeAnalysis))
     <= 100).
Proof. vm_compute. intros [_ H]. apply H. reflexivity. Qed.

(** C4 (amended): for every input report whose complexity score lies in
    [0, 100], the score of the returned report lies in [1, 100]; a zero
    score becomes 50 and any other score is returned as it came. *)
Theorem postProcess_complexity (oor : float64 -> Z) (r : CodeAnalysis) :
  0 <= ComplexityScore r <= 100 ->
  1 <= ComplexityScore (postProcess oor r) <= 100
  /\ ComplexityScore (postProcess oor r)
     = (if ComplexityScore r =? 0 then 50 else ComplexityScore r).
Proof.
  intros H. rewrite postProcess_eq. cbn [ComplexityScore].
  unfold default_complexity. split; [|reflexivity].
  destruct (ComplexityScore r =? 0) eqn:E;
    [lia | apply Z.eqb_neq in E; lia].
Qed.

Lemma postProcess_complexity_witness :
  1 <= ComplexityScore (postProcess oor_amd64 zeroCodeAnalysis) <= 100
  /\ ComplexityScore (postProcess oor_amd64 zeroCodeAnalysis)
     = (if ComplexityScore zeroCodeAnalysis =? 0 then 50
        else ComplexityScore zeroCodeAnalysis).
Proof.
  apply (postProcess_complexity oor_amd64 zeroCodeAnalysis). simpl. lia.
Defined.

(** C10: [postProcess] leaves every field alone but estimated_users,
    language, framework, complexity_score and the resource estimates. *)
Theorem postProcess_frame (oor : float64 -> Z) (r : CodeAnalysis) :
  let r' := postProcess oor r in
  ProjectID r' = ProjectID r
  /\ Timestamp r' = Timestamp r
  /\ Directory r' = Directory r
  /\ Dependencies r' = Dependencies r
  /\ DatabaseCalls r' = DatabaseCalls r
  /\ ApiEndpoints r' = ApiEndpoints r
  /\ StatelessFuncs r' = StatelessFuncs r
  /\ BackgroundJobs r' = BackgroundJobs r
  /\ CacheUsage r' = CacheUsage r
  /\ FileUploads r' = FileUploads r
  /\ ScalingBottlenecks r' = ScalingBottlenecks r
  /\ SecurityIssues r' = SecurityIssues r
  /\ Performance r' = Performance r.
Proof.
  cbv zeta. rewrite postProcess_eq.
  cbn [ProjectID Timestamp Directory Dependencies DatabaseCalls
       ApiEndpoints StatelessFuncs BackgroundJobs CacheUsage FileUploads
       ScalingBottlenecks SecurityIssues Performance].
  repeat split.
Qed.

End NormaliserClaims.

(** * Rounding never makes a NaN *)

Section Rounding.
Import Strings Spec.

Lemma shr_1_nonneg (mrs : shr_record) :
  0 <= shr_m mrs -> 0 <= shr_m (shr_1 mrs).
Proof.
  destruct mrs as [m r s]. destruct m as [|p|p]; simpl; intros H;
    try destruct p; simpl; lia.
Qed.

Lemma iter_pos_invariant {A : Type} (P : A -> Prop) (f : A -> A) :
  (forall x, P x -> P (f x)) ->
  forall (n : positive) (x : A), P x -> P (SpecFloat.iter_pos f n x).
Proof.
  intros Hf. induction n as [n IH|n IH|]; simpl; intros x Hx; auto.
Qed.

Lemma shr_nonneg (mrs : shr_record) (e n : Z) :
  0 <= shr_m mrs -> 0 <= shr_m (fst (shr mrs e n)).
Proof.
  intros H. unfold shr. destruct n as [|p|p]; simpl; try exact H.
  apply (iter_pos_invariant (fun x => 0 <= shr_m x)); [|exact H].
  exact shr_1_nonneg.
Qed.

Lemma shr_fexp_nonneg (m e : Z) (l : location) :
  0 <= m -> 0 <= shr_m (fst (shr_fexp prec emax m e l)).
Proof.
  intros H. unfold shr_fexp. apply shr_nonneg.
  destruct l as [|[]]; exact H.
Qed.

Lemma round_nearest_even_nonneg (m : Z) (l : location) :
  0 <= m -> 0 <= round_nearest_even m l.
Proof.
  intros H. unfold round_nearest_even.
  destruct l as [|[]]; try destruct (Z.even m); lia.
Qed.

(** Rounding a mantissa that is not negative gives a number. *)
Lemma binary_round_aux_number (sx : bool) (mx ex : Z) (lx : location) :
  0 <= mx -> is_nan (binary_round_aux prec emax sx mx ex lx) = false.
Proof.
  intros H. unfold binary_round_aux.
  pose proof (shr_fexp_nonneg mx ex lx H) as H1.
  destruct (shr_fexp prec emax mx ex lx) as [mrs' e'].
  cbn [fst] in H1.
  pose proof (shr_fexp_nonneg _ e' loc_Exact
                (round_nearest_even_nonneg _ (loc_of_shr_record mrs') H1))
    as H2.
  destruct (shr_fexp prec emax _ e' loc_Exact) as [mrs'' e''].
  cbn [fst] in H2.
  destruct (shr_m mrs'') as [|p|p]; [reflexivity| |lia].
  destruct (e'' <=? emax - prec); reflexivity.
Qed.

Lemma of_decimal_number (n : positive) (k : nat) :
  is_nan (of_decimal n k) = false.
Proof.
  unfold of_decimal, SFdiv_core_binary.
  set (m' := match _ - _ - _ with
             | 0 => Z.pos n
             | Z.pos _ => Z.shiftl (Z.pos n) _
             | Z.neg _ => 0
             end).
  assert (M : 0 <= m').
  { subst m'. match goal with |- 0 <= match ?s with _ => _ end =>
                destruct s end; try lia.
    apply Z.shiftl_nonneg. lia. }
  assert (D : 0 < 5 ^ Z.of_nat k) by (apply Z.pow_pos_nonneg; lia).
  pose proof (Z.div_pos m' (5 ^ Z.of_nat k) M D) as Q.
  unfold Z.div in Q.
  destruct (Z.div_eucl m' (5 ^ Z.of_nat k)) as [q r]. cbn [fst] in Q.
  now apply binary_round_aux_number.
Qed.

Lemma ParseDecimal_number (s : string) (x : float64) :
  ParseDecimal s = Some x -> is_nan x = false.
Proof.
  assert (V : forall n k y, decimal_value n k = Some y -> is_nan y = false).
  { intros n k y. unfold decimal_value. destruct n as [|p|p].
    - intros H. injection H as <-. reflexivity.
    - pose proof (of_decimal_number p k) as N.
      destruct (of_decimal p k); try discriminate;
        intros H; injection H as <-; exact N.
    - intros H. injection H as <-. reflexivity. }
  unfold ParseDecimal.
  destruct (span_digits s) as [ip rest].
  destruct ip as [|a ip]; [discriminate|].
  destruct rest as [|c rest].
  - destruct (digits_value 0 (String a ip)); [apply V | discriminate].
  - destruct c as [[] [] [] [] [] [] [] []]; try discriminate.
    destruct (span_digits rest) as [fp rest'].
    destruct fp as [|b fp]; [discriminate|].
    destruct rest'; [|discriminate].
    destruct (digits_value 0 _); [apply V | discriminate].
Qed.

Lemma sample_host_parses_numbers : parses_numbers sample_host.
Proof. intros s x _. exact (ParseDecimal_number s x). Qed.

End Rounding.

(** * What the matcher captures *)

Section Captures.
Import Strings Regexp Claude Spec.
Open Scope string_scope.
Open Scope Z_scope.

Lemma digits_value_nonneg (s : string) :
  forall acc n, 0 <= acc -> digits_value acc s = Some n -> 0 <= n.
Proof.
  induction s as [|a s IH]; simpl; intros acc n Hacc H.
  - injection H as <-. exact Hacc.
  - destruct (is_digit a) eqn:D; [|discriminate].
    apply (IH (acc * 10 + (byte a - 48)) n); [|exact H].
    unfold is_digit in D. apply andb_prop in D. destruct D as [D _].
    apply Z.leb_le in D. lia.
Qed.

(** [Atoi] reads no negative number from a text that begins with a
    digit. *)
Lemma Atoi_numeral (s : string) (n : Z) :
  numeral_text s -> Atoi s = Some n -> 0 <= n.
Proof.
  unfold Atoi. intros U.
  assert (E : match s with
              | String "-" s' => (true, s')
              | String "+" s' => (false, s')
              | _ => (false, s)
              end = (false, s)).
  { destruct s as [|a s']; [reflexivity|]. simpl in U.
    destruct a as [[] [] [] [] [] [] [] []]; try reflexivity;
      discriminate U. }
  rewrite E.
  destruct s as [|b body]; [discriminate|].
  destruct (digits_value 0 (String b body)) as [v|] eqn:V; [|discriminate].
  destruct ((min_int <=? v) && (v <=? max_int)); [|discriminate].
  intros H. injection H as <-.
  apply (digits_value_nonneg _ _ _ (Z.le_refl 0) V).
Qed.

Lemma greedy_continues {R : Type} (p : ascii -> bool) (s : string)
      (k : string -> option R) (res : R) :
  greedy R p s k = Some res -> exists s', k s' = Some res.
Proof.
  induction s as [|a s IH]; simpl; intros H.
  - now exists EmptyString.
  - destruct (p a).
    + destruct (greedy R p s k) as [x|] eqn:G.
      * injection H as <-. now apply IH.
      * now exists (String a s).
    + now exists (String a s).
Qed.

Lemma lazy_continues {R : Type} (p : ascii -> bool) (s : string)
      (k : string -> option R) (res : R) :
  lazy R p s k = Some res -> exists s', k s' = Some res.
Proof.
  induction s as [|a s IH]; simpl; intros H.
  - destruct (k EmptyString) as [x|] eqn:K; [|discriminate].
    injection H as <-. now exists EmptyString.
  - destruct (k (String a s)) as [x|] eqn:K.
    + injection H as <-. now exists (String a s).
    + destruct (p a); [now apply IH | discriminate].
Qed.

(** A pattern that begins with [\d+] only matches at a digit. *)
Lemma run_leading_digits {R : Type} (r : regex) :
  leading_digits r ->
  forall (s : string) (c : captures)
         (k : string -> captures -> option R) (res : R),
    run R r s c k = Some res -> numeral_text s /\ s <> EmptyString.
Proof.
  induction r as [l|p|p|p|r1 IH1 r2 IH2|r1 IH1 r2 IH2|r1 IH1|n r1 IH1];
    simpl; intros L s c k res H; try contradiction.
  - destruct p; [|contradiction].
    destruct s as [|a s]; [discriminate|]. simpl in H |- *.
    destruct (is_digit a); [split; [reflexivity | discriminate]
                           | discriminate].
  - exact (IH1 L s c _ res H).
Qed.

Lemma consumed_numeral (s rest : string) :
  numeral_text s -> numeral_text (consumed s rest).
Proof.
  intros D. unfold consumed.
  destruct (String.length s - String.length rest)%nat;
    destruct s as [|a s]; simpl; try exact I. exact D.
Qed.

(** A successful match hands to its continuation captures that are
    numerals when those it started from are. *)
Lemma run_numeral {R : Type} (Q : R -> Prop) (r : regex) :
  digit_groups r ->
  forall (s : string) (c : captures)
         (k : string -> captures -> option R) (res : R),
    numeral_captures c ->
    (forall s' c', numeral_captures c' -> k s' c' = Some res -> Q res) ->
    run R r s c k = Some res -> Q res.
Proof.
  induction r as [l|p|p|p|r1 IH1 r2 IH2|r1 IH1 r2 IH2|r1 IH1|n r1 IH1];
    simpl; intros G s c k res U K H.
  - destruct (literal l s) as [s'|]; [|discriminate]. exact (K _ _ U H).
  - destruct s as [|a s]; [discriminate|].
    destruct (in_class p a); [|discriminate].
    apply greedy_continues in H. destruct H as [s' H]. exact (K _ _ U H).
  - apply greedy_continues in H. destruct H as [s' H]. exact (K _ _ U H).
  - apply lazy_continues in H. destruct H as [s' H]. exact (K _ _ U H).
  - destruct G as [G1 G2].
    apply (IH1 G1 s c (fun s1 c1 => run R r2 s1 c1 k) res U); [|exact H].
    intros s' c' U' H'. exact (IH2 G2 s' c' k res U' K H').
  - destruct G as [G1 G2].
    destruct (run R r1 s c k) as [x|] eqn:E.
    + injection H as <-. exact (IH1 G1 s c k x U K E).
    + exact (IH2 G2 s c k res U K H).
  - destruct (run R r1 s c k) as [x|] eqn:E.
    + injection H as <-. exact (IH1 G s c k x U K E).
    + exact (K _ _ U H).
  - destruct G as [L G].
    destruct (run_leading_digits r1 L s c _ res H) as [N _].
    apply (IH1 G s c (fun s1 c1 => k s1 ((n, consumed s s1) :: c1)) res U);
      [|exact H].
    intros s' c' U' H'. apply (K s' ((n, consumed s s') :: c')); [|exact H'].
    constructor; [now apply consumed_numeral | exact U'].
Qed.

Lemma run_top_numeral (r : regex) (s : string) (m : string * captures) :
  digit_groups r ->
  run _ r s [] (fun rest c => Some (consumed s rest, c)) = Some m ->
  numeral_captures (snd m).
Proof.
  intros G E.
  apply (run_numeral (fun m => numeral_captures (snd m)) r G s []
           (fun rest c => Some (consumed s rest, c)) m (Forall_nil _));
    [|exact E].
  intros s' c' U' H'. injection H' as H'. subst m. exact U'.
Qed.

Lemma find_numeral (r : regex) (s whole : string) (c : captures) :
  digit_groups r -> find r s = Some (whole, c) -> numeral_captures c.
Proof.
  intros G. induction s as [|a s IH]; simpl.
  - destruct (run _ r "" [] _) as [x|] eqn:E; [|discriminate].
    intros H. injection H as ->.
    exact (run_top_numeral r _ _ G E).
  - destruct (run _ r (String a s) [] _) as [x|] eqn:E.
    + intros H. injection H as ->.
      exact (run_top_numeral r _ _ G E).
    + exact IH.
Qed.

Lemma capture_numeral (n : nat) (c : captures) :
  numeral_captures c -> numeral_text (capture n c).
Proof.
  induction 1 as [|[m s] c Hs _ IH]; simpl; [exact I|].
  destruct (Nat.eqb m n); assumption.
Qed.

(** The text of the first group of a match, as the extractors take it. *)
Lemma first_group_numeral (pattern : regex) (text : string) :
  digit_groups pattern ->
  numeral_text (nth 1 (FindStringSubmatch pattern text) "").
Proof.
  intros G. unfold FindStringSubmatch.
  destruct (find pattern text) as [[whole c]|] eqn:F; [|exact I].
  apply find_numeral in F; [|exact G].
  destruct (NumSubexp pattern) as [|m]; cbn [List.seq List.map nth];
    [exact I | now apply capture_numeral].
Qed.

(** A pattern whose groups begin with [\d+] never extracts a negative
    number. *)
Lemma extractNumber_nonneg (text : string) (pattern : regex) :
  digit_groups pattern -> 0 <= extractNumber text pattern.
Proof.
  intros G. unfold extractNumber. cbv zeta.
  pose proof (first_group_numeral pattern text G) as N.
  destruct (1 <? len _); [|lia].
  destruct (Atoi _) as [v|] eqn:A; [|lia].
  exact (Atoi_numeral _ _ N A).
Qed.

(** Nor does it extract a NaN, if [ParseFloat] reads numbers. *)
Lemma extractFloat_number (h : Host) (text : string) (pattern : regex) :
  parses_numbers h -> digit_groups pattern ->
  is_nan (extractFloat h text pattern) = false.
Proof.
  intros P G. unfold extractFloat. cbv zeta.
  pose proof (first_group_numeral pattern text G) as N.
  destruct (1 <? len _); [|reflexivity].
  destruct (ParseFloat h _) as [x|] eqn:A; [|reflexivity].
  exact (P _ _ N A).
Qed.

(** [extractComplexity] returns a score in [1, 100] on every text. *)
Lemma extractComplexity_range (text : string) :
  1 <= extractComplexity text <= 100.
Proof.
  unfold extractComplexity. cbv zeta.
  assert (G1 : digit_groups re_complexity_then_number)
    by (simpl; auto).
  assert (G2 : digit_groups re_number_then_complexity)
    by (simpl; auto).
  pose proof (extractNumber_nonneg text _ G1) as N1.
  pose proof (extractNumber_nonneg text _ G2) as N2.
  destruct (extractNumber text re_complexity_then_number =? 0) eqn:E1.
  - destruct (extractNumber text re_number_then_complexity =? 0) eqn:E2;
      [simpl; lia|].
    apply Z.eqb_neq in E2. rewrite orb_false_l.
    destruct (100 <? _) eqn:E3; [lia | apply Z.ltb_ge in E3; lia].
  - rewrite E1, orb_false_l. apply Z.eqb_neq in E1.
    destruct (100 <? _) eqn:E3; [lia | apply Z.ltb_ge in E3; lia].
Qed.

(** The CPU estimate the resource pass leaves is a number. *)
Lemma readResources_cpu_number (h : Host) (output : string)
      (a : CodeAnalysis) :
  parses_numbers h ->
  is_nan (CPUCores (ResourceUsage (readResources h output a))) = false.
Proof.
  intros P.
  assert (G : digit_groups re_cpu) by (simpl; auto).
  pose proof (extractFloat_number h output re_cpu P G) as N.
  unfold readResources. cbv zeta.
  cbv beta iota delta
      [ResourceUsage set_ResourceUsage MemoryMB CPUCores set_MemoryMB
       set_CPUCores set_DatabaseConns set_NetworkMbps set_StorageGB
       DatabaseConns NetworkMbps StorageGB].
  destruct (extractNumber output re_memory =? 0),
    (eqb (extractFloat h output re_cpu) (of_int 0));
    cbv beta iota; try exact N;
    unfold estimateCPUFromEndpoints;
    destruct (50 <=? ApiEndpoints a), (20 <=? ApiEndpoints a),
      (10 <=? ApiEndpoints a); reflexivity.
Qed.

End Captures.

(** * Properties of the extractors and of the passes *)

Section ExtractorClaims.
Import Strings Regexp Claude Spec.
Open Scope string_scope.
Open Scope Z_scope.

Lemma estimateMemoryFromComplexity_table (complexity : Z) :
  estimateMemoryFromComplexity complexity
  = lookup memory_bands memory_default complexity.
Proof. reflexivity. Qed.

Lemma estimateCPUFromEndpoints_table (endpoints : Z) :
  estimateCPUFromEndpoints endpoints
  = lookup cpu_bands cpu_default endpoints.
Proof. reflexivity. Qed.

(** A pass whose run succeeds reads the output of the run into the report
    and logs the run. *)
Lemma pass_reads (h : Host) (dir prompt output : string)
      (read : string -> CodeAnalysis -> CodeAnalysis) (a : CodeAnalysis)
      (w : World) :
  claude_code h (List.length w) prompt dir = (output, None) ->
  pass h dir prompt read a w
  = ((read output a, None), mkInvocation prompt dir output None :: w).
Proof.
  intros E. unfold pass, runClaudeCommand, CombinedOutput, bind, ret.
  rewrite E. reflexivity.
Qed.

(** Memory and CPU cores of the report the resource pass makes of an
    output: the number extracted, or the value of the table when that
    is zero. *)
Lemma readResources_tables (h : Host) (output : string) (a : CodeAnalysis) :
  MemoryMB (ResourceUsage (readResources h output a))
  = (if extractNumber output re_memory =? 0
     then lookup memory_bands memory_default (ComplexityScore a)
     else extractNumber output re_memory)
  /\ CPUCores (ResourceUsage (readResources h output a))
     = (if eqb (extractFloat h output re_cpu) (of_int 0)
        then lookup cpu_bands cpu_default (ApiEndpoints a)
        else extractFloat h output re_cpu).
Proof.
  unfold readResources. cbv zeta.
  cbv beta iota delta
      [ResourceUsage set_ResourceUsage MemoryMB CPUCores set_MemoryMB
       set_CPUCores set_DatabaseConns set_NetworkMbps set_StorageGB
       DatabaseConns NetworkMbps StorageGB].
  destruct (extractNumber output re_memory =? 0),
    (eqb (extractFloat h output re_cpu) (of_int 0)); split; reflexivity.
Qed.

(** C6: when the run of the resource pass succeeds, [estimateResources]
    returns no error, logs the run, and leaves a report in which memory is
    the number extracted from the output, or when that is zero the value
    of the complexity table (>= 80: 2048, >= 60: 1024, >= 40: 512, else
    256), and CPU cores is the number extracted, or when that is zero the
    value of the endpoint table (>= 50: 4.0, >= 20: 2.0, >= 10: 1.0, else
    0.5).  With complexity 85, 3 endpoints and an output from which memory
    and CPU extract to zero the pass yields memory 2048 and CPU 0.5. *)
Theorem estimateResources_fallback (h : Host) (dir output : string)
        (a : CodeAnalysis) (w : World) :
  claude_code h (List.length w) (prompt_resources a) dir = (output, None) ->
  let res := estimateResources h dir a w in
  let a' := fst (fst res) in
  snd (fst res) = None
  /\ snd res = mkInvocation (prompt_resources a) dir output None :: w
  /\ MemoryMB (ResourceUsage a')
     = (if extractNumber output re_memory =? 0
        then lookup memory_bands memory_default (ComplexityScore a)
        else extractNumber output re_memory)
  /\ CPUCores (ResourceUsage a')
     = (if eqb (extractFloat h output re_cpu) (of_int 0)
        then lookup cpu_bands cpu_default (ApiEndpoints a)
        else extractFloat h output re_cpu)
  /\ (ComplexityScore a = 85 -> ApiEndpoints a = 3 ->
      extractNumber output re_memory = 0 ->
      eqb (extractFloat h output re_cpu) (of_int 0) = true ->
      MemoryMB (ResourceUsage a') = 2048
      /\ CPUCores (ResourceUsage a') = of_decimal 5 1).
Proof.
  intros E. cbv zeta. unfold estimateResources.
  rewrite (pass_reads h dir (prompt_resources a) output) by exact E.
  cbn [fst snd].
  destruct (readResources_tables h output a) as [M C].
  split; [reflexivity | split; [reflexivity |]].
  split; [exact M | split; [exact C |]].
  intros Ec Ee Em Ef. rewrite M, C, Ec, Ee, Em, Ef.
  split; reflexivity.
Qed.

Lemma estimateResources_fallback_witness :
  let a := set_ApiEndpoints 3 (set_ComplexityScore 85 zeroCodeAnalysis) in
  let res := estimateResources (printing "no figures") "." a [] in
  let a' := fst (fst res) in
  snd (fst res) = None
  /\ snd res
     = mkInvocation (prompt_resources a) "." "no figures" None :: []
  /\ MemoryMB (ResourceUsage a')
     = (if extractNumber "no figures" re_memory =? 0
        then lookup memory_bands memory_default (ComplexityScore a)
        else extractNumber "no figures" re_memory)
  /\ CPUCores (ResourceUsage a')
     = (if eqb (extractFloat (printing "no figures") "no figures" re_cpu)
               (of_int 0)
        then lookup cpu_bands cpu_default (ApiEndpoints a)
        else extractFloat (printing "no figures") "no figures" re_cpu)
  /\ (ComplexityScore a = 85 -> ApiEndpoints a = 3 ->
      extractNumber "no figures" re_memory = 0 ->
      eqb (extractFloat (printing "no figures") "no figures" re_cpu)
          (of_int 0) = true ->
      MemoryMB (ResourceUsage a') = 2048
      /\ CPUCores (ResourceUsage a') = of_decimal 5 1).
Proof.
  apply (estimateResources_fallback (printing "no figures") "."
           "no figures"
           (set_ApiEndpoints 3 (set_ComplexityScore 85 zeroCodeAnalysis))
           []).
  reflexivity.
Defined.

(** The run of the specification's example: complexity 85, 3 endpoints,
    an output without figures. *)
Example estimateResources_no_figures :
  let a := set_ApiEndpoints 3 (set_ComplexityScore 85 zeroCodeAnalysis) in
  let res := estimateResources (printing "no figures") "." a [] in
  extractNumber "no figures" re_memory = 0
  /\ extractFloat (printing "no figures") "no figures" re_cpu = of_int 0
  /\ snd (fst res) = None
  /\ MemoryMB (ResourceUsage (fst (fst res))) = 2048
  /\ CPUCores (ResourceUsage (fst (fst res))) = of_decimal 5 1.
Proof. cbv zeta. repeat split; vm_compute; reflexivity. Qed.

(** What the database/API pass reads from the text of the
    specification's example. *)
Lemma readDatabaseAndAPI_reading (h : Host) (a : CodeAnalysis) :
  let a' :=
    readDatabaseAndAPI h
      "Found 37 database calls and complexity score: 72. Uses Redis for caching."
      a in
  DatabaseCalls a' = 37
  /\ ComplexityScore a' = 72
  /\ CacheUsage a' = ["redis"].
Proof.
  cbv zeta. unfold readDatabaseAndAPI. cbv zeta.
  cbn [DatabaseCalls ComplexityScore CacheUsage set_Performance
       set_CacheUsage set_ComplexityScore set_DatabaseCalls].
  repeat split; vm_compute; reflexivity.
Qed.

(** C7: when the run of the database/API pass prints the text below and
    succeeds, [analyzeDatabaseAndAPI] returns no error, logs the run, and
    leaves a report with database_calls 37, complexity_score 72 and
    cache_usage [redis]. *)
Theorem analyzeDatabaseAndAPI_example (h : Host) (dir : string)
        (a : CodeAnalysis) (w : World) :
  claude_code h (List.length w) prompt_database dir
  = ("Found 37 database calls and complexity score: 72. Uses Redis for caching.",
     None) ->
  let res := analyzeDatabaseAndAPI h dir a w in
  let a' := fst (fst res) in
  snd (fst res) = None
  /\ snd res
     = mkInvocation prompt_database dir
         "Found 37 database calls and complexity score: 72. Uses Redis for caching."
         None :: w
  /\ DatabaseCalls a' = 37
  /\ ComplexityScore a' = 72
  /\ CacheUsage a' = ["redis"].
Proof.
  intros E. cbv zeta. unfold analyzeDatabaseAndAPI.
  rewrite (pass_reads h dir prompt_database _ _ a w E).
  cbn [fst snd].
  split; [reflexivity | split; [reflexivity |]].
  exact (readDatabaseAndAPI_reading h a).
Qed.

Lemma analyzeDatabaseAndAPI_example_witness :
  let w := [mkInvocation prompt_basic "." "{...}" None] in
  let res :=
    analyzeDatabaseAndAPI sample_host "."
      (set_ComplexityScore 5 zeroCodeAnalysis) w in
  let a' := fst (fst res) in
  snd (fst res) = None
  /\ snd res
     = mkInvocation prompt_database "."
         "Found 37 database calls and complexity score: 72. Uses Redis for caching."
         None :: w
  /\ DatabaseCalls a' = 37
  /\ ComplexityScore a' = 72
  /\ CacheUsage a' = ["redis"].
Proof.
  apply (analyzeDatabaseAndAPI_example sample_host "."
           (set_ComplexityScore 5 zeroCodeAnalysis)
           [mkInvocation prompt_basic "." "{...}" None]).
  reflexivity.
Defined.

(** C8, as stated, fails: the names the code looks for are those of
    [cacheTypes], which has "memory cache" and "cdn" where the
    specification prints "in-process cache" and "CDN".  A text that names
    an in-process cache yields nothing, and a text that names a memory
    cache yields a name that is not in the printed vocabulary. *)
Lemma extractCacheUsage_not_spec_vocabulary :
  extractCacheUsage quiet_host "a warm in-process cache"
  <> filter (fun name =>
               Contains (ToLower (unicode_lower quiet_host)
                                 "a warm in-process cache") name)
            cache_vocabulary
  /\ ~ incl (extractCacheUsage quiet_host "a memory cache")
            cache_vocabulary.
Proof.
  split.
  - vm_compute. discriminate.
  - intros H. specialize (H "memory cache" ltac:(vm_compute; auto)).
    unfold cache_vocabulary in H. simpl in H.
    repeat destruct H as [H|H]; try discriminate H. exact H.
Qed.

(** C8 (amended): for every text, [extractCacheUsage] returns exactly the
    names of the vocabulary [redis; memcached; memory cache; cdn; browser
    cache] that occur in the lowered text, in the order of the
    vocabulary. *)
Theorem extractCacheUsage_filter (h : Host) (text : string) :
  cacheTypes = ["redis"; "memcached"; "memory cache"; "cdn"; "browser cache"]
  /\ extractCacheUsage h text
     = filter (fun name => Contains (ToLower (unicode_lower h) text) name)
              cacheTypes
  /\ (forall name,
        In name (extractCacheUsage h text) <->
        In name cacheTypes
        /\ Contains (ToLower (unicode_lower h) text) name = true).
Proof.
  assert (E : extractCacheUsage h text
              = filter (fun name =>
                          Contains (ToLower (unicode_lower h) text) name)
                       cacheTypes).
  { unfold extractCacheUsage. cbv zeta.
    generalize (ToLower (unicode_lower h) text) as lower. intros lower.
    unfold cacheTypes. cbn [fold_left filter].
    destruct (Contains lower "redis"), (Contains lower "memcached"),
      (Contains lower "memory cache"), (Contains lower "cdn"),
      (Contains lower "browser cache"); reflexivity. }
  split; [reflexivity | split; [exact E |]].
  intros name. rewrite E. apply filter_In.
Qed.

End ExtractorClaims.

(** * The orchestration *)

Section OrchestratorClaims.
Import Strings Claude Spec.
Open Scope string_scope.
Open Scope Z_scope.

Lemma pass_run (h : Host) (dir prompt : string)
      (read : string -> CodeAnalysis -> CodeAnalysis) (a : CodeAnalysis)
      (w : World) :
  pass h dir prompt read a w =
  let i := mkInvocation prompt dir
             (fst (claude_code h (List.length w) prompt dir))
             (snd (claude_code h (List.length w) prompt dir)) in
  (match inv_err i with
   | Some e => (a, Some (command_failure i e))
   | None => (read (inv_output i) a, None)
   end, i :: w).
Proof.
  unfold pass, runClaudeCommand, CombinedOutput, bind, ret, command_failure.
  destruct (claude_code h (List.length w) prompt dir) as [out [e|]];
    reflexivity.
Qed.

(** The runs [Client.Analyze] makes.  Either none failed, and then there
    is no report at all (the tool is not installed) or the report is what
    the four passes read, one after the other, from four outputs; or the
    latest run failed and its error comes back, under the name of the
    pass, with no report. *)
Lemma Claude_Analyze_runs (h : Host) (dir pid : string) :
  let res := fst (Claude.Analyze h dir pid []) in
  let w := snd (Claude.Analyze h dir pid []) in
  (Forall (fun i => inv_err i = None) w
   /\ (fst res = None
       \/ exists o1 o2 o3 o4,
            res = (Some (readResources h o4
                           (readPerformanceAndScaling h o3
                              (readDatabaseAndAPI h o2
                                 (readBasicStructure h o1
                                    (newAnalysis h dir pid))))),
                   None)))
  \/ (exists i e label,
        hd_error w = Some i /\ inv_err i = Some e /\ In label pass_labels
        /\ res = (None, Some (wrap label (command_failure i e)))).
Proof.
  cbv zeta. unfold Claude.Analyze.
  destruct (negb (IsInstalled h));
    [left; split; [constructor | left; reflexivity]|].
  cbv zeta.
  unfold bind, ret, analyzeBasicStructure, analyzeDatabaseAndAPI,
    analyzePerformanceAndScaling, estimateResources.
  rewrite pass_run. cbv zeta. cbn [fst snd inv_err inv_output].
  destruct (snd (claude_code h (List.length (@nil Invocation)) prompt_basic
                             dir)) as [e1|] eqn:E1.
  { right. eexists _, e1, "basic analysis failed". cbn [fst snd hd_error].
    split; [reflexivity | split; [reflexivity | split; [|reflexivity]]].
    cbn; auto. }
  cbv beta iota. cbn [fst snd].
  rewrite pass_run. cbv zeta. cbn [fst snd inv_err inv_output].
  match goal with
  | |- context [snd (claude_code h ?n prompt_database dir)] =>
      destruct (snd (claude_code h n prompt_database dir)) as [e2|] eqn:E2
  end.
  { right. eexists _, e2, "database/API analysis failed".
    cbn [fst snd hd_error].
    split; [reflexivity | split; [reflexivity | split; [|reflexivity]]].
    cbn; auto. }
  cbv beta iota. cbn [fst snd].
  rewrite pass_run. cbv zeta. cbn [fst snd inv_err inv_output].
  match goal with
  | |- context [snd (claude_code h ?n prompt_performance dir)] =>
      destruct (snd (claude_code h n prompt_performance dir))
        as [e3|] eqn:E3
  end.
  { right. eexists _, e3, "performance analysis failed".
    cbn [fst snd hd_error].
    split; [reflexivity | split; [reflexivity | split; [|reflexivity]]].
    cbn; auto. }
  cbv beta iota. cbn [fst snd].
  rewrite pass_run. cbv zeta. cbn [fst snd inv_err inv_output].
  match goal with
  | |- context [snd (claude_code h ?n (prompt_resources ?a) dir)] =>
      destruct (snd (claude_code h n (prompt_resources a) dir))
        as [e4|] eqn:E4
  end.
  { right. eexists _, e4, "resource estimation failed".
    cbn [fst snd hd_error].
    split; [reflexivity | split; [reflexivity | split; [|reflexivity]]].
    cbn; auto. }
  cbv beta iota. left. cbn [fst snd]. split.
  - repeat constructor; cbn [inv_err]; assumption.
  - right. do 4 eexists. reflexivity.
Qed.



(** On a host whose tool always succeeds, [Analyze] makes four runs and
    returns a report and no error. *)
Example Analyze_quiet_host :
  List.length (snd (Analyzer.Analyze quiet_host "." "p" [])) = 4%nat
  /\ exists r, fst (Analyzer.Analyze quiet_host "." "p" []) = (Some r, None).
Proof. split; [reflexivity | eexists; reflexivity]. Qed.

(** Without the tool on the path nothing is run and there is no
    report. *)
Lemma Analyze_tool_missing (h : Host) (dir pid : string) :
  LookPath h "claude" = false ->
  fst (fst (Analyzer.Analyze h dir pid [])) = None
  /\ snd (fst (Analyzer.Analyze h dir pid [])) <> None
  /\ snd (Analyzer.Analyze h dir pid []) = [].
Proof.
  intros L. unfold Analyzer.Analyze, Analyzer.preflightChecks,
    Claude.Analyze, IsInstalled.
  rewrite L. cbn [negb].
  destruct (NotExist h dir); cbn; repeat split; discriminate.
Qed.

(** What [Analyze] returns when it returns a report: the normalised
    reading of four outputs. *)
Lemma Analyze_report (h : Host) (dir pid : string) (r : CodeAnalysis) :
  fst (fst (Analyzer.Analyze h dir pid [])) = Some r ->
  exists o1 o2 o3 o4,
    r = Analyzer.postProcess (int_oor h)
          (readResources h o4
             (readPerformanceAndScaling h o3
                (readDatabaseAndAPI h o2
                   (readBasicStructure h o1 (newAnalysis h dir pid))))).
Proof.
  unfold Analyzer.Analyze.
  destruct (Analyzer.preflightChecks h dir) as [err|]; [discriminate|].
  unfold bind, ret.
  pose proof (Claude_Analyze_runs h dir pid) as R. cbv zeta in R.
  destruct (Claude.Analyze h dir pid []) as [res w].
  cbn [fst snd] in R.
  destruct R as [(_ & [N | (o1 & o2 & o3 & o4 & ->)])
                | (i & e & label & _ & _ & _ & ->)].
  - destruct res as [[r0|] [e'|]]; cbn in N |- *; discriminate.
  - cbn [fst snd option_map]. intros H. injection H as <-.
    now exists o1, o2, o3, o4.
  - cbn. discriminate.
Qed.

(** X12 - every report [Analyze] returns has a complexity score in
    [1, 100], the one its database/API pass extracted, and is a fixed
    point of the normaliser. *)
Lemma Analyze_report_complexity (h : Host) (dir pid : string)
      (r : CodeAnalysis) :
  fst (fst (Analyzer.Analyze h dir pid [])) = Some r ->
  1 <= ComplexityScore r <= 100
  /\ Analyzer.postProcess (int_oor h) r = r.
Proof.
  intros H. destruct (Analyze_report h dir pid r H)
    as (o1 & o2 & o3 & o4 & ->).
  match goal with
  | |- context [Analyzer.postProcess _ ?x] => set (a := x)
  end.
  assert (C : ComplexityScore a = extractComplexity o2) by reflexivity.
  pose proof (extractComplexity_range o2) as Rg. rewrite <- C in Rg.
  split.
  - rewrite postProcess_eq. cbn [ComplexityScore].
    rewrite default_complexity_nonzero; lia.
  - rewrite postProcess_again, postProcess_eq, estimateCurrentUsers_eq.
    rewrite default_complexity_nonzero by lia. reflexivity.
Qed.

(** X13 - if [ParseFloat] reads a text that begins with a digit as a
    number, every report [Analyze] returns satisfies the invariants of the
    normaliser: each resource estimate within its interval, language and
    framework not empty, the user estimate within its bounds. *)
Lemma Analyze_report_bounded (h : Host) (dir pid : string)
      (r : CodeAnalysis) :
  parses_numbers h ->
  fst (fst (Analyzer.Analyze h dir pid [])) = Some r ->
  bounded r.
Proof.
  intros P H. destruct (Analyze_report h dir pid r H)
    as (o1 & o2 & o3 & o4 & ->).
  match goal with
  | |- context [Analyzer.postProcess _ ?x] => set (a := x)
  end.
  pose proof (validateResources_bounds (ResourceUsage a)
                (readResources_cpu_number h o4 _ P)) as B.
  rewrite postProcess_eq. unfold bounded.
  cbn [Language Framework EstimatedUsers ResourceUsage].
  rewrite estimateCurrentUsers_eq.
  destruct B as (Bm & Bc & Bd & Bn & Bs).
  repeat split;
    try apply default_string_nonempty;
    try apply estimated_users_bounds;
    solve [apply Bm | apply Bc | apply Bd | apply Bn | apply Bs].
Qed.

(** A whole run, on the sample host. *)
Example Analyze_sample_run :
  fst (Analyzer.Analyze sample_host "." "p" [])
  = (Some
       (mkCodeAnalysis "p" 0 "." "Go" "Gin" ["gin"; "viper"] 37 12 0
          ["emailer"] ["redis"] true 72
          [mkBottleneck "database"
             "The database connection pool is a bottleneck under load (high)."
             "high" "May cause slow response times under load"]
          (mkResourceMetrics 512 (of_decimal 25 1) 20 100 10) 2592 []
          zeroPerformanceMetrics),
     None).
Proof. reflexivity. Qed.

Lemma Analyze_report_complexity_witness :
  1 <= ComplexityScore Props.sample_report <= 100
  /\ Analyzer.postProcess (int_oor sample_host) Props.sample_report
     = Props.sample_report.
Proof.
  apply (Analyze_report_complexity sample_host "." "p" Props.sample_report).
  vm_compute. reflexivity.
Defined.

Lemma Analyze_report_bounded_witness : bounded Props.sample_report.
Proof.
  apply (Analyze_report_bounded sample_host "." "p" Props.sample_report).
  - intros s x _. exact (ParseDecimal_number s x).
  - vm_compute. reflexivity.
Defined.

End OrchestratorClaims.

(** * The report sink *)

Section SinkClaims.
Import Strings Api Spec.
Open Scope string_scope.
Open Scope Z_scope.

Lemma response_answering (status : Z) (body url : string)
      (a : CodeAnalysis) :
  response (answering status body) url a = Some (mkResponse status body).
Proof. reflexivity. Qed.

(** C9, as stated, fails: 204 is a 2xx status and [SendAnalysis] reports
    it as a failure. *)
Lemma SendAnalysis_rejects_204 :
  200 <= 204 <= 299
  /\ response (answering 204 "") defaultBaseURL zeroCodeAnalysis
     = Some (mkResponse 204 "")
  /\ SendAnalysis (answering 204 "") defaultBaseURL zeroCodeAnalysis
     <> None.
Proof. split; [lia | split; [reflexivity | vm_compute; discriminate]]. Qed.

(** C9 (amended): when the server answers with status s, [SendAnalysis]
    succeeds if and only if s is 200 or 201; on any other status it fails
    with an error that carries the status and the response body. *)
Theorem SendAnalysis_status (n : Net) (baseURL : string)
        (analysis : CodeAnalysis) (resp : Response) :
  response n baseURL analysis = Some resp ->
  (SendAnalysis n baseURL analysis = None <->
   StatusCode resp = 200 \/ StatusCode resp = 201)
  /\ SendAnalysis n baseURL analysis
     = (if (StatusCode resp =? 200) || (StatusCode resp =? 201) then None
        else Some ("API request failed with status "
                   ++ itoa (StatusCode resp) ++ ": " ++ Body resp)).
Proof.
  unfold response, SendAnalysis.
  destruct (GetAPIKey n) as [apiKey|e]; [|discriminate].
  destruct (json_Marshal n _) as [jsonData|e]; [|discriminate].
  destruct (url_error n _) as [e|]; [discriminate|].
  destruct (Do n _) as [resp'|e]; [|discriminate].
  intros H. injection H as ->. unfold StatusOK, StatusCreated.
  destruct (StatusCode resp =? 200) eqn:E1; cbn [negb andb orb].
  - apply Z.eqb_eq in E1. split; [split; auto | reflexivity].
  - destruct (StatusCode resp =? 201) eqn:E2; cbn [negb andb orb].
    + apply Z.eqb_eq in E2. split; [split; auto | reflexivity].
    + apply Z.eqb_neq in E1. apply Z.eqb_neq in E2.
      split; [split; [discriminate | lia] | reflexivity].
Qed.

Lemma SendAnalysis_status_witness :
  (SendAnalysis (answering 201 "ok") defaultBaseURL zeroCodeAnalysis = None
   <-> StatusCode (mkResponse 201 "ok") = 200
       \/ StatusCode (mkResponse 201 "ok") = 201)
  /\ SendAnalysis (answering 201 "ok") defaultBaseURL zeroCodeAnalysis
     = (if (StatusCode (mkResponse 201 "ok") =? 200)
           || (StatusCode (mkResponse 201 "ok") =? 201) then None
        else Some ("API request failed with status "
                   ++ itoa (StatusCode (mkResponse 201 "ok")) ++ ": "
                   ++ Body (mkResponse 201 "ok"))).
Proof.
  apply (SendAnalysis_status (answering 201 "ok") defaultBaseURL
           zeroCodeAnalysis (mkResponse 201 "ok")).
  reflexivity.
Defined.

End SinkClaims.

(** * Beyond the specification: the extractors *)

(** Projections of records that were built field by field. *)
Ltac fields :=
  cbv beta iota zeta delta
      [Claude.readBasicStructure Claude.parseBasicStructureHeuristic
       Claude.readDatabaseAndAPI Claude.readPerformanceAndScaling
       Claude.readResources
       ProjectID Timestamp Directory Language Framework Dependencies
       DatabaseCalls ApiEndpoints StatelessFuncs BackgroundJobs CacheUsage
       FileUploads ComplexityScore ScalingBottlenecks ResourceUsage
       EstimatedUsers SecurityIssues Performance
       AvgResponseTime DatabaseQueries CacheHitRate HasNPlusOneQuery
       HasLargePayloads
       set_Language set_Framework set_Dependencies set_DatabaseCalls
       set_ApiEndpoints set_BackgroundJobs set_CacheUsage set_FileUploads
       set_ComplexityScore set_ScalingBottlenecks set_ResourceUsage
       set_EstimatedUsers set_Performance set_HasNPlusOneQuery
       set_HasLargePayloads].

Section ExtractorFacts.
Import Strings Regexp Claude Spec Props.
Open Scope string_scope.
Open Scope Z_scope.

Lemma suffix_refl (s : string) : suffix s s.
Proof. now exists EmptyString. Qed.

Lemma suffix_trans (s1 s2 s3 : string) :
  suffix s1 s2 -> suffix s2 s3 -> suffix s1 s3.
Proof.
  intros [p ->] [q ->]. exists (q ++ p).
  induction q as [|a q IH]; simpl; [reflexivity | now rewrite IH].
Qed.

Lemma suffix_tail (a : ascii) (s' s : string) :
  suffix s' s -> suffix s' (String a s).
Proof. intros [p ->]. now exists (String a p). Qed.

Lemma suffix_has_digit (s' s : string) :
  suffix s' s -> has_digit s' = true -> has_digit s = true.
Proof.
  intros [p ->] H. induction p as [|a p IH]; simpl; [exact H|].
  rewrite IH. apply orb_true_r.
Qed.

Lemma fold_byte_suffix (c : ascii) (s s' : string) :
  fold_byte c s = Some s' -> suffix s' s.
Proof.
  unfold fold_byte. destruct s as [|a s]; [discriminate|].
  destruct (Ascii.eqb (lower_byte a) (lower_byte c)).
  - intros H. injection H as ->. apply suffix_tail, suffix_refl.
  - destruct (Ascii.eqb (lower_byte c) "s").
    + destruct a as [[] [] [] [] [] [] [] []]; try discriminate.
      destruct s as [|b s]; [discriminate|].
      destruct b as [[] [] [] [] [] [] [] []]; try discriminate.
      intros H. injection H as ->. do 2 apply suffix_tail. apply suffix_refl.
    + destruct (Ascii.eqb (lower_byte c) "k"); [|discriminate].
      destruct a as [[] [] [] [] [] [] [] []]; try discriminate.
      destruct s as [|b s]; [discriminate|].
      destruct b as [[] [] [] [] [] [] [] []]; try discriminate.
      destruct s as [|d s]; [discriminate|].
      destruct d as [[] [] [] [] [] [] [] []]; try discriminate.
      intros H. injection H as ->. do 3 apply suffix_tail. apply suffix_refl.
Qed.

Lemma literal_suffix (l : string) :
  forall s s', literal l s = Some s' -> suffix s' s.
Proof.
  induction l as [|c l IH]; simpl; intros s s' H.
  - injection H as ->. apply suffix_refl.
  - destruct (fold_byte c s) as [s1|] eqn:F; [|discriminate].
    apply (suffix_trans _ s1); [now apply IH | now apply (fold_byte_suffix c)].
Qed.

Lemma greedy_suffix {R : Type} (p : ascii -> bool) (s : string)
      (k : string -> option R) (res : R) :
  greedy R p s k = Some res -> exists s', suffix s' s /\ k s' = Some res.
Proof.
  induction s as [|a s IH]; simpl; intros H.
  - exists EmptyString. split; [apply suffix_refl | exact H].
  - destruct (p a).
    + destruct (greedy R p s k) as [x|] eqn:G.
      * injection H as <-. destruct (IH eq_refl) as (s' & S & K).
        exists s'. split; [now apply suffix_tail | exact K].
      * exists (String a s). split; [apply suffix_refl | exact H].
    + exists (String a s). split; [apply suffix_refl | exact H].
Qed.

Lemma lazy_suffix {R : Type} (p : ascii -> bool) (s : string)
      (k : string -> option R) (res : R) :
  lazy R p s k = Some res -> exists s', suffix s' s /\ k s' = Some res.
Proof.
  induction s as [|a s IH]; simpl; intros H.
  - destruct (k EmptyString) as [x|] eqn:K; [|discriminate].
    injection H as <-. exists EmptyString. split; [apply suffix_refl|exact K].
  - destruct (k (String a s)) as [x|] eqn:K.
    + injection H as <-. exists (String a s).
      split; [apply suffix_refl | exact K].
    + destruct (p a); [|discriminate].
      destruct (IH H) as (s' & S & K').
      exists s'. split; [now apply suffix_tail | exact K'].
Qed.

(** A match continues on what is left of the input. *)
Lemma run_suffix {R : Type} (r : regex) :
  forall (s : string) (c : captures)
         (k : string -> captures -> option R) (res : R),
    run R r s c k = Some res ->
    exists s' c', suffix s' s /\ k s' c' = Some res.
Proof.
  induction r as [l|p|p|p|r1 IH1 r2 IH2|r1 IH1 r2 IH2|r1 IH1|n r1 IH1];
    simpl; intros s c k res H.
  - destruct (literal l s) as [s'|] eqn:L; [|discriminate].
    exists s', c. split; [now apply (literal_suffix l) | exact H].
  - destruct s as [|a s]; [discriminate|].
    destruct (in_class p a); [|discriminate].
    apply greedy_suffix in H. destruct H as (s' & S & K).
    exists s', c. split; [now apply suffix_tail | exact K].
  - apply greedy_suffix in H. destruct H as (s' & S & K). now exists s', c.
  - apply lazy_suffix in H. destruct H as (s' & S & K). now exists s', c.
  - destruct (IH1 _ _ _ _ H) as (s1 & c1 & S1 & H1).
    destruct (IH2 _ _ _ _ H1) as (s2 & c2 & S2 & H2).
    exists s2, c2. split; [now apply (suffix_trans _ s1) | exact H2].
  - destruct (run R r1 s c k) as [x|] eqn:E.
    + injection H as <-. now apply IH1 in E.
    + now apply IH2 in H.
  - destruct (run R r1 s c k) as [x|] eqn:E.
    + injection H as <-. now apply IH1 in E.
    + exists s, c. split; [apply suffix_refl | exact H].
  - destruct (IH1 _ _ _ _ H) as (s1 & c1 & S1 & H1).
    now exists s1, ((n, consumed s s1) :: c1).
Qed.

(** A pattern that needs a digit matches no text without one. *)
Lemma run_needs_digit {R : Type} (r : regex) :
  needs_digit r ->
  forall (s : string) (c : captures)
         (k : string -> captures -> option R) (res : R),
    run R r s c k = Some res -> has_digit s = true.
Proof.
  induction r as [l|p|p|p|r1 IH1 r2 IH2|r1 IH1 r2 IH2|r1 IH1|n r1 IH1];
    simpl; intros N s c k res H; try contradiction.
  - destruct p; [|contradiction].
    destruct s as [|a s]; [discriminate|]. simpl in H |- *.
    destruct (is_digit a); [reflexivity | discriminate].
  - destruct N as [N|N].
    + exact (IH1 N _ _ _ _ H).
    + destruct (run_suffix r1 _ _ _ _ H) as (s1 & c1 & S1 & H1).
      exact (suffix_has_digit _ _ S1 (IH2 N _ _ _ _ H1)).
  - destruct N as [N1 N2].
    destruct (run R r1 s c k) as [x|] eqn:E.
    + exact (IH1 N1 _ _ _ _ E).
    + exact (IH2 N2 _ _ _ _ H).
  - exact (IH1 N _ _ _ _ H).
Qed.

Lemma find_needs_digit (r : regex) (s : string) :
  needs_digit r -> has_digit s = false -> find r s = None.
Proof.
  intros N. induction s as [|a s IH]; simpl; intros D.
  - destruct (run _ r "" [] _) as [x|] eqn:E; [|reflexivity].
    apply (run_needs_digit r N) in E. discriminate E.
  - destruct (run _ r (String a s) [] _) as [x|] eqn:E.
    + apply (run_needs_digit r N) in E. simpl in E. congruence.
    + apply IH. now apply orb_false_elim in D.
Qed.

Lemma number_patterns_need_digit :
  Forall needs_digit (re_cpu :: number_patterns).
Proof.
  unfold number_patterns.
  repeat (apply Forall_cons; [cbv; tauto|]). apply Forall_nil.
Qed.

Lemma number_patterns_digit_groups :
  Forall digit_groups (re_cpu :: number_patterns).
Proof.
  unfold number_patterns.
  repeat (apply Forall_cons; [cbv; tauto|]). apply Forall_nil.
Qed.

Lemma Atoi_range (s : string) (v : Z) :
  Atoi s = Some v -> min_int <= v <= max_int.
Proof.
  unfold Atoi.
  destruct (match s with
            | String "-" s' => (true, s')
            | String "+" s' => (false, s')
            | _ => (false, s)
            end) as [neg body].
  destruct body as [|b body]; [discriminate|].
  destruct (digits_value 0 (String b body)) as [n|]; [|discriminate].
  destruct ((min_int <=? (if neg then - n else n))
            && ((if neg then - n else n) <=? max_int)) eqn:E; [|discriminate].
  intros H. injection H as <-.
  apply andb_prop in E. destruct E as [E1 E2].
  apply Z.leb_le in E1. apply Z.leb_le in E2. lia.
Qed.

Lemma extractNumber_fits (text : string) (pattern : regex) :
  min_int <= extractNumber text pattern <= max_int.
Proof.
  unfold extractNumber. cbv zeta.
  destruct (1 <? len _); [|unfold min_int, max_int; lia].
  destruct (Atoi _) as [v|] eqn:A; [|unfold min_int, max_int; lia].
  exact (Atoi_range _ _ A).
Qed.

Lemma extractNumber_miss (text : string) (pattern : regex) :
  find pattern text = None -> extractNumber text pattern = 0.
Proof.
  intros F. unfold extractNumber, FindStringSubmatch. now rewrite F.
Qed.

Lemma extractFloat_miss (h : Host) (text : string) (pattern : regex) :
  find pattern text = None -> extractFloat h text pattern = S754_zero false.
Proof.
  intros F. unfold extractFloat, FindStringSubmatch. now rewrite F.
Qed.

(** X1 - every number [extractNumber] takes from a text with one of the
    patterns of the source is a non-negative [int]: a capture is never
    read as a negative number, and one too long for an [int] is read
    as 0. *)
Theorem extractNumber_bounds (text : string) :
  Forall (fun pattern => 0 <= extractNumber text pattern <= max_int)
         number_patterns.
Proof.
  pose proof number_patterns_digit_groups as G.
  apply Forall_inv_tail in G.
  rewrite Forall_forall in G |- *. intros pattern I.
  split.
  - apply extractNumber_nonneg. now apply G.
  - apply extractNumber_fits.
Qed.

(** X2 - on a text without a decimal digit every extractor falls back to
    its default: [extractNumber] gives 0 with each pattern of the source,
    [extractFloat] gives 0.0 and [extractComplexity] gives 50. *)
Theorem extract_without_digits (h : Host) (text : string) :
  has_digit text = false ->
  Forall (fun pattern => extractNumber text pattern = 0) number_patterns
  /\ extractFloat h text re_cpu = S754_zero false
  /\ extractComplexity text = 50.
Proof.
  intros D. pose proof number_patterns_need_digit as N.
  assert (M : Forall (fun p => find p text = None)
                     (re_cpu :: number_patterns)).
  { rewrite Forall_forall in N |- *. intros p I.
    apply find_needs_digit; [now apply N | exact D]. }
  split; [|split].
  - apply Forall_inv_tail in M. rewrite Forall_forall in M |- *.
    intros p I. apply extractNumber_miss. now apply M.
  - apply extractFloat_miss. exact (Forall_inv M).
  - apply Forall_inv_tail in M. rewrite Forall_forall in M.
    unfold extractComplexity. cbv zeta.
    rewrite !extractNumber_miss by (apply M; cbv; tauto).
    reflexivity.
Qed.

Lemma extract_without_digits_witness :
  Forall (fun pattern => extractNumber "no figures at all" pattern = 0)
         number_patterns
  /\ extractFloat quiet_host "no figures at all" re_cpu = S754_zero false
  /\ extractComplexity "no figures at all" = 50.
Proof.
  apply (extract_without_digits quiet_host "no figures at all").
  reflexivity.
Defined.

(** X3 - [extractComplexity] returns a score in [1, 100] for every text,
    and the score is 50 or a number one of its two patterns extracted. *)
Theorem extractComplexity_score (text : string) :
  1 <= extractComplexity text <= 100
  /\ (extractComplexity text = 50
      \/ extractComplexity text
         = extractNumber text re_complexity_then_number
      \/ extractComplexity text
         = extractNumber text re_number_then_complexity).
Proof.
  split; [apply extractComplexity_range|].
  unfold extractComplexity. cbv zeta.
  destruct (extractNumber text re_complexity_then_number =? 0);
    match goal with
    | |- context [if ?b then 50 else _] => destruct b
    end; auto.
Qed.

(** X4 - the heuristic reading of the first pass never leaves an endpoint
    count of zero: the count is a positive number extracted from the
    output, or 5.  It sets language, framework and endpoint count only:
    dependencies, background jobs and the upload flag stay as they
    were. *)
Theorem parseBasicStructureHeuristic_endpoints (h : Host) (output : string)
        (a : CodeAnalysis) :
  let a' := parseBasicStructureHeuristic h output a in
  1 <= ApiEndpoints a' <= max_int
  /\ (ApiEndpoints a' = 5
      \/ ApiEndpoints a' = extractNumber output re_endpoints)
  /\ Dependencies a' = Dependencies a
  /\ BackgroundJobs a' = BackgroundJobs a
  /\ FileUploads a' = FileUploads a.
Proof.
  cbv zeta. unfold parseBasicStructureHeuristic. cbv zeta.
  assert (G : digit_groups re_endpoints) by (cbv; tauto).
  pose proof (extractNumber_nonneg output re_endpoints G) as N.
  pose proof (extractNumber_fits output re_endpoints) as F.
  assert (M : 5 <= max_int) by (vm_compute; discriminate).
  destruct F as [_ F]. revert N F M.
  generalize (extractNumber output re_endpoints) as n.
  generalize max_int as top.
  repeat match goal with
         | |- context [List.find ?f ?l] => generalize (List.find f l)
         end.
  intros fw lang top n N F M.
  destruct a as [? ? ? ? ? ? ? ? ? ? ? ? ? ? ? ? ? ?].
  destruct lang as [lang|], fw as [fw|]; fields;
    (destruct (n =? 0) eqn:E; [|apply Z.eqb_neq in E]; fields;
     (split; [lia | split; [auto | repeat split]])).
Qed.

Lemma extractSeverity_label (h : Host) (text : string) :
  In (extractSeverity h text) severities.
Proof.
  unfold extractSeverity, severities. cbv zeta.
  destruct (Contains _ "critical"); [cbn; auto|].
  destruct (Contains _ "high"); [cbn; auto|].
  destruct (Contains _ "medium"); cbn; auto.
Qed.

Lemma fold_left_invariant {A B : Type} (P : list B -> A -> Prop)
      (f : A -> B -> A) :
  forall (l done : list B) (acc : A),
    P done acc ->
    (forall done acc x, P done acc -> P (done ++ [x])%list (f acc x)) ->
    P (done ++ l)%list (fold_left f l acc).
Proof.
  induction l as [|x l IH]; simpl; intros done acc H Step.
  - now rewrite app_nil_r.
  - replace (done ++ x :: l)%list with ((done ++ [x]) ++ l)%list
      by (rewrite <- app_assoc; reflexivity).
    apply IH; [now apply Step | exact Step].
Qed.

(** X5 - every bottleneck [extractBottlenecks] returns describes a line
    of the text, and is either a database bottleneck whose severity is the
    one [extractSeverity] reads from that line, or a memory bottleneck of
    severity high; its severity is always one of critical, high, medium
    and low.  A line gives at most two bottlenecks. *)
Theorem extractBottlenecks_invariant (h : Host) (text : string) :
  let lines := Split text "010" in
  Forall (bottleneck_of h lines) (extractBottlenecks h text)
  /\ Forall (fun b => In (bn_Severity b) severities)
            (extractBottlenecks h text)
  /\ (List.length (extractBottlenecks h text) <= 2 * List.length lines)%nat.
Proof.
  cbv zeta. unfold extractBottlenecks. cbv zeta.
  set (step := fun (bottlenecks : list Bottleneck) (line : string) => _).
  pose (P := fun (done : list string) (acc : list Bottleneck) =>
               Forall (bottleneck_of h done) acc
               /\ Forall (fun b => In (bn_Severity b) severities) acc
               /\ (List.length acc <= 2 * List.length done)%nat).
  apply (fold_left_invariant P step (Split text "010") [] []).
  - unfold P. simpl. repeat split; constructor.
  - unfold P. intros done acc line (B & S & L).
    assert (W : Forall (bottleneck_of h (done ++ [line])) acc).
    { rewrite Forall_forall in B |- *. intros b I.
      destruct (B b I) as [D T]. split; [|exact T].
      apply in_or_app. now left. }
    assert (Here : In line (done ++ [line])%list)
      by (apply in_or_app; right; now left).
    rewrite length_app. cbn [List.length].
    unfold step.
    destruct (is_empty _); [repeat split; auto; lia|].
    destruct (Contains _ "database" && _);
      destruct (Contains _ "memory" && _);
      repeat split;
      repeat (apply Forall_app; split);
      repeat (apply Forall_cons; [|apply Forall_nil]);
      try assumption;
      try (rewrite ?length_app; cbn [List.length]; lia);
      try (split; [exact Here | cbn; tauto]);
      cbn [bn_Severity]; try apply extractSeverity_label;
      cbn; tauto.
Qed.

(** X6 - the values of the two fallback tables lie inside the intervals
    of the normaliser, which therefore returns them as they are. *)
Theorem fallback_estimates_pass_validation (complexity endpoints : Z)
        (ru : ResourceMetrics) :
  let ru' :=
    set_CPUCores (estimateCPUFromEndpoints endpoints)
      (set_MemoryMB (estimateMemoryFromComplexity complexity) ru) in
  MemoryMB (Analyzer.validateResources ru')
  = estimateMemoryFromComplexity complexity
  /\ CPUCores (Analyzer.validateResources ru')
     = estimateCPUFromEndpoints endpoints
  /\ 256 <= estimateMemoryFromComplexity complexity <= 2048.
Proof.
  cbv zeta. rewrite validateResources_eq.
  cbn [MemoryMB CPUCores set_CPUCores set_MemoryMB].
  unfold estimateMemoryFromComplexity, estimateCPUFromEndpoints, clamp.
  repeat split.
  - destruct (80 <=? complexity), (60 <=? complexity),
      (40 <=? complexity); reflexivity.
  - destruct (50 <=? endpoints), (20 <=? endpoints), (10 <=? endpoints);
      reflexivity.
  - destruct (80 <=? complexity), (60 <=? complexity),
      (40 <=? complexity); lia.
  - destruct (80 <=? complexity), (60 <=? complexity),
      (40 <=? complexity); lia.
Qed.

(** X7 - both fallback tables are monotone: a higher complexity score
    never gets less memory, nor more endpoints fewer CPU cores. *)
Theorem fallback_estimates_monotone (c1 c2 e1 e2 : Z) :
  c1 <= c2 -> e1 <= e2 ->
  estimateMemoryFromComplexity c1 <= estimateMemoryFromComplexity c2
  /\ leb (estimateCPUFromEndpoints e1) (estimateCPUFromEndpoints e2) = true.
Proof.
  intros C E. unfold estimateMemoryFromComplexity, estimateCPUFromEndpoints.
  split.
  - destruct (80 <=? c1) eqn:A1, (60 <=? c1) eqn:B1, (40 <=? c1) eqn:D1,
      (80 <=? c2) eqn:A2, (60 <=? c2) eqn:B2, (40 <=? c2) eqn:D2;
      try lia;
      repeat match goal with
             | H : (_ <=? _) = true |- _ => apply Z.leb_le in H
             | H : (_ <=? _) = false |- _ => apply Z.leb_gt in H
             end; lia.
  - destruct (50 <=? e1) eqn:A1, (20 <=? e1) eqn:B1, (10 <=? e1) eqn:D1,
      (50 <=? e2) eqn:A2, (20 <=? e2) eqn:B2, (10 <=? e2) eqn:D2;
      try reflexivity;
      repeat match goal with
             | H : (_ <=? _) = true |- _ => apply Z.leb_le in H
             | H : (_ <=? _) = false |- _ => apply Z.leb_gt in H
             end; lia.
Qed.

Lemma fallback_estimates_monotone_witness :
  estimateMemoryFromComplexity 45 <= estimateMemoryFromComplexity 85
  /\ leb (estimateCPUFromEndpoints 3) (estimateCPUFromEndpoints 25) = true.
Proof. apply (fallback_estimates_monotone 45 85 3 25); lia. Defined.

End ExtractorFacts.

(** * Beyond the specification: the orchestration *)

Section OrchestratorFacts.
Import Strings Claude Spec Props.
Open Scope string_scope.
Open Scope Z_scope.

Lemma pass_ok (h : Host) (dir prompt o : string)
      (read : string -> CodeAnalysis -> CodeAnalysis) (a : CodeAnalysis)
      (w : World) :
  claude_code h (List.length w) prompt dir = (o, None) ->
  pass h dir prompt read a w = ((read o a, None), ok_run prompt dir o :: w).
Proof. intros E. rewrite pass_run, E. reflexivity. Qed.

Lemma pass_failed (h : Host) (dir prompt o e : string)
      (read : string -> CodeAnalysis -> CodeAnalysis) (a : CodeAnalysis)
      (w : World) :
  claude_code h (List.length w) prompt dir = (o, Some e) ->
  pass h dir prompt read a w
  = ((a, Some (command_failure (failed_run prompt dir o e) e)),
     failed_run prompt dir o e :: w).
Proof. intros E. rewrite pass_run, E. reflexivity. Qed.

(** What [Client.Analyze] returns and leaves in the log is one of the six
    outcomes. *)
Lemma Claude_Analyze_outcome (h : Host) (dir pid : string) :
  ClaudeOutcome h dir pid (Claude.Analyze h dir pid []).
Proof.
  unfold Claude.Analyze.
  destruct (IsInstalled h) eqn:I; cbn [negb];
    [|now apply NotInstalled].
  cbv zeta.
  unfold bind, ret, analyzeBasicStructure, analyzeDatabaseAndAPI,
    analyzePerformanceAndScaling, estimateResources.
  destruct (claude_code h 0 prompt_basic dir) as [o1 [e|]] eqn:E1.
  { rewrite (pass_failed h dir prompt_basic o1 e) by exact E1.
    cbn [fst snd]. now apply FailedBasic. }
  rewrite (pass_ok h dir prompt_basic o1) by exact E1. cbn [fst snd].
  destruct (claude_code h 1 prompt_database dir) as [o2 [e|]] eqn:E2.
  { rewrite (pass_failed h dir prompt_database o2 e) by exact E2.
    cbn [fst snd]. now apply (FailedDatabase h dir pid o1). }
  rewrite (pass_ok h dir prompt_database o2) by exact E2. cbn [fst snd].
  destruct (claude_code h 2 prompt_performance dir) as [o3 [e|]] eqn:E3.
  { rewrite (pass_failed h dir prompt_performance o3 e) by exact E3.
    cbn [fst snd]. now apply (FailedPerformance h dir pid o1 o2). }
  rewrite (pass_ok h dir prompt_performance o3) by exact E3. cbn [fst snd].
  fold (after1 h dir pid o1). fold (after2 h dir pid o1 o2).
  fold (after3 h dir pid o1 o2 o3).
  destruct (claude_code h 3 (prompt_resources (after3 h dir pid o1 o2 o3))
                        dir) as [o4 [e|]] eqn:E4.
  { rewrite (pass_failed h dir _ o4 e) by exact E4.
    cbn [fst snd]. now apply (FailedResources h dir pid o1 o2 o3). }
  rewrite (pass_ok h dir _ o4) by exact E4. cbn [fst snd].
  fold (after4 h dir pid o1 o2 o3 o4).
  now apply Analysed.
Qed.

(** [Analyzer.Analyze] by its preflight check and the outcome of
    [Client.Analyze]. *)
Lemma Analyze_unfold (h : Host) (dir pid : string) :
  Analyzer.Analyze h dir pid [] =
  match Analyzer.preflightChecks h dir with
  | Some err => ((None, Some err), [])
  | None =>
      (match snd (fst (Claude.Analyze h dir pid [])) with
       | Some err => (None, Some (wrap "claude analysis failed" err))
       | None =>
           (option_map (Analyzer.postProcess (int_oor h))
                       (fst (fst (Claude.Analyze h dir pid []))), None)
       end, snd (Claude.Analyze h dir pid []))
  end.
Proof.
  unfold Analyzer.Analyze.
  destruct (Analyzer.preflightChecks h dir); [reflexivity|].
  unfold bind, ret.
  destruct (Claude.Analyze h dir pid []) as [[r [e|]] w]; reflexivity.
Qed.

(** X8 - [Analyze] runs the tool at most four times, always in the project
    directory, and never after a failed run: every run in its log but the
    latest succeeded. *)
Theorem Analyze_log_discipline (h : Host) (dir pid : string) :
  let w := snd (Analyzer.Analyze h dir pid []) in
  (List.length w <= 4)%nat
  /\ Forall (fun i => inv_directory i = dir) w
  /\ Forall (fun i => inv_err i = None) (tl w).
Proof.
  cbv zeta. rewrite Analyze_unfold.
  destruct (Analyzer.preflightChecks h dir);
    [cbn; repeat split; solve [lia | constructor]|].
  cbn [snd].
  destruct (Claude_Analyze_outcome h dir pid); cbn [snd List.length tl];
    repeat split; solve [lia | repeat constructor].
Qed.

(** X9 - [Analyze] returns a report or an error, never both and never
    neither. *)
Theorem Analyze_report_xor_error (h : Host) (dir pid : string) :
  let res := fst (Analyzer.Analyze h dir pid []) in
  (exists r, res = (Some r, None)) \/ (exists e, res = (None, Some e)).
Proof.
  cbv zeta. rewrite Analyze_unfold.
  destruct (Analyzer.preflightChecks h dir) as [err|];
    [right; now exists err|].
  cbn [fst].
  destruct (Claude_Analyze_outcome h dir pid); cbn [fst snd option_map];
    solve [left; eexists; reflexivity | right; eexists; reflexivity].
Qed.

(** X10 - [Analyze] returns a report exactly when its log holds four runs
    that all succeeded. *)
Theorem Analyze_report_iff_four_runs (h : Host) (dir pid : string) :
  (exists r, fst (fst (Analyzer.Analyze h dir pid [])) = Some r)
  <->
  List.length (snd (Analyzer.Analyze h dir pid [])) = 4%nat
  /\ Forall (fun i => inv_err i = None)
            (snd (Analyzer.Analyze h dir pid [])).
Proof.
  rewrite Analyze_unfold.
  destruct (Analyzer.preflightChecks h dir) as [err|].
  { cbn. split; [intros [r H]; discriminate | intros [H _]; discriminate]. }
  cbn [fst snd].
  destruct (Claude_Analyze_outcome h dir pid);
    cbn [fst snd option_map List.length]; split;
    try (intros [r Hr]; discriminate Hr);
    try (intros [Hl _]; discriminate Hl);
    try (intros [_ Hf]; inversion Hf as [|? ? Hd _]; discriminate Hd).
  - intros _. split; [reflexivity | repeat constructor].
  - intros _. eexists. reflexivity.
Qed.

Lemma untouched_refl (a : CodeAnalysis) : untouched a a.
Proof. unfold untouched. repeat split. Qed.

Lemma untouched_trans (a b c : CodeAnalysis) :
  untouched a b -> untouched b c -> untouched a c.
Proof.
  unfold untouched.
  intros (A1&A2&A3&A4&A5&A6&A7&A8) (B1&B2&B3&B4&B5&B6&B7&B8).
  repeat split; congruence.
Qed.

Lemma readBasicStructure_untouched (h : Host) (o : string)
      (a : CodeAnalysis) : untouched a (readBasicStructure h o a).
Proof.
  unfold readBasicStructure, parseBasicStructureHeuristic. cbv zeta.
  generalize (extractNumber o re_endpoints) as n.
  repeat match goal with
         | |- context [List.find ?f ?l] => generalize (List.find f l)
         end.
  generalize (json_Unmarshal h o).
  intros js fw lang n.
  destruct a as [? ? ? ? ? ? ? ? ? ? ? ? ? ? ? ? ? []].
  unfold untouched.
  destruct js as [js|]; [fields; repeat split|].
  destruct lang as [lang|], fw as [fw|]; fields;
    destruct (n =? 0); fields; repeat split.
Qed.

Lemma readDatabaseAndAPI_untouched (h : Host) (o : string)
      (a : CodeAnalysis) : untouched a (readDatabaseAndAPI h o a).
Proof.
  destruct a as [? ? ? ? ? ? ? ? ? ? ? ? ? ? ? ? ? []]. unfold untouched. fields. repeat split.
Qed.

Lemma readPerformanceAndScaling_untouched (h : Host) (o : string)
      (a : CodeAnalysis) : untouched a (readPerformanceAndScaling h o a).
Proof.
  destruct a as [? ? ? ? ? ? ? ? ? ? ? ? ? ? ? ? ? []]. unfold untouched. fields. repeat split.
Qed.

Lemma readResources_untouched (h : Host) (o : string)
      (a : CodeAnalysis) : untouched a (readResources h o a).
Proof.
  destruct a as [? ? ? ? ? ? ? ? ? ? ? ? ? ? ? ? ? []]. unfold untouched. fields. repeat split.
Qed.

Lemma postProcess_untouched (oor : float64 -> Z) (a : CodeAnalysis) :
  untouched a (Analyzer.postProcess oor a).
Proof. rewrite postProcess_eq. unfold untouched. fields. repeat split. Qed.

(** What [Analyze] returns when it returns a report: the normalised
    reading of the four outputs of the tool. *)
Lemma Analyze_report_reading (h : Host) (dir pid : string)
      (r : CodeAnalysis) :
  fst (fst (Analyzer.Analyze h dir pid [])) = Some r ->
  exists o1 o2 o3 o4,
    r = Analyzer.postProcess (int_oor h) (after4 h dir pid o1 o2 o3 o4).
Proof.
  rewrite Analyze_unfold.
  destruct (Analyzer.preflightChecks h dir) as [err|]; [discriminate|].
  cbn [fst].
  destruct (Claude_Analyze_outcome h dir pid); cbn [fst snd option_map];
    try discriminate.
  intros Hr. injection Hr as <-. now exists o1, o2, o3, o4.
Qed.

(** A report [Analyze] returns has the fields of [newAnalysis] wherever no
    pass and no step of the normaliser writes. *)
Lemma Analyze_report_untouched (h : Host) (dir pid : string)
      (r : CodeAnalysis) :
  fst (fst (Analyzer.Analyze h dir pid [])) = Some r ->
  untouched (newAnalysis h dir pid) r.
Proof.
  intros H. destruct (Analyze_report_reading h dir pid r H)
    as (o1 & o2 & o3 & o4 & ->).
  apply (untouched_trans _ (after4 h dir pid o1 o2 o3 o4));
    [|apply postProcess_untouched].
  apply (untouched_trans _ (after3 h dir pid o1 o2 o3));
    [|apply readResources_untouched].
  apply (untouched_trans _ (after2 h dir pid o1 o2));
    [|apply readPerformanceAndScaling_untouched].
  apply (untouched_trans _ (after1 h dir pid o1));
    [|apply readDatabaseAndAPI_untouched].
  apply readBasicStructure_untouched.
Qed.

(** X11 - a report [Analyze] returns carries the project ID and the
    directory it was asked for and the time of the host; no pass ever
    fills its stateless-function count, its security issues, its average
    response time, its query count or its cache hit rate, which are
    zero. *)
Theorem Analyze_report_identity (h : Host) (dir pid : string)
        (r : CodeAnalysis) :
  fst (fst (Analyzer.Analyze h dir pid [])) = Some r ->
  ProjectID r = pid /\ Directory r = dir /\ Timestamp r = Now h
  /\ StatelessFuncs r = 0 /\ SecurityIssues r = []
  /\ AvgResponseTime (Performance r) = 0
  /\ DatabaseQueries (Performance r) = 0
  /\ CacheHitRate (Performance r) = 0.
Proof.
  intros H. pose proof (Analyze_report_untouched h dir pid r H) as U.
  destruct U as (U1&U2&U3&U4&U5&U6&U7&U8).
  rewrite U1, U2, U3, U4, U5, U6, U7, U8. unfold newAnalysis.
  cbv beta iota delta
      [ProjectID Timestamp Directory StatelessFuncs SecurityIssues
       Performance zeroPerformanceMetrics AvgResponseTime DatabaseQueries
       CacheHitRate].
  repeat split.
Qed.

Lemma Analyze_report_identity_witness :
  ProjectID sample_report = "p" /\ Directory sample_report = "."
  /\ Timestamp sample_report = Now sample_host
  /\ StatelessFuncs sample_report = 0 /\ SecurityIssues sample_report = []
  /\ AvgResponseTime (Performance sample_report) = 0
  /\ DatabaseQueries (Performance sample_report) = 0
  /\ CacheHitRate (Performance sample_report) = 0.
Proof.
  apply (Analyze_report_identity sample_host "." "p" sample_report).
  vm_compute. reflexivity.
Defined.

End OrchestratorFacts.

(** * Beyond the specification: reports, the sink and the command *)

Section ReportFacts.
Import Strings Claude Spec Props.
Open Scope string_scope.
Open Scope Z_scope.

Lemma extractCacheUsage_incl (h : Host) (text : string) :
  incl (extractCacheUsage h text) cacheTypes.
Proof.
  unfold extractCacheUsage. cbv zeta.
  generalize (ToLower (unicode_lower h) text) as lower. intros lower.
  unfold cacheTypes. cbn [fold_left].
  destruct (Contains lower "redis"), (Contains lower "memcached"),
    (Contains lower "memory cache"), (Contains lower "cdn"),
    (Contains lower "browser cache");
    intros x I; cbn in I |- *; tauto.
Qed.

Lemma after4_database (h : Host) (dir pid o1 o2 o3 o4 : string) :
  let a := after4 h dir pid o1 o2 o3 o4 in
  ComplexityScore a = extractComplexity o2
  /\ DatabaseCalls a = extractNumber o2 re_database
  /\ CacheUsage a = extractCacheUsage h o2.
Proof.
  unfold after4, after3, after2. generalize (after1 h dir pid o1).
  intros a0.
  unfold readResources, readPerformanceAndScaling, readDatabaseAndAPI.
  generalize (extractComplexity o2) as c.
  generalize (extractNumber o2 re_database) as d.
  generalize (extractCacheUsage h o2) as u.
  intros u d c. fields. auto.
Qed.

(** X14 - in every report [Analyze] returns the user estimate is the
    formula, in float64 arithmetic, on the complexity score, the endpoint
    count and the job list of that very report; its database-call count
    is a non-negative [int] and its cache technologies are among the five
    names the extractor knows. *)
Theorem Analyze_report_estimate (h : Host) (dir pid : string)
        (r : CodeAnalysis) :
  fst (fst (Analyzer.Analyze h dir pid [])) = Some r ->
  EstimatedUsers r
  = estimated_users (int_oor h) (ComplexityScore r) (ApiEndpoints r)
                    (BackgroundJobs r)
  /\ 0 <= DatabaseCalls r <= max_int
  /\ incl (CacheUsage r) cacheTypes.
Proof.
  intros H. destruct (Analyze_report_reading h dir pid r H)
    as (o1 & o2 & o3 & o4 & ->).
  clear H. destruct (after4_database h dir pid o1 o2 o3 o4) as (C & D & U).
  revert C D U. generalize (after4 h dir pid o1 o2 o3 o4).
  intros a C D U.
  pose proof (extractComplexity_range o2) as Rg. rewrite <- C in Rg.
  rewrite postProcess_eq.
  cbn [EstimatedUsers ComplexityScore ApiEndpoints BackgroundJobs
       DatabaseCalls CacheUsage].
  rewrite estimateCurrentUsers_eq, default_complexity_nonzero by lia.
  rewrite D, U. split; [reflexivity | split].
  - split; [apply extractNumber_nonneg; cbv; tauto
           | apply extractNumber_fits].
  - apply extractCacheUsage_incl.
Qed.

Lemma Analyze_report_estimate_witness :
  EstimatedUsers sample_report
  = estimated_users (int_oor sample_host) (ComplexityScore sample_report)
                    (ApiEndpoints sample_report)
                    (BackgroundJobs sample_report)
  /\ 0 <= DatabaseCalls sample_report <= max_int
  /\ incl (CacheUsage sample_report) cacheTypes.
Proof.
  apply (Analyze_report_estimate sample_host "." "p" sample_report).
  vm_compute. reflexivity.
Defined.

(** X15 - when the directory does not exist or the tool is not on the
    path, [Analyze] fails before any run of the tool, with no report and
    the message that names the cause. *)
Theorem Analyze_preflight_stops (h : Host) (dir pid : string) :
  NotExist h dir = true \/ LookPath h "claude" = false ->
  snd (Analyzer.Analyze h dir pid []) = []
  /\ (fst (Analyzer.Analyze h dir pid [])
      = (None, Some ("directory does not exist: " ++ dir))
      \/ fst (Analyzer.Analyze h dir pid [])
         = (None, Some "Claude Code CLI not installed")).
Proof.
  intros H. rewrite Analyze_unfold. unfold Analyzer.preflightChecks.
  destruct (NotExist h dir) eqn:N; [cbn; auto|].
  destruct H as [H|H]; [discriminate|].
  unfold IsInstalled. rewrite H. cbn. auto.
Qed.

Lemma Analyze_preflight_stops_witness :
  snd (Analyzer.Analyze
         (mkHost (fun s => s) (fun s => s) (fun s => s) (fun _ => None)
                 (fun _ => None) oor_amd64 (fun _ => false) 0
                 (fun _ => false) (fun _ _ _ => ("", None)))
         "." "p" []) = []
  /\ (fst (Analyzer.Analyze
             (mkHost (fun s => s) (fun s => s) (fun s => s) (fun _ => None)
                     (fun _ => None) oor_amd64 (fun _ => false) 0
                     (fun _ => false) (fun _ _ _ => ("", None)))
             "." "p" [])
      = (None, Some ("directory does not exist: " ++ "."))
      \/ fst (Analyzer.Analyze
                (mkHost (fun s => s) (fun s => s) (fun s => s)
                        (fun _ => None) (fun _ => None) oor_amd64
                        (fun _ => false) 0 (fun _ => false)
                        (fun _ _ _ => ("", None)))
                "." "p" [])
         = (None, Some "Claude Code CLI not installed")).
Proof.
  apply (Analyze_preflight_stops
           (mkHost (fun s => s) (fun s => s) (fun s => s) (fun _ => None)
                   (fun _ => None) oor_amd64 (fun _ => false) 0
                   (fun _ => false) (fun _ _ _ => ("", None)))
           "." "p").
  right. reflexivity.
Defined.

End ReportFacts.

(** * Beyond the specification: the normaliser *)

Section NormaliserFacts.
Import Strings Analyzer Spec Props.
Open Scope string_scope.
Open Scope Z_scope.

Lemma clamp_fixed (x lo hi : Z) :
  lo <= hi -> (clamp x lo hi = x <-> lo <= x <= hi).
Proof. unfold clamp. lia. Qed.

Lemma leb_not_ltb (x c : float64) : leb c x = true -> ltb x c = false.
Proof.
  unfold ltb, leb, SFltb, SFleb. rewrite (SFcompare_swap x c).
  destruct (SFcompare x c) as [[]|]; simpl; congruence.
Qed.

Lemma nan_not_ltb (x c : float64) :
  is_nan x = true -> ltb x c = false /\ ltb c x = false.
Proof.
  destruct x; try discriminate. intros _.
  unfold ltb, SFltb. destruct c as [[]|[]| |[] ? ?]; split; reflexivity.
Qed.

Lemma fclamp_fixed (x : float64) :
  fclamp x f0_1 f32 = x <-> is_nan x = true \/ fbetween f0_1 x f32.
Proof.
  unfold fclamp, fbetween. split.
  - destruct (ltb x f0_1) eqn:L.
    { intros <-. vm_compute in L. discriminate L. }
    destruct (gtb x f32) eqn:G.
    { intros <-. vm_compute in G. discriminate G. }
    intros _. destruct (is_nan x) eqn:N; [now left | right].
    split; [now apply not_ltb_leb | now apply (not_gtb_leb x f32)].
  - change (gtb x f32) with (ltb f32 x). intros [N | [L G]].
    + destruct (nan_not_ltb x f0_1 N) as [-> _].
      destruct (nan_not_ltb x f32 N) as [_ ->]. reflexivity.
    + now rewrite (leb_not_ltb x f0_1 L), (leb_not_ltb f32 x G).
Qed.

Lemma default_string_fixed (s : string) :
  default_string s = s <-> s <> EmptyString.
Proof.
  unfold default_string. destruct s; simpl; split; congruence.
Qed.

Lemma default_complexity_fixed (c : Z) :
  default_complexity c = c <-> c <> 0.
Proof.
  unfold default_complexity.
  destruct (c =? 0) eqn:E; [apply Z.eqb_eq in E | apply Z.eqb_neq in E];
    lia.
Qed.

(** X16 - the reports [postProcess] returns unchanged are exactly those
    with a language and a framework, a complexity score other than 0, the
    user estimate of the formula and every resource estimate within its
    interval, where a CPU estimate that is not a number counts as within. *)
Theorem postProcess_fixed_points (oor : float64 -> Z) (r : CodeAnalysis) :
  postProcess oor r = r <-> settled oor r.
Proof.
  rewrite postProcess_eq, estimateCurrentUsers_eq, validateResources_eq.
  unfold settled.
  destruct r as [pid ts dir lang fw deps dbc api sf jobs cache up cx bns
                   [mem cpu conns net sto] eu sec perf].
  cbn [ProjectID Timestamp Directory Language Framework Dependencies
       DatabaseCalls ApiEndpoints StatelessFuncs BackgroundJobs CacheUsage
       FileUploads ComplexityScore ScalingBottlenecks ResourceUsage
       EstimatedUsers SecurityIssues Performance MemoryMB CPUCores
       DatabaseConns NetworkMbps StorageGB].
  rewrite <- default_string_fixed, <- (default_string_fixed fw),
    <- default_complexity_fixed, <- fclamp_fixed,
    <- (clamp_fixed mem 128 16384), <- (clamp_fixed conns 1 1000),
    <- (clamp_fixed net 1 10000), <- (clamp_fixed sto 1 10000) by lia.
  split.
  - intros H. injection H as -> -> -> -> -> -> -> -> ->.
    repeat split; try reflexivity; congruence.
  - intros (-> & -> & -> & E & -> & -> & -> & -> & ->).
    now rewrite <- E.
Qed.

Lemma Zrange_In (lo x : Z) (n : nat) :
  lo <= x < lo + Z.of_nat n -> In x (Zrange lo n).
Proof.
  intros H. unfold Zrange. apply in_map_iff.
  exists (Z.to_nat (x - lo)). split; [lia|].
  apply in_seq. lia.
Qed.

Lemma users_close_range :
  forallb (fun c =>
             forallb (fun e => users_close c e false && users_close c e true)
                     (Zrange 0 201))
          (Zrange 1 100) = true.
Proof. vm_compute. reflexivity. Qed.

Lemma users_close_estimate (oor : float64 -> Z) (c e : Z)
      (jobs : list string) :
  users_close c e (match jobs with [] => false | _ :: _ => true end) = true ->
  let u := estimated_users oor c e jobs in
  (inject_Z u == estimated_users_exact c e jobs)%Q
  \/ (inject_Z u + 1 == estimated_users_exact c e jobs)%Q.
Proof.
  unfold users_close, estimated_users, users_product, to_int. cbv zeta.
  replace (match jobs with [] => of_int 1 | _ :: _ => of_decimal 15 1 end)
    with (if match jobs with [] => false | _ :: _ => true end
          then of_decimal 15 1 else of_int 1)
    by (destruct jobs; reflexivity).
  replace (estimated_users_exact c e jobs)
    with (estimated_users_exact c e
            (if match jobs with [] => false | _ :: _ => true end
             then [EmptyString] else []))
    by (destruct jobs; reflexivity).
  generalize (match jobs with [] => false | _ :: _ => true end) as j.
  intros j.
  match goal with
  | |- context [trunc ?p] => generalize p
  end.
  intros p. destruct (trunc p) as [z|]; [|discriminate].
  destruct ((min_int <=? z) && (z <=? max_int)); [|discriminate].
  cbn [andb]. intros H. apply orb_true_iff in H.
  destruct H as [H|H]; apply Qeq_bool_iff in H; auto.
Qed.

(** X17 - for a complexity score from 1 to 100 and up to 200 endpoints the
    user estimate of [estimateCurrentUsers], computed in float64 and cut to
    an integer, is the value of the formula over the rationals or one less
    than it, whatever the platform does with unrepresentable values. *)
Theorem estimateCurrentUsers_close (oor : float64 -> Z) (r : CodeAnalysis) :
  1 <= ComplexityScore r <= 100 ->
  0 <= ApiEndpoints r <= 200 ->
  let u := estimateCurrentUsers oor r in
  let exact := estimated_users_exact (ComplexityScore r) (ApiEndpoints r)
                                     (BackgroundJobs r) in
  (inject_Z u == exact)%Q \/ (inject_Z u + 1 == exact)%Q.
Proof.
  intros C E. cbv zeta. rewrite estimateCurrentUsers_eq.
  apply users_close_estimate.
  pose proof users_close_range as R.
  rewrite forallb_forall in R.
  assert (IC : In (ComplexityScore r) (Zrange 1 100))
    by (apply Zrange_In; lia).
  assert (IE : In (ApiEndpoints r) (Zrange 0 201))
    by (apply Zrange_In; lia).
  specialize (R _ IC). rewrite forallb_forall in R. specialize (R _ IE).
  apply andb_true_iff in R. destruct R as [R0 R1].
  destruct (BackgroundJobs r); assumption.
Qed.

Lemma estimateCurrentUsers_close_witness :
  let r := set_ApiEndpoints 23 (set_ComplexityScore 5 zeroCodeAnalysis) in
  let u := estimateCurrentUsers oor_amd64 r in
  let exact := estimated_users_exact (ComplexityScore r) (ApiEndpoints r)
                                     (BackgroundJobs r) in
  (inject_Z u == exact)%Q \/ (inject_Z u + 1 == exact)%Q.
Proof.
  apply (estimateCurrentUsers_close oor_amd64
           (set_ApiEndpoints 23 (set_ComplexityScore 5 zeroCodeAnalysis)));
    simpl; lia.
Defined.

End NormaliserFacts.

(** * Beyond the specification: configuration, the API client and the
      command *)

Section SinkFacts.
Import Strings Api Cmd Spec Props.
Open Scope string_scope.
Open Scope Z_scope.

Lemma is_empty_false (s : string) : is_empty s = false <-> s <> EmptyString.
Proof. destruct s; simpl; split; congruence. Qed.

Lemma is_empty_true (s : string) : is_empty s = true <-> s = EmptyString.
Proof. destruct s; simpl; split; congruence. Qed.

(** X18 - [GetAPIKey] never returns an empty key: it returns the
    environment variable when that is set, else the configured key, and
    fails exactly when both are empty; [IsAuthenticated] holds exactly when
    [GetAPIKey] succeeds. *)
Theorem GetAPIKey_key (n : Net) :
  (forall key, GetAPIKey n = inl key ->
     key <> EmptyString
     /\ (key = Getenv n "CLOUDPORK_API_KEY"
         \/ (Getenv n "CLOUDPORK_API_KEY" = EmptyString
             /\ key = viper_String n "api_key")))
  /\ ((exists e, GetAPIKey n = inr e)
      <-> Getenv n "CLOUDPORK_API_KEY" = EmptyString
          /\ viper_String n "api_key" = EmptyString)
  /\ (IsAuthenticated n = true <-> exists key, GetAPIKey n = inl key).
Proof.
  unfold IsAuthenticated, GetAPIKey.
  destruct (is_empty (Getenv n "CLOUDPORK_API_KEY")) eqn:E; cbn [negb].
  - apply is_empty_true in E.
    destruct (is_empty (viper_String n "api_key")) eqn:V; cbn [negb].
    + apply is_empty_true in V. split; [|split].
      * intros key K. discriminate K.
      * split; [intros _; now split | intros _; eexists; reflexivity].
      * split; [discriminate | intros [key K]; discriminate K].
    + rewrite V. apply is_empty_false in V. split; [|split].
      * intros key K. injection K as <-. split; [exact V | right; now split].
      * split; [intros [e K]; discriminate K | intros [_ K]; contradiction].
      * split; [intros _; eexists; reflexivity | reflexivity].
  - rewrite E. apply is_empty_false in E. split; [|split].
    + intros key K. injection K as <-. split; [exact E | now left].
    + split; [intros [e K]; discriminate K | intros [K _]; contradiction].
    + split; [intros _; eexists; reflexivity | reflexivity].
Qed.

(** X19 - [SendAnalysis] returns no error exactly when a key was found,
    the report marshalled, the POST request to [/v1/analysis] built with
    that key as bearer token, and the server answered it with status 200
    or 201. *)
Theorem SendAnalysis_success (n : Net) (baseURL : string)
        (analysis : CodeAnalysis) :
  SendAnalysis n baseURL analysis = None
  <-> exists apiKey jsonData resp,
        GetAPIKey n = inl apiKey
        /\ json_Marshal n (mkPayload analysis "1.0.0" "cli") = inl jsonData
        /\ url_error n (baseURL ++ "/v1/analysis") = None
        /\ Do n (mkRequest "POST" (baseURL ++ "/v1/analysis") jsonData
                   [("Content-Type", "application/json");
                    ("Authorization", "Bearer " ++ apiKey);
                    ("User-Agent", "CloudPork-Agent/1.0")]) = inl resp
        /\ (StatusCode resp = 200 \/ StatusCode resp = 201).
Proof.
  unfold SendAnalysis, analysisRequest, userAgent, StatusOK, StatusCreated.
  cbv zeta. split.
  - destruct (GetAPIKey n) as [apiKey|e]; [|discriminate].
    destruct (json_Marshal n _) as [jsonData|e]; [|discriminate].
    destruct (url_error n _) as [e|] eqn:U; [discriminate|].
    destruct (Do n _) as [resp|e] eqn:D; [|discriminate].
    intros H. exists apiKey, jsonData, resp.
    repeat split; try reflexivity; try assumption.
    destruct (StatusCode resp =? 200) eqn:E1;
      [apply Z.eqb_eq in E1; now left|].
    destruct (StatusCode resp =? 201) eqn:E2;
      [apply Z.eqb_eq in E2; now right|].
    discriminate H.
  - intros (apiKey & jsonData & resp & -> & -> & -> & -> & S).
    destruct S as [-> | ->]; reflexivity.
Qed.

(** X20 - [ValidateAPIKey] accepts a key exactly when the request could be
    built and sent and the server answered with status 200; on status 401
    the error is [invalid API key]. *)
Theorem ValidateAPIKey_result (n : Net) (baseURL apiKey : string) :
  let url := baseURL ++ "/v1/auth/validate" in
  (ValidateAPIKey n baseURL apiKey = None
   <-> url_error n url = None
       /\ exists resp, Do n (get_request url apiKey) = inl resp
                       /\ StatusCode resp = 200)
  /\ (ValidateAPIKey n baseURL apiKey = Some "invalid API key"
      <-> url_error n url = None
          /\ exists resp, Do n (get_request url apiKey) = inl resp
                          /\ StatusCode resp = 401).
Proof.
  cbv zeta. unfold ValidateAPIKey, get_request, userAgent, wrap,
    StatusUnauthorized, StatusOK. cbv zeta.
  destruct (url_error n _) as [e|].
  { split; split; try discriminate; intros [U _]; discriminate U. }
  destruct (Do n _) as [resp|e].
  2:{ split; split; try discriminate;
      intros [_ [resp [D _]]]; discriminate D. }
  destruct (StatusCode resp =? 401) eqn:E1.
  { apply Z.eqb_eq in E1. split; split.
    - discriminate.
    - intros [_ [resp' [D S]]]. injection D as <-. lia.
    - intros _. split; [reflexivity | now exists resp].
    - reflexivity. }
  apply Z.eqb_neq in E1.
  destruct (StatusCode resp =? 200) eqn:E2; cbn [negb].
  - apply Z.eqb_eq in E2. split; split.
    + intros _. split; [reflexivity | now exists resp].
    + reflexivity.
    + discriminate.
    + intros [_ [resp' [D S]]]. injection D as <-. contradiction.
  - apply Z.eqb_neq in E2. split; split.
    + discriminate.
    + intros [_ [resp' [D S]]]. injection D as <-. contradiction.
    + intros H. cbn [append] in H. discriminate H.
    + intros [_ [resp' [D S]]]. injection D as <-. contradiction.
Qed.

(** X21 - [GetProjectInfo] returns a project or an error, never both and
    never neither; it returns a project only when a key was found, the
    server answered the GET request for that project with status 200 and
    the body decoded to it. *)
Theorem GetProjectInfo_result (n : Net)
        (decode : string -> ProjectInfo + error)
        (baseURL projectID : string) :
  let res := GetProjectInfo n decode baseURL projectID in
  ((exists info, res = (Some info, None))
   \/ (exists e, res = (None, Some e)))
  /\ (forall info,
        fst res = Some info <->
        exists apiKey resp,
          GetAPIKey n = inl apiKey
          /\ url_error n (baseURL ++ "/v1/projects/" ++ projectID) = None
          /\ Do n (get_request (baseURL ++ "/v1/projects/" ++ projectID)
                               apiKey) = inl resp
          /\ StatusCode resp = 200
          /\ decode (Body resp) = inl info).
Proof.
  cbv zeta. unfold GetProjectInfo, get_request, userAgent, StatusNotFound,
    StatusOK. cbv zeta.
  destruct (GetAPIKey n) as [apiKey|e].
  2:{ split; [right; eexists; reflexivity|]. intros info. split.
      - discriminate.
      - intros (k & resp & K & _). discriminate K. }
  destruct (url_error n _) as [e|].
  { split; [right; eexists; reflexivity|]. intros info. split.
    - discriminate.
    - intros (k & resp & _ & U & _). discriminate U. }
  destruct (Do n _) as [resp|e] eqn:D.
  2:{ split; [right; eexists; reflexivity|]. intros info. split.
      - discriminate.
      - intros (k & resp & K & _ & D' & _). injection K as <-.
        rewrite D in D'. discriminate D'. }
  destruct (StatusCode resp =? 404) eqn:E1.
  { apply Z.eqb_eq in E1.
    split; [right; eexists; reflexivity|]. intros info. split.
    - discriminate.
    - intros (k & resp' & K & _ & D' & S & _). injection K as <-.
      rewrite D in D'. injection D' as <-. lia. }
  destruct (StatusCode resp =? 200) eqn:E2; cbn [negb].
  2:{ apply Z.eqb_neq in E2.
      split; [right; eexists; reflexivity|]. intros info. split.
      - discriminate.
      - intros (k & resp' & K & _ & D' & S & _). injection K as <-.
        rewrite D in D'. injection D' as <-. contradiction. }
  apply Z.eqb_eq in E2.
  destruct (decode (Body resp)) as [info'|e] eqn:Dec.
  - split; [left; eexists; reflexivity|]. intros info. split.
    + intros H. injection H as <-. now exists apiKey, resp.
    + intros (k & resp' & K & _ & D' & _ & Dec'). injection K as <-.
      rewrite D in D'. injection D' as <-. rewrite Dec in Dec'.
      injection Dec' as <-. reflexivity.
  - split; [right; eexists; reflexivity|]. intros info. split.
    + discriminate.
    + intros (k & resp' & K & _ & D' & _ & Dec'). injection K as <-.
      rewrite D in D'. injection D' as <-. rewrite Dec in Dec'.
      discriminate Dec'.
Qed.

Lemma buffer_length (size : nat) (read : string) :
  String.length (buffer size read) = size.
Proof.
  revert read. induction size as [|size IH]; intros read; [reflexivity|].
  destruct read; simpl; now rewrite IH.
Qed.

Lemma EncodeToString_length (src : string) :
  String.length (EncodeToString src) = (2 * String.length src)%nat.
Proof. induction src as [|b src IH]; simpl; [reflexivity | lia]. Qed.

Lemma nibble_cases (n : N) :
  (n < 16)%N ->
  In n [0; 1; 2; 3; 4; 5; 6; 7; 8; 9; 10; 11; 12; 13; 14; 15]%N.
Proof.
  intros H. simpl.
  destruct n as [|[[[[?|?|]|[?|?|]|]|[[?|?|]|[?|?|]|]|]
                  |[[[?|?|]|[?|?|]|]|[[?|?|]|[?|?|]|]|]|]];
    try lia; tauto.
Qed.

Lemma hex_digit_code (n : N) :
  (n < 16)%N ->
  N_of_ascii (hex_digit n) = (if (n <? 10)%N then 48 + n else 87 + n)%N.
Proof.
  intros H. apply nibble_cases in H. simpl in H.
  repeat (destruct H as [<-|H]; [reflexivity|]). contradiction.
Qed.

Lemma hex_digit_is_hex (n : N) : (n < 16)%N -> is_hex (hex_digit n) = true.
Proof.
  intros H. apply nibble_cases in H. simpl in H.
  repeat (destruct H as [<-|H]; [reflexivity|]). contradiction.
Qed.

Lemma hex_digit_inj (n m : N) :
  (n < 16)%N -> (m < 16)%N -> hex_digit n = hex_digit m -> n = m.
Proof.
  intros Hn Hm E. apply (f_equal N_of_ascii) in E.
  rewrite !hex_digit_code in E by assumption.
  destruct (n <? 10)%N eqn:A, (m <? 10)%N eqn:B;
    try apply N.ltb_lt in A; try apply N.ltb_ge in A;
    try apply N.ltb_lt in B; try apply N.ltb_ge in B; lia.
Qed.

Lemma byte_nibbles (b : ascii) :
  (N_of_ascii b / 16 < 16)%N /\ (N_of_ascii b mod 16 < 16)%N.
Proof.
  pose proof (N_ascii_bounded b) as B. split.
  - apply N.Div0.div_lt_upper_bound. exact B.
  - apply N.mod_lt. discriminate.
Qed.

Lemma EncodeToString_hex (src : string) :
  all_bytes is_hex (EncodeToString src) = true.
Proof.
  induction src as [|b src IH]; [reflexivity|].
  destruct (byte_nibbles b) as [Hq Hr]. cbn [EncodeToString all_bytes].
  now rewrite !hex_digit_is_hex, IH.
Qed.

Lemma EncodeToString_inj (a b : string) :
  EncodeToString a = EncodeToString b -> a = b.
Proof.
  revert b. induction a as [|x a IH]; intros [|y b] E;
    try reflexivity; try discriminate E.
  cbn [EncodeToString] in E. injection E as Eq Er E.
  destruct (byte_nibbles x) as [Xq Xr], (byte_nibbles y) as [Yq Yr].
  apply hex_digit_inj in Eq; [|assumption..].
  apply hex_digit_inj in Er; [|assumption..].
  f_equal; [|now apply IH].
  rewrite <- (ascii_N_embedding x), <- (ascii_N_embedding y). f_equal.
  rewrite (N.div_mod (N_of_ascii x) 16), (N.div_mod (N_of_ascii y) 16)
    by discriminate.
  now rewrite Eq, Er.
Qed.

Lemma substring_all (s : string) :
  String.substring 0 (String.length s) s = s.
Proof. induction s as [|c s IH]; simpl; [reflexivity | now rewrite IH]. Qed.

(** X22 - whatever [rand.Read] yields, a generated project ID has 21
    bytes: [proj_] and 16 lower-case hexadecimal digits; two generated IDs
    are equal only when the eight bytes of their buffers are. *)
Theorem GenerateProjectID_shape (random : string) :
  String.length (GenerateProjectID random) = 21%nat
  /\ String.substring 0 5 (GenerateProjectID random) = "proj_"
  /\ all_bytes is_hex (String.substring 5 16 (GenerateProjectID random))
     = true
  /\ forall random',
       GenerateProjectID random = GenerateProjectID random'
       <-> buffer 8 random = buffer 8 random'.
Proof.
  unfold GenerateProjectID.
  pose proof (EncodeToString_length (buffer 8 random)) as L.
  rewrite buffer_length in L.
  split; [|split; [|split]].
  - cbn [append String.length]. now rewrite L.
  - destruct (EncodeToString (buffer 8 random)); reflexivity.
  - cbn [append String.substring].
    change 16%nat with (2 * 8)%nat. rewrite <- L, substring_all.
    apply EncodeToString_hex.
  - intros random'. split.
    + intros H. cbn [append] in H. injection H as H.
      now apply EncodeToString_inj.
    + now intros ->.
Qed.

End SinkFacts.

(** * Beyond the specification: the analyze command *)

Section CommandFacts.
Import Strings Claude Api Cmd Spec Props.
Open Scope string_scope.
Open Scope Z_scope.

Lemma Analyze_report_log (h : Host) (dir pid : string) (r : CodeAnalysis) :
  fst (fst (Analyzer.Analyze h dir pid [])) = Some r ->
  List.length (snd (Analyzer.Analyze h dir pid [])) = 4%nat.
Proof.
  rewrite Analyze_unfold.
  destruct (Analyzer.preflightChecks h dir) as [err|]; [discriminate|].
  cbn [fst snd].
  destruct (Claude_Analyze_outcome h dir pid);
    cbn [fst snd option_map List.length]; try discriminate.
  reflexivity.
Qed.

Lemma projectIDFor_nonempty (n : Net) (sh : Shell) (projectID : string) :
  projectIDFor n sh projectID <> EmptyString.
Proof.
  unfold projectIDFor. cbv zeta.
  destruct (is_empty projectID) eqn:P.
  - destruct (is_empty (viper_String n "project-id")) eqn:V.
    + unfold GenerateProjectID. cbn [append]. discriminate.
    + destruct (viper_String n "project-id"); [discriminate V | discriminate].
  - rewrite P. destruct projectID; [discriminate P | discriminate].
Qed.

Lemma unauthenticated_key (n : Net) :
  IsAuthenticated n = false ->
  GetAPIKey n
  = inr "no API key found. Run 'cloudpork auth login' to authenticate".
Proof.
  unfold IsAuthenticated, GetAPIKey.
  destruct (is_empty (Getenv n "CLOUDPORK_API_KEY")) eqn:E; cbn [negb].
  - destruct (is_empty (viper_String n "api_key")) eqn:V; cbn [negb].
    + reflexivity.
    + rewrite V. discriminate.
  - rewrite E. discriminate.
Qed.

(** [runAnalyze] once the directory is resolved and found. *)
Lemma runAnalyze_unfold (h : Host) (n : Net) (sh : Shell)
      (projectID output : string) (args : list string) (absPath : string) :
  Abs sh (hd "." args) = inl absPath ->
  NotExist h absPath = false ->
  runAnalyze h n sh projectID output args [] =
  (match fst (Analyzer.Analyze h absPath (projectIDFor n sh projectID) [])
   with
   | (_, Some err) => Some (wrap "analysis failed" err)
   | (None, None) =>
       Some "invalid memory address or nil pointer dereference"
   | (Some result, None) =>
       if String.eqb output "json" then PrintJSON sh result
       else SendAnalysis n defaultBaseURL result
   end,
   snd (Analyzer.Analyze h absPath (projectIDFor n sh projectID) [])).
Proof.
  intros A N. unfold runAnalyze. cbv zeta.
  change (match args with arg :: _ => arg | [] => "." end)
    with (hd "." args).
  rewrite A, N. unfold bind, ret.
  destruct (Analyzer.Analyze h absPath (projectIDFor n sh projectID) [])
    as [[[r|] [e|]] w]; cbn [fst snd]; try reflexivity.
  destruct (String.eqb output "json"); [reflexivity|].
  destruct (SendAnalysis n defaultBaseURL r); reflexivity.
Qed.

(** X23 - when [runAnalyze] returns no error, the directory was resolved
    and exists, the tool was run four times, the report carries that
    directory and a project ID that is not empty (the flag, else the
    configured one, else a generated one), and the report was marshalled
    in json mode and otherwise accepted by the API. *)
Theorem runAnalyze_success (h : Host) (n : Net) (sh : Shell)
        (projectID output : string) (args : list string) :
  fst (runAnalyze h n sh projectID output args []) = None ->
  exists absPath r,
    Abs sh (hd "." args) = inl absPath
    /\ NotExist h absPath = false
    /\ fst (Analyzer.Analyze h absPath (projectIDFor n sh projectID) [])
       = (Some r, None)
    /\ List.length (snd (runAnalyze h n sh projectID output args []))
       = 4%nat
    /\ Directory r = absPath
    /\ ProjectID r = projectIDFor n sh projectID
    /\ ProjectID r <> EmptyString
    /\ (if String.eqb output "json"
        then exists js, MarshalIndent sh r = inl js
        else SendAnalysis n defaultBaseURL r = None).
Proof.
  destruct (Abs sh (hd "." args)) as [absPath|e] eqn:A.
  2:{ unfold runAnalyze. cbv zeta.
      change (match args with arg :: _ => arg | [] => "." end)
        with (hd "." args).
      rewrite A. discriminate. }
  destruct (NotExist h absPath) eqn:N.
  { unfold runAnalyze. cbv zeta.
    change (match args with arg :: _ => arg | [] => "." end)
      with (hd "." args).
    rewrite A, N. discriminate. }
  rewrite (runAnalyze_unfold h n sh projectID output args absPath A N).
  cbn [fst snd].
  destruct (fst (Analyzer.Analyze h absPath (projectIDFor n sh projectID)
                                  []))
    as [[r|] [e|]] eqn:R; try discriminate.
  intros S. exists absPath, r.
  assert (Hr : fst (fst (Analyzer.Analyze h absPath
                           (projectIDFor n sh projectID) [])) = Some r)
    by now rewrite R.
  destruct (Analyze_report_untouched _ _ _ _ Hr) as (U1 & _ & U3 & _).
  assert (P : ProjectID r = projectIDFor n sh projectID) by exact U1.
  assert (D : Directory r = absPath) by exact U3.
  repeat split; try assumption.
  - now apply (Analyze_report_log h absPath _ r).
  - rewrite P. apply projectIDFor_nonempty.
  - destruct (String.eqb output "json"); [|exact S].
    unfold PrintJSON in S.
    destruct (MarshalIndent sh r) as [js|e]; [now exists js | discriminate].
Qed.

Lemma runAnalyze_success_witness :
  exists absPath r,
    Abs plain_shell (hd "." []) = inl absPath
    /\ NotExist sample_host absPath = false
    /\ fst (Analyzer.Analyze sample_host absPath
              (projectIDFor (answering 201 "") plain_shell "p") [])
       = (Some r, None)
    /\ List.length
         (snd (runAnalyze sample_host (answering 201 "") plain_shell "p"
                          "quiet" [] [])) = 4%nat
    /\ Directory r = absPath
    /\ ProjectID r = projectIDFor (answering 201 "") plain_shell "p"
    /\ ProjectID r <> EmptyString
    /\ (if String.eqb "quiet" "json"
        then exists js, MarshalIndent plain_shell r = inl js
        else SendAnalysis (answering 201 "") defaultBaseURL r = None).
Proof.
  apply (runAnalyze_success sample_host (answering 201 "") plain_shell
           "p" "quiet" []).
  vm_compute. reflexivity.
Defined.

(** X24 - in json mode [runAnalyze] does not use the network or the API
    key: on two environments that agree on the configured project ID it
    runs the same and returns the same. *)
Theorem runAnalyze_json_offline (h : Host) (n n' : Net) (sh : Shell)
        (projectID : string) (args : list string) (w : World) :
  viper_String n "project-id" = viper_String n' "project-id" ->
  runAnalyze h n sh projectID "json" args w
  = runAnalyze h n' sh projectID "json" args w.
Proof.
  intros V. unfold runAnalyze. cbv zeta.
  destruct (Abs sh _) as [absPath|e]; [|reflexivity].
  destruct (NotExist h absPath); [reflexivity|].
  replace (projectIDFor n' sh projectID) with (projectIDFor n sh projectID)
    by (unfold projectIDFor; now rewrite V).
  unfold bind, ret.
  destruct (Analyzer.Analyze h absPath (projectIDFor n sh projectID) w)
    as [[[r|] [e|]] w']; reflexivity.
Qed.

Lemma runAnalyze_json_offline_witness :
  runAnalyze sample_host (answering 201 "") plain_shell "p" "json" [] []
  = runAnalyze sample_host keyless plain_shell "p" "json" [] [].
Proof.
  apply (runAnalyze_json_offline sample_host (answering 201 "") keyless
           plain_shell "p" [] []).
  reflexivity.
Defined.

(** X25 - without an API key and outside json mode [runAnalyze] never
    succeeds, yet the key is looked for only after the analysis: when the
    analysis gives a report the tool has been run four times and the error
    is the missing key. *)
Theorem runAnalyze_unauthenticated (h : Host) (n : Net) (sh : Shell)
        (projectID output : string) (args : list string) :
  IsAuthenticated n = false ->
  String.eqb output "json" = false ->
  fst (runAnalyze h n sh projectID output args []) <> None
  /\ forall absPath r,
       Abs sh (hd "." args) = inl absPath ->
       NotExist h absPath = false ->
       fst (Analyzer.Analyze h absPath (projectIDFor n sh projectID) [])
       = (Some r, None) ->
       fst (runAnalyze h n sh projectID output args [])
       = Some ("no API key found: no API key found. "
               ++ "Run 'cloudpork auth login' to authenticate")
       /\ List.length (snd (runAnalyze h n sh projectID output args []))
          = 4%nat.
Proof.
  intros K J. apply unauthenticated_key in K.
  assert (S : forall r, SendAnalysis n defaultBaseURL r
                        = Some ("no API key found: no API key found. "
                                ++ "Run 'cloudpork auth login' to "
                                ++ "authenticate")).
  { intros r. unfold SendAnalysis. rewrite K. reflexivity. }
  split.
  - destruct (Abs sh (hd "." args)) as [absPath|e] eqn:A.
    2:{ unfold runAnalyze. cbv zeta.
        change (match args with arg :: _ => arg | [] => "." end)
          with (hd "." args).
        rewrite A. discriminate. }
    destruct (NotExist h absPath) eqn:N.
    { unfold runAnalyze. cbv zeta.
      change (match args with arg :: _ => arg | [] => "." end)
        with (hd "." args).
      rewrite A, N. discriminate. }
    rewrite (runAnalyze_unfold h n sh projectID output args absPath A N).
    cbn [fst]. rewrite J.
    destruct (fst (Analyzer.Analyze h absPath _ [])) as [[r|] [e|]];
      try discriminate.
    rewrite S. discriminate.
  - intros absPath r A N R.
    rewrite (runAnalyze_unfold h n sh projectID output args absPath A N).
    cbn [fst snd]. rewrite R, J, S. split; [reflexivity|].
    apply (Analyze_report_log h absPath _ r). now rewrite R.
Qed.

Lemma runAnalyze_unauthenticated_witness :
  fst (runAnalyze sample_host keyless plain_shell "p" "quiet" [] [])
  <> None
  /\ forall absPath r,
       Abs plain_shell (hd "." []) = inl absPath ->
       NotExist sample_host absPath = false ->
       fst (Analyzer.Analyze sample_host absPath
              (projectIDFor keyless plain_shell "p") [])
       = (Some r, None) ->
       fst (runAnalyze sample_host keyless plain_shell "p" "quiet" [] [])
       = Some ("no API key found: no API key found. "
               ++ "Run 'cloudpork auth login' to authenticate")
       /\ List.length
            (snd (runAnalyze sample_host keyless plain_shell "p" "quiet"
                             [] [])) = 4%nat.
Proof.
  apply (runAnalyze_unauthenticated sample_host keyless plain_shell "p"
           "quiet" []); reflexivity.
Defined.

End CommandFacts.

(** * Beyond the specification: what the commands show *)

Section DisplayFacts.
Import Strings Claude Api Cmd Spec Props.
Open Scope string_scope.
Open Scope Z_scope.

Lemma extractBottlenecks_severities (h : Host) (text : string) :
  Forall (fun b => In (bn_Severity b) severities)
         (extractBottlenecks h text).
Proof.
  unfold extractBottlenecks. cbv zeta.
  set (step := fun (bottlenecks : list Bottleneck) (line : string) => _).
  pose (P := fun (_ : list string) (acc : list Bottleneck) =>
               Forall (fun b => In (bn_Severity b) severities) acc).
  apply (fold_left_invariant P step (Split text "010") [] []).
  - constructor.
  - unfold P, step. intros _ acc line S.
    destruct (is_empty _); [exact S|].
    destruct (Contains _ "database" && _);
      destruct (Contains _ "memory" && _);
      repeat (apply Forall_app; split);
      repeat (apply Forall_cons; [|apply Forall_nil]);
      try assumption;
      cbn [bn_Severity]; try apply extractSeverity_label;
      cbn; tauto.
Qed.

Lemma after4_bottlenecks (h : Host) (dir pid o1 o2 o3 o4 : string) :
  ScalingBottlenecks (after4 h dir pid o1 o2 o3 o4)
  = extractBottlenecks h o3.
Proof.
  unfold after4, after3. generalize (after2 h dir pid o1 o2).
  intros a0. unfold readResources, readPerformanceAndScaling.
  generalize (extractBottlenecks h o3) as b. intros b. fields.
  reflexivity.
Qed.

(** X26 - every bottleneck of a report [Analyze] returns has one of the
    four severities the report printer knows, so [getSeverityColor] never
    falls back to its default colour on it. *)
Theorem Analyze_report_severity_colors (h : Host) (dir pid : string)
        (r : CodeAnalysis) :
  fst (fst (Analyzer.Analyze h dir pid [])) = Some r ->
  Forall (fun b => In (bn_Severity b) severities
                   /\ getSeverityColor (bn_Severity b) <> [FgWhite])
         (ScalingBottlenecks r).
Proof.
  intros H. destruct (Analyze_report_reading h dir pid r H)
    as (o1 & o2 & o3 & o4 & ->).
  clear H. pose proof (after4_bottlenecks h dir pid o1 o2 o3 o4) as E.
  revert E. generalize (after4 h dir pid o1 o2 o3 o4). intros a E.
  rewrite postProcess_eq. cbn [ScalingBottlenecks]. rewrite E.
  eapply Forall_impl; [|apply extractBottlenecks_severities].
  intros b I. split; [exact I|].
  unfold severities in I. cbn [In] in I.
  destruct I as [<-|[<-|[<-|[<-|[]]]]]; cbv; discriminate.
Qed.

Lemma Analyze_report_severity_colors_witness :
  Forall (fun b => In (bn_Severity b) severities
                   /\ getSeverityColor (bn_Severity b) <> [FgWhite])
         (ScalingBottlenecks sample_report).
Proof.
  apply (Analyze_report_severity_colors sample_host "." "p" sample_report).
  vm_compute. reflexivity.
Defined.

Lemma substring_skip (a b : string) (m : nat) :
  String.substring (String.length a) m (a ++ b) = String.substring 0 m b.
Proof. induction a as [|c a IH]; simpl; [reflexivity | exact IH]. Qed.

Lemma substring_prefix (a b : string) :
  String.substring 0 (String.length a) (a ++ b) = a.
Proof.
  induction a as [|c a IH]; simpl; [destruct b; reflexivity|].
  now rewrite IH.
Qed.

Lemma length_append (a b : string) :
  String.length (a ++ b) = (String.length a + String.length b)%nat.
Proof. induction a as [|c a IH]; simpl; [reflexivity | now rewrite IH]. Qed.

(** X27 - of a key of more than eight bytes [maskAPIKey] shows the first
    three and the last four and nothing of what lies between; of a
    shorter key it shows nothing. *)
Theorem maskAPIKey_hides (prefix middle tail : string) :
  String.length prefix = 3%nat ->
  String.length tail = 4%nat ->
  (2 <= String.length middle)%nat ->
  maskAPIKey (prefix ++ middle ++ tail) = prefix ++ "***" ++ tail
  /\ forall short, (String.length short <= 8)%nat ->
                   maskAPIKey short = "cp_***".
Proof.
  intros P T M. split.
  - unfold maskAPIKey.
    assert (L : String.length (prefix ++ middle ++ tail)
                = (String.length (prefix ++ middle) + 4)%nat)
      by (rewrite !length_append; lia).
    assert (L' : String.length (prefix ++ middle)
                 = (3 + String.length middle)%nat)
      by (rewrite length_append; lia).
    destruct (String.length (prefix ++ middle ++ tail) <=? 8)%nat eqn:E.
    { apply Nat.leb_le in E. lia. }
    rewrite L. replace (String.length (prefix ++ middle) + 4 - 4)%nat
      with (String.length (prefix ++ middle)) by lia.
    f_equal; [|f_equal].
    + rewrite <- P. apply substring_prefix.
    + replace (prefix ++ middle ++ tail) with ((prefix ++ middle) ++ tail).
      * rewrite substring_skip, <- T. apply substring_all.
      * clear. induction prefix as [|c p IH]; simpl; [reflexivity|].
        now rewrite IH.
  - intros short S. unfold maskAPIKey.
    apply Nat.leb_le in S. now rewrite S.
Qed.

Lemma maskAPIKey_hides_witness :
  maskAPIKey ("cp_" ++ "0123456789" ++ "abcd") = "cp_" ++ "***" ++ "abcd"
  /\ forall short, (String.length short <= 8)%nat ->
                   maskAPIKey short = "cp_***".
Proof.
  apply (maskAPIKey_hides "cp_" "0123456789" "abcd"); simpl; lia.
Defined.

End DisplayFacts.
